(** * tempswap: the hashed-timelock swap interface and its client wrappers

    The development follows the two source files of the repository:

    - the contract interface (the JSON ABI of the swap contract): its six
      custom errors, five events and six functions, embedded as data in
      [Abi];
    - the React client [blockchain-context.js]: [calculateLockId],
      the amount scaling of [lockBuy] and [lockSell], and the
      [getLockValue] wrapper, embedded in [Client].

    The Solidity body of the swap contract is not part of the repository
    sources; the lock ledger of [Ledger] is modelled from the written
    specification and every such definition says so. *)

From Stdlib Require Import ZArith List String Ascii Lia Bool DecimalString.
From Stdlib Require HexadecimalString HexadecimalZ DecimalZ.
From Stdlib Require Import Sorted Permutation.
From stdpp Require Import base decidable option list gmap strings.
Import ListNotations.

Local Open Scope string_scope.
Local Open Scope Z_scope.

(** ** The contract interface (JSON ABI) *)

Module Abi.

(** One element of an [inputs] or [outputs] array. [indexed] is present
    on event parameters only. *)
Record AbiParam := mkParam {
  indexed : option bool;
  internalType : string;
  name : string;
  type : string
}.

(** One element of the ABI array, by its ["type"] key. *)
Inductive AbiEntry :=
| AbiError (ename : string) (inputs : list AbiParam)
| AbiEvent (anonymous : bool) (ename : string) (inputs : list AbiParam)
| AbiFunction (ename : string) (inputs outputs : list AbiParam)
              (stateMutability : string).

(** Parameter of an error or a function. *)
Definition arg (ity nm ty : string) : AbiParam := mkParam None ity nm ty.
(** Indexed and plain parameter of an event. *)
Definition topic (ity nm ty : string) : AbiParam := mkParam (Some true) ity nm ty.
Definition field (ity nm ty : string) : AbiParam := mkParam (Some false) ity nm ty.

Definition swapAbi : list AbiEntry := [
  AbiError "LockAlreadyExists" [arg "bytes32" "lockId" "bytes32"];
  AbiError "LockNotFound" [arg "bytes32" "lockId" "bytes32"];
  AbiError "LockNotTimedOut" [arg "bytes32" "lockId" "bytes32"];
  AbiError "LockTimedOut" [arg "bytes32" "lockId" "bytes32"];
  AbiError "TransferInFailed"
    [arg "contract ERC20" "token" "address";
     arg "address" "from" "address";
     arg "uint256" "value" "uint256"];
  AbiError "TransferOutFailed"
    [arg "contract ERC20" "token" "address";
     arg "address" "to" "address";
     arg "uint256" "value" "uint256"];
  AbiEvent false "Decline"
    [topic "contract ERC20" "token" "address";
     topic "address" "creator" "address";
     topic "address" "recipient" "address";
     field "bytes32" "lockId" "bytes32"];
  AbiEvent false "LockBuy"
    [topic "contract ERC20" "token" "address";
     topic "address" "creator" "address";
     topic "address" "recipient" "address";
     field "bytes32" "hashedSecret" "bytes32";
     field "uint256" "timeout" "uint256";
     field "uint256" "value" "uint256";
     field "bytes32" "sellAssetId" "bytes32";
     field "uint256" "sellPrice" "uint256";
     field "bytes32" "lockId" "bytes32"];
  AbiEvent false "LockSell"
    [topic "contract ERC20" "token" "address";
     topic "address" "creator" "address";
     topic "address" "recipient" "address";
     field "bytes32" "hashedSecret" "bytes32";
     field "uint256" "timeout" "uint256";
     field "uint256" "value" "uint256";
     field "bytes32" "buyAssetId" "bytes32";
     field "bytes32" "buyLockId" "bytes32"];
  AbiEvent false "Retrieve"
    [topic "contract ERC20" "token" "address";
     topic "address" "creator" "address";
     topic "address" "recipient" "address";
     field "bytes32" "lockId" "bytes32"];
  AbiEvent false "Unlock"
    [topic "contract ERC20" "token" "address";
     topic "address" "creator" "address";
     topic "address" "recipient" "address";
     field "bytes32" "lockId" "bytes32";
     field "bytes32" "secret" "bytes32"];
  AbiFunction "decline"
    [arg "contract ERC20" "token" "address";
     arg "address" "creator" "address";
     arg "bytes32" "hashedSecret" "bytes32";
     arg "uint256" "timeout" "uint256"]
    [] "nonpayable";
  AbiFunction "getLockValue"
    [arg "bytes32" "lockId" "bytes32"]
    [arg "uint256" "value" "uint256"] "view";
  AbiFunction "lockBuy"
    [arg "contract ERC20" "token" "address";
     arg "address" "recipient" "address";
     arg "bytes32" "hashedSecret" "bytes32";
     arg "uint256" "timeout" "uint256";
     arg "uint256" "value" "uint256";
     arg "bytes32" "sellAssetId" "bytes32";
     arg "uint256" "sellPrice" "uint256"]
    [] "nonpayable";
  AbiFunction "lockSell"
    [arg "contract ERC20" "token" "address";
     arg "address" "recipient" "address";
     arg "bytes32" "hashedSecret" "bytes32";
     arg "uint256" "timeout" "uint256";
     arg "uint256" "value" "uint256";
     arg "bytes32" "buyAssetId" "bytes32";
     arg "bytes32" "buyLockId" "bytes32"]
    [] "nonpayable";
  AbiFunction "retrieve"
    [arg "contract ERC20" "token" "address";
     arg "address" "recipient" "address";
     arg "bytes32" "hashedSecret" "bytes32";
     arg "uint256" "timeout" "uint256"]
    [] "nonpayable";
  AbiFunction "unlock"
    [arg "contract ERC20" "token" "address";
     arg "address" "creator" "address";
     arg "bytes32" "secret" "bytes32";
     arg "uint256" "timeout" "uint256"]
    [] "nonpayable"
].

(** Name and Solidity type of each parameter, in declaration order. *)
Definition signature (ps : list AbiParam) : list (string * string) :=
  map (fun p => (name p, type p)) ps.

Definition names (ps : list AbiParam) : list string := map name ps.

(** The entries of each kind, as ethers' [Interface] sorts them:
    [(name, inputs)] for errors and events. *)
Definition errors (abi : list AbiEntry) : list (string * list AbiParam) :=
  omap (fun e => match e with AbiError n i => Some (n, i) | _ => None end) abi.

Definition events (abi : list AbiEntry) : list (string * list AbiParam) :=
  omap (fun e => match e with AbiEvent _ n i => Some (n, i) | _ => None end) abi.

Definition functions (abi : list AbiEntry)
  : list (string * (list AbiParam * list AbiParam * string)) :=
  omap (fun e => match e with
                 | AbiFunction n i o m => Some (n, (i, o, m))
                 | _ => None
                 end) abi.

(** Lookup by name in an association list, first match. *)
Fixpoint assoc {A} (k : string) (l : list (string * A)) : option A :=
  match l with
  | [] => None
  | (k', v) :: l' => if String.eqb k k' then Some v else assoc k l'
  end.

Definition getError (n : string) := assoc n (errors swapAbi).
Definition getEvent (n : string) := assoc n (events swapAbi).
Definition getFunction (n : string) := assoc n (functions swapAbi).

(** Does the parameter list declare a parameter called [n]? *)
Definition has_field (n : string) (ps : list AbiParam) : bool :=
  existsb (String.eqb n) (names ps).

End Abi.

(** ** Keccak-256, the hash behind [ethers.keccak256]

    The sponge over Keccak-f[1600] with rate 136 bytes and the original
    Keccak padding (first pad byte 0x01). Lanes are 64-bit words held in
    [Z]; the state is the list of its 25 lanes, lane (x, y) at index
    x + 5 y. *)

Module Keccak.

Definition byte_to_Z (b : Byte.byte) : Z := Z.of_N (Byte.to_N b).

Definition byte_of_Z (z : Z) : Byte.byte :=
  match Byte.of_N (Z.to_N (z mod 256)) with
  | Some b => b
  | None => Byte.x00
  end.

Definition rotl64 (v n : Z) : Z :=
  Z.land (Z.lor (Z.shiftl v n) (Z.shiftr v (64 - n))) (Z.ones 64).

Definition lane (A : list Z) (i : nat) : Z := nth i A 0.

Definition rotation_offsets : list Z :=
  [ 0;  1; 62; 28; 27;
   36; 44;  6; 55; 20;
    3; 10; 43; 25; 39;
   41; 45; 15; 21;  8;
   18;  2; 61; 56; 14].

Definition round_constants : list Z :=
  [0x0000000000000001; 0x0000000000008082; 0x800000000000808A;
   0x8000000080008000; 0x000000000000808B; 0x0000000080000001;
   0x8000000080008081; 0x8000000000008009; 0x000000000000008A;
   0x0000000000000088; 0x0000000080008009; 0x000000008000000A;
   0x000000008000808B; 0x800000000000008B; 0x8000000000008089;
   0x8000000000008003; 0x8000000000008002; 0x8000000000000080;
   0x000000000000800A; 0x800000008000000A; 0x8000000080008081;
   0x8000000000008080; 0x0000000080000001; 0x8000000080008008].

Definition theta (A : list Z) : list Z :=
  let C := map (fun x : nat =>
                  fold_right Z.lxor 0
                    (map (fun y : nat => lane A (x + 5 * y)) (seq 0 5)))
               (seq 0 5) in
  let D := map (fun x : nat =>
                  Z.lxor (lane C ((x + 4) mod 5))
                         (rotl64 (lane C ((x + 1) mod 5)) 1))
               (seq 0 5) in
  map (fun i : nat => Z.lxor (lane A i) (lane D (i mod 5))) (seq 0 25).

(** rho and pi together: the lane written at (X, Y) is the lane read at
    (x, X) with x = X + 3 Y mod 5, rotated by its offset. *)
Definition rho_pi (A : list Z) : list Z :=
  map (fun i : nat =>
         let X := (i mod 5)%nat in
         let Y := (i / 5)%nat in
         let src := (((X + 3 * Y) mod 5) + 5 * X)%nat in
         rotl64 (lane A src) (lane rotation_offsets src))
      (seq 0 25).

Definition chi (B : list Z) : list Z :=
  map (fun i : nat =>
         let x := (i mod 5)%nat in
         let row := (5 * (i / 5))%nat in
         Z.lxor (lane B i)
                (Z.ldiff (lane B (((x + 2) mod 5) + row))
                         (lane B (((x + 1) mod 5) + row))))
      (seq 0 25).

Definition iota (rc : Z) (A : list Z) : list Z :=
  match A with
  | [] => []
  | a :: A' => Z.lxor a rc :: A'
  end.

Definition keccak_round (A : list Z) (rc : Z) : list Z :=
  iota rc (chi (rho_pi (theta A))).

Definition keccak_f (A : list Z) : list Z :=
  fold_left keccak_round round_constants A.

Definition rate : nat := 136.

(** pad10*1 with the Keccak domain byte. *)
Definition pad (len : nat) : list Byte.byte :=
  let q := (rate - len mod rate)%nat in
  if (q =? 1)%nat then [Byte.x81]
  else (Byte.x01 :: repeat Byte.x00 (q - 2) ++ [Byte.x80])%list.

Definition le_lane (bs : list Byte.byte) : Z :=
  fold_right (fun b acc => byte_to_Z b + 256 * acc) 0 bs.

Definition lane_le_bytes (v : Z) : list Byte.byte :=
  map (fun k : nat => byte_of_Z (Z.shiftr v (8 * Z.of_nat k))) (seq 0 8).

Definition absorb (A : list Z) (block : list Byte.byte) : list Z :=
  let lanes := map (fun i : nat => le_lane (take 8 (drop (8 * i) block)))
                   (seq 0 17) in
  keccak_f (map (fun i : nat => Z.lxor (lane A i) (lane lanes i)) (seq 0 25)).

Definition blocks (m : list Byte.byte) : list (list Byte.byte) :=
  map (fun k : nat => take rate (drop (rate * k) m))
      (seq 0 (length m / rate)).

Definition be_Z (bs : list Byte.byte) : Z :=
  fold_left (fun acc b => 256 * acc + byte_to_Z b) bs 0.

(** The digest as its 32 bytes, and as the 256-bit number that the hex
    string [0x...] denotes. *)
Definition keccak256_bytes (msg : list Byte.byte) : list Byte.byte :=
  let A := fold_left absorb (blocks (msg ++ pad (length msg))%list) (repeat 0 25) in
  concat (map lane_le_bytes (take 4 A)).

Definition keccak256 (msg : list Byte.byte) : Z :=
  be_Z (keccak256_bytes msg).

End Keccak.

(** ** The client: [blockchain-context.js] *)

Module Client.

(** *** Exceptions: a computation returns or throws *)

Inductive JsError :=
| Thrown (what : string)
    (** raised by the runtime or by ethers: SyntaxError, RangeError, ... *)
| Error_ (message : string)
    (** [new Error(message)] *)
| CallException (errorName : string) (errorArgs : list Z)
    (** a reverted contract call, with the decoded custom error *).

Definition Js (A : Type) : Type := (JsError + A)%type.

Definition ret {A} (a : A) : Js A := inr a.
Definition throw {A} (e : JsError) : Js A := inl e.

Definition bind {A B} (m : Js A) (k : A -> Js B) : Js B :=
  match m with
  | inl e => inl e
  | inr a => k a
  end.

(** [try { body } catch (error) { handler }] *)
Definition try_catch {A} (body : Js A) (handler : JsError -> Js A) : Js A :=
  match body with
  | inl e => handler e
  | inr a => inr a
  end.

Notation "'let*' x ':=' m 'in' k" := (bind m (fun x => k))
  (at level 10, x name, m at level 100, k at level 200).

(** *** [ethers.solidityPackedKeccak256]

    Addresses, [bytes32] words and [uint256] numbers are held as the
    integers their hex strings denote. A value that does not fit its
    type, or a value list of the wrong length, makes ethers throw. *)

Inductive SolType := address | bytes32 | uint256.

Definition width (t : SolType) : nat :=
  match t with
  | address => 20
  | bytes32 => 32
  | uint256 => 32
  end.

Definition fits (t : SolType) (v : Z) : bool :=
  (0 <=? v) && (v <? 2 ^ (8 * Z.of_nat (width t))).

(** Big-endian, exactly [n] bytes. *)
Definition be_bytes (n : nat) (v : Z) : list Byte.byte :=
  map (fun k : nat => Keccak.byte_of_Z (Z.shiftr v (8 * Z.of_nat (n - 1 - k))))
      (seq 0 n).

Definition pack (t : SolType) (v : Z) : Js (list Byte.byte) :=
  if fits t v then ret (be_bytes (width t) v)
  else throw (Thrown "invalid value for type").

Fixpoint solidityPacked (types : list SolType) (values : list Z)
  : Js (list Byte.byte) :=
  match types, values with
  | [], [] => ret []
  | t :: types', v :: values' =>
      let* b := pack t v in
      let* bs := solidityPacked types' values' in
      ret (b ++ bs)%list
  | _, _ => throw (Thrown "wrong number of values")
  end.

Definition solidityPackedKeccak256 (types : list SolType) (values : list Z)
  : Js Z :=
  let* bs := solidityPacked types values in
  ret (Keccak.keccak256 bs).

(** [calculateLockId(tokenAddress, creator, hashedSecret, timeout)] *)
Definition calculateLockId (tokenAddress creator hashedSecret timeout : Z)
  : Js Z :=
  solidityPackedKeccak256
    [address; address; bytes32; uint256]
    [tokenAddress; creator; hashedSecret; timeout].

(** The reference the identity is compared with: the tightly packed
    encoding of (assetContract, creator, hashedSecret, timeout), that
    is 20 + 20 + 32 + 32 bytes, each field big-endian at its own width
    with nothing in between. *)
Definition tightly_packed (assetContract creator hashedSecret timeout : Z)
  : list Byte.byte :=
  (be_bytes 20 assetContract ++ be_bytes 20 creator
   ++ be_bytes 32 hashedSecret ++ be_bytes 32 timeout)%list.

(** *** Decoded logs and the lock id returned by [lockSell] *)

(** What [swapContract.interface.parseLog] returns: the event name and
    its arguments, keyed by the parameter names of the ABI. *)
Record LogDescription := mkLog {
  log_name : string;
  args : list (string * Z)
}.

(** A log decoded against the ABI carries exactly the declared
    parameters of its event. *)
Definition decoded (ev : LogDescription) : Prop :=
  exists ps,
    Abi.getEvent (log_name ev) = Some ps /\
    map fst (args ev) = Abi.names ps.

(** [receipt.logs ... .find(event => event && event.name === 'LockSell')]
    over the logs that parsed. *)
Definition find_event (nm : string) (logs : list (option LogDescription))
  : option LogDescription :=
  mjoin (List.find (fun ev => match ev with
                              | Some e => String.eqb (log_name e) nm
                              | None => false
                              end) logs).

(** The tail of [lockSell]:
    [lockSellEvent && lockSellEvent.args.lockId ? lockSellEvent.args.lockId
     : calculateLockId(tokenAddress, account, hashedSecret, timeoutInt)].
    A [bytes32] argument is a non-empty hex string, hence truthy when
    present. [recipient] and [value] are parameters of the wrapper. *)
Definition lockSell_lockId
    (account : Z) (logs : list (option LogDescription))
    (tokenAddress recipient hashedSecret timeoutInt value : Z) : Js Z :=
  match find_event "LockSell" logs with
  | Some lockSellEvent =>
      match Abi.assoc "lockId" (args lockSellEvent) with
      | Some lockId => ret lockId
      | None => calculateLockId tokenAddress account hashedSecret timeoutInt
      end
  | None => calculateLockId tokenAddress account hashedSecret timeoutInt
  end.

(** The tail of [lockBuy]: [lockBuyEvent ? lockBuyEvent.args.lockId : null]. *)
Definition lockBuy_lockId (logs : list (option LogDescription)) : option Z :=
  ev ← find_event "LockBuy" logs; Abi.assoc "lockId" (args ev).

(** *** Amount scaling in [lockBuy] and [lockSell] *)

(** The host operations the wrappers use on the caller's [value]:
    the product with a number literal, [String(v)], [s.trim()],
    [BigInt(s)] (which throws on text that is not an integer literal)
    and [Math.floor(Number(v))]. *)
Class Runtime := {
  JsValue : Type;
  literal : Z -> JsValue;
  times : JsValue -> JsValue -> JsValue;
  String_ : JsValue -> string;
  trim : string -> string;
  BigInt : string -> Js Z;
  floor_Number : JsValue -> JsValue
}.

Section Wrappers.
Context {R : Runtime}.

Definition invalid_value {A} (value : JsValue) (_ : JsError) : Js A :=
  throw (Error_ ("Invalid value format: " ++ String_ value
                 ++ ". Please provide a valid number.")).

(** [valueWei] of [lockBuy]; the catch clause reads the reassigned
    [value]. *)
Definition lockBuy_valueWei (useRawValue : bool) (value : JsValue) : Js Z :=
  if useRawValue then
    try_catch (BigInt (trim (String_ value))) (invalid_value value)
  else
    let value := times value (literal 1000000) in
    try_catch (BigInt (trim (String_ value))) (invalid_value value).

(** [valueWei] of [lockSell]. *)
Definition lockSell_valueWei (useRawValue : bool) (value : JsValue) : Js Z :=
  if useRawValue then
    let value := times value (literal 1000000) in
    BigInt (trim (String_ value))
  else
    let value := times value (literal 1000000) in
    BigInt (trim (String_ value)).

Definition ZeroHash : string :=
  "0x0000000000000000000000000000000000000000000000000000000000000000".

(** [id && id.startsWith('0x') ? id : ethers.ZeroHash]; [None] is a
    missing ([null] or [undefined]) argument. *)
Definition format_bytes32 (id : option string) : string :=
  match id with
  | Some s => if String.prefix "0x" s then s else ZeroHash
  | None => ZeroHash
  end.

(** The arguments of [swapContract.unlock(...)] as the [unlock] wrapper
    passes them: [(tokenAddress, creator, secret, timeoutInt)]. *)
Definition unlock_call (tokenAddress creator secret : string) (timeout : JsValue)
  : list string * JsValue :=
  let timeoutInt := floor_Number timeout in
  ([tokenAddress; creator; secret], timeoutInt).

(** The arguments of [swapContract.lockSell(...)]. *)
Record LockSellCall := mkLockSellCall {
  call_token : string;
  call_recipient : string;
  call_hashedSecret : string;
  call_timeout : JsValue;
  call_value : Z;
  call_buyAssetId : string;
  call_buyLockId : string
}.

(** What [lockSell] submits: the approval it requests from the token
    (if the allowance is short) and the contract call.
    [currentAllowance] is what [tokenContract.allowance(account,
    swapAddress)] returned. *)
Record LockSellTx := mkLockSellTx {
  tx_approve : option Z;
  tx_call : LockSellCall
}.

Definition lockSell_tx
    (tokenAddress recipient hashedSecret : string) (timeout value : JsValue)
    (buyAssetId buyLockId : option string) (useRawValue : bool)
    (currentAllowance : Z) : Js LockSellTx :=
  let* valueWei := lockSell_valueWei useRawValue value in
  let formattedBuyAssetId := format_bytes32 buyAssetId in
  let formattedBuyLockId := format_bytes32 buyLockId in
  let timeoutInt := floor_Number timeout in
  ret (mkLockSellTx
         (if currentAllowance <? valueWei then Some valueWei else None)
         (mkLockSellCall tokenAddress recipient hashedSecret timeoutInt
                         valueWei formattedBuyAssetId formattedBuyLockId)).
End Wrappers.

(** *** [getLockValue] *)

(** The part of the connected contract object that [getLockValue]
    awaits: the call returns the [uint256] or rejects. *)
Record SwapContract := mkSwapContract {
  contract_getLockValue : Z -> Js Z
}.

Section GetLockValue.
(** [ethers.formatEther]; it runs inside the [try] block. *)
Variable formatEther : Z -> Js string.

Definition getLockValue (swapContract : option SwapContract) (lockId : Z)
  : Js string :=
  match swapContract with
  | None => ret "0"
  | Some c =>
      try_catch
        (let* value := contract_getLockValue c lockId in
         formatEther value)
        (fun error => ret "0")
  end.
End GetLockValue.

(** *** The host on integers

    An instance of [Runtime] for the callers that pass an integer whose
    product with 1000000 stays below 2^53, where the double product is
    exact and [String] prints plain decimal digits. *)

Definition is_space (c : ascii) : bool :=
  match c with
  | " "%char | "009"%char | "010"%char | "011"%char | "012"%char | "013"%char => true
  | _ => false
  end.

Fixpoint trim_start (s : string) : string :=
  match s with
  | String c s' => if is_space c then trim_start s' else s
  | EmptyString => EmptyString
  end.

Fixpoint trim_end (s : string) : string :=
  match s with
  | String c s' =>
      match trim_end s' with
      | EmptyString => if is_space c then EmptyString else String c EmptyString
      | t => String c t
      end
  | EmptyString => EmptyString
  end.

Definition decimal_String (v : Z) : string := NilZero.string_of_int (Z.to_int v).

(** [BigInt(s)] on decimal text: the empty string is [0n], a sign may
    lead the digits, anything else is a SyntaxError. *)
Definition decimal_BigInt (s : string) : Js Z :=
  match s with
  | EmptyString => ret 0
  | String "+"%char digits =>
      match NilZero.uint_of_string digits with
      | Some u => ret (Z.of_uint u)
      | None => throw (Thrown "SyntaxError")
      end
  | _ =>
      match NilZero.int_of_string s with
      | Some i => ret (Z.of_int i)
      | None => throw (Thrown "SyntaxError")
      end
  end.

Definition IntegerRuntime : Runtime := {|
  JsValue := Z;
  literal := fun z => z;
  times := Z.mul;
  String_ := decimal_String;
  trim := fun s => trim_end (trim_start s);
  BigInt := decimal_BigInt;
  floor_Number := fun z => z
|}.

(** [ethers.formatEther] on a [uint256]: the decimal digits with the
    point 18 places from the right, at least one digit on each side of
    it and no other trailing zero. *)
Fixpoint strip_trailing_zeros (s : string) : string :=
  match s with
  | String c s' =>
      match strip_trailing_zeros s' with
      | EmptyString => if Ascii.eqb c "0" then EmptyString else String c EmptyString
      | t => String c t
      end
  | EmptyString => EmptyString
  end.

Fixpoint zeros (n : nat) : string :=
  match n with
  | O => EmptyString
  | S n' => String "0" (zeros n')
  end.

Definition zero_pad (n : nat) (s : string) : string :=
  zeros (n - String.length s) ++ s.

Definition formatEther_uint (wei : Z) : Js string :=
  if wei <? 0 then throw (Thrown "not a uint256")
  else
    let whole := decimal_String (wei / 10 ^ 18) in
    let digits := zero_pad 18 (decimal_String (wei mod 10 ^ 18)) in
    let frac := match strip_trailing_zeros digits with
                | EmptyString => "0"
                | t => t
                end in
    ret (whole ++ "." ++ frac).

End Client.

(** ** The lock ledger

    The errors and events are those the interface declares. The
    operations are modelled from the specification (sections 3 to 7):
    the contract body is not among the sources. *)

Module Ledger.

(** The custom errors of the interface, with their declared arguments. *)
Inductive Error :=
| LockAlreadyExists (lockId : Z)
| LockNotFound (lockId : Z)
| LockNotTimedOut (lockId : Z)
| LockTimedOut (lockId : Z)
| TransferInFailed (token from value : Z)
| TransferOutFailed (token to value : Z).

(** The events of the interface, with their declared arguments. *)
Inductive Event :=
| Decline (token creator recipient lockId : Z)
| LockBuy (token creator recipient hashedSecret timeout value
           sellAssetId sellPrice lockId : Z)
| LockSell (token creator recipient hashedSecret timeout value
            buyAssetId buyLockId : Z)
| Retrieve (token creator recipient lockId : Z)
| Unlock (token creator recipient lockId secret : Z).

(** Name and arguments of an error, as a reverted call reports them. *)
Definition error_name (e : Error) : string :=
  match e with
  | LockAlreadyExists _ => "LockAlreadyExists"
  | LockNotFound _ => "LockNotFound"
  | LockNotTimedOut _ => "LockNotTimedOut"
  | LockTimedOut _ => "LockTimedOut"
  | TransferInFailed _ _ _ => "TransferInFailed"
  | TransferOutFailed _ _ _ => "TransferOutFailed"
  end.

Definition error_args (e : Error) : list Z :=
  match e with
  | LockAlreadyExists i | LockNotFound i
  | LockNotTimedOut i | LockTimedOut i => [i]
  | TransferInFailed t a v | TransferOutFailed t a v => [t; a; v]
  end.

(** Modelled from the spec: the persisted record of an open lock,
    [lockId -> {assetContract, creator, recipient, hashedSecret,
    timeout, value}] (section 6); the table itself is missing from the
    sources. *)
Record Lock := mkLock {
  assetContract : Z;
  creator : Z;
  recipient : Z;
  hashedSecret : Z;
  timeout : Z;
  value : Z
}.

(** Modelled from the spec: the asset-transfer collaborator (section 6),
    "pull [value] from account A into custody" and "push [value] from
    custody to account B", both of which may fail. [W] is the state of
    the asset contracts. *)
Class AssetLedger (W : Type) := {
  transferIn : W -> Z -> Z -> Z -> option W;
  transferOut : W -> Z -> Z -> Z -> option W
}.

(** Modelled from the spec: the state an operation runs against: the
    lock table (presence encodes open), the asset contracts, and the
    records emitted so far, oldest first. *)
Record State (W : Type) := mkState {
  locks : gmap Z Lock;
  assets : W;
  emitted : list Event
}.
Arguments mkState {W} _ _ _.
Arguments locks {W} _.
Arguments assets {W} _.
Arguments emitted {W} _.

(** Modelled from the spec: the ambient call context of the missing
    contract body, the calling identity and the ledger time of one
    invocation (sections 4.1 and 9). *)
Record Call := mkCall {
  caller : Z;
  now : Z
}.

(** Modelled from the spec: [lockId = H(assetContract || creator ||
    hashedSecret || timeout)] (section 4.1), with the hash and the
    packing that the client's [calculateLockId] uses. *)
Definition lockIdOf (token creator hashedSecret timeout : Z) : Z :=
  Keccak.keccak256 (Client.tightly_packed token creator hashedSecret timeout).

(** Modelled from the spec: [hashedSecret = H(secret)] (section 4.1,
    Unlock), the same primitive on the 32 bytes of the secret. *)
Definition hashSecret (secret : Z) : Z :=
  Keccak.keccak256 (Client.be_bytes 32 secret).

Section Operations.
Context {W : Type} `{!AssetLedger W}.

(** Modelled from the spec: the rejection of a caller of unlock or
    decline who is not the stored recipient. Section 4.1 requires the
    check and section 7 names no error for it, so the ledger takes the
    error it reports as a parameter. *)
Variable unauthorized : Z -> Error.

(** Modelled from the spec: an operation body of the missing contract;
    it reverts with an error, or returns a result and the next state. *)
Definition M (A : Type) : Type := State W -> Error + (A * State W).

Definition ret {A} (a : A) : M A := fun s => inr (a, s).
Definition revert {A} (e : Error) : M A := fun _ => inl e.
Definition bind {A B} (m : M A) (k : A -> M B) : M B :=
  fun s => match m s with
           | inl e => inl e
           | inr (a, s') => k a s'
           end.

Notation "'let*' x ':=' m 'in' k" := (bind m (fun x => k))
  (at level 10, x name, m at level 100, k at level 200).
Notation "m >> k" := (bind m (fun _ => k))
  (at level 100, k at level 200, right associativity).

(** Modelled from the spec: the steps the operation bodies are made of:
    a precondition, the lookup of a lock, the two custody transfers with
    their failure errors, and the mutations of the table and the log. *)
Definition require (b : bool) (e : Error) : M unit :=
  if b then ret tt else revert e.

Definition find_lock (lockId : Z) : M (option Lock) :=
  fun s => inr (locks s !! lockId, s).

Definition open_lock (lockId : Z) : M Lock :=
  let* l := find_lock lockId in
  match l with
  | Some lk => ret lk
  | None => revert (LockNotFound lockId)
  end.

Definition pull (token from amount : Z) : M unit :=
  fun s => match transferIn (assets s) token from amount with
           | Some w => inr (tt, mkState (locks s) w (emitted s))
           | None => inl (TransferInFailed token from amount)
           end.

Definition push (token to amount : Z) : M unit :=
  fun s => match transferOut (assets s) token to amount with
           | Some w => inr (tt, mkState (locks s) w (emitted s))
           | None => inl (TransferOutFailed token to amount)
           end.

Definition store (lockId : Z) (lk : Lock) : M unit :=
  fun s => inr (tt, mkState (<[lockId := lk]> (locks s)) (assets s) (emitted s)).

Definition close (lockId : Z) : M unit :=
  fun s => inr (tt, mkState (delete lockId (locks s)) (assets s) (emitted s)).

Definition emit (ev : Event) : M unit :=
  fun s => inr (tt, mkState (locks s) (assets s) (emitted s ++ [ev])%list).

(** Modelled from the spec: the common part of the two creation
    operations (section 4.1): the identity uses the caller as
    creator and must not denote an open lock; [value] is pulled from
    the caller; the lock is stored; the record is emitted. *)
Definition create (c : Call) (token recipient hashedSecret timeout value : Z)
    (record : Z -> Event) : M unit :=
  let lockId := lockIdOf token (caller c) hashedSecret timeout in
  let* existing := find_lock lockId in
  require (negb (bool_decide (is_Some existing))) (LockAlreadyExists lockId) >>
  pull token (caller c) value >>
  store lockId (mkLock token (caller c) recipient hashedSecret timeout value) >>
  emit (record lockId).

(** Modelled from the spec: Create-as-buy (section 4.1). *)
Definition lockBuy (c : Call)
    (token recipient hashedSecret timeout value sellAssetId sellPrice : Z)
  : M unit :=
  create c token recipient hashedSecret timeout value
    (LockBuy token (caller c) recipient hashedSecret timeout value
             sellAssetId sellPrice).

(** Modelled from the spec: Create-as-sell (section 4.1); the record
    has the arguments the interface declares for [LockSell]. *)
Definition lockSell (c : Call)
    (token recipient hashedSecret timeout value buyAssetId buyLockId : Z)
  : M unit :=
  create c token recipient hashedSecret timeout value
    (fun _ => LockSell token (caller c) recipient hashedSecret timeout value
                       buyAssetId buyLockId).

(** Modelled from the spec: Unlock (section 4.1). *)
Definition unlock (c : Call) (token creator secret timeout : Z) : M unit :=
  let hashedSecret := hashSecret secret in
  let lockId := lockIdOf token creator hashedSecret timeout in
  let* lk := open_lock lockId in
  require (now c <? timeout) (LockTimedOut lockId) >>
  require (caller c =? recipient lk) (unauthorized lockId) >>
  push token (caller c) (value lk) >>
  close lockId >>
  emit (Unlock token creator (recipient lk) lockId secret).

(** Modelled from the spec: Retrieve (section 4.1); the caller is
    taken as creator, [recipient] only appears in the record. *)
Definition retrieve (c : Call) (token recipient hashedSecret timeout : Z)
  : M unit :=
  let lockId := lockIdOf token (caller c) hashedSecret timeout in
  let* lk := open_lock lockId in
  require (timeout <=? now c) (LockNotTimedOut lockId) >>
  push token (caller c) (value lk) >>
  close lockId >>
  emit (Retrieve token (caller c) recipient lockId).

(** Modelled from the spec: Decline (section 4.1). *)
Definition decline (c : Call) (token creator hashedSecret timeout : Z)
  : M unit :=
  let lockId := lockIdOf token creator hashedSecret timeout in
  let* lk := open_lock lockId in
  require (now c <? timeout) (LockTimedOut lockId) >>
  require (caller c =? recipient lk) (unauthorized lockId) >>
  push token creator (value lk) >>
  close lockId >>
  emit (Decline token creator (recipient lk) lockId).

(** Modelled from the spec: GetLockValue (section 4.1). *)
Definition getLockValue (lockId : Z) : M Z :=
  let* lk := open_lock lockId in
  ret (value lk).

(** Modelled from the spec: the five operations a caller can submit
    (section 2), with the arguments the interface declares for them. *)
Inductive Request :=
| ReqLockBuy (token recipient hashedSecret timeout value
              sellAssetId sellPrice : Z)
| ReqLockSell (token recipient hashedSecret timeout value
               buyAssetId buyLockId : Z)
| ReqUnlock (token creator secret timeout : Z)
| ReqRetrieve (token recipient hashedSecret timeout : Z)
| ReqDecline (token creator hashedSecret timeout : Z).

Definition body (c : Call) (r : Request) : M unit :=
  match r with
  | ReqLockBuy t rc h tm v a p => lockBuy c t rc h tm v a p
  | ReqLockSell t rc h tm v a l => lockSell c t rc h tm v a l
  | ReqUnlock t cr s tm => unlock c t cr s tm
  | ReqRetrieve t rc h tm => retrieve c t rc h tm
  | ReqDecline t cr h tm => decline c t cr h tm
  end.

(** Modelled from the spec: an invocation is one transactional scope
    (sections 5 and 9): the body either commits its state or is
    rejected with its error, the caller keeping the state it had. *)
Definition invoke {A} (op : M A) (s : State W) : (Error + A) * State W :=
  match op s with
  | inl e => (inl e, s)
  | inr (a, s') => (inr a, s')
  end.

Definition execute (c : Call) (r : Request) (s : State W)
  : (Error + unit) * State W :=
  invoke (body c r) s.

(** Modelled from the spec: the identity a request addresses (the
    creator is the caller for the creations and for retrieve, section
    4.1), and whether it creates a lock. *)
Definition request_lockId (c : Call) (r : Request) : Z :=
  match r with
  | ReqLockBuy t _ h tm _ _ _ => lockIdOf t (caller c) h tm
  | ReqLockSell t _ h tm _ _ _ => lockIdOf t (caller c) h tm
  | ReqUnlock t cr s tm => lockIdOf t cr (hashSecret s) tm
  | ReqRetrieve t _ h tm => lockIdOf t (caller c) h tm
  | ReqDecline t cr h tm => lockIdOf t cr h tm
  end.

Definition is_creation (r : Request) : bool :=
  match r with
  | ReqLockBuy _ _ _ _ _ _ _ | ReqLockSell _ _ _ _ _ _ _ => true
  | _ => false
  end.

(** Modelled from the spec: the states the ledger can be in (section
    5): it starts with no lock and no record; requests are executed one
    at a time; the asset contracts are separate contracts whose state
    also changes between invocations. *)
Inductive reachable : State W -> Prop :=
| reach_genesis (w : W) : reachable (mkState ∅ w [])
| reach_execute (c : Call) (r : Request) (s : State W) :
    reachable s -> reachable (snd (execute c r s))
| reach_assets (w : W) (s : State W) :
    reachable s -> reachable (mkState (locks s) w (emitted s)).

(** Every open lock is filed under the identity of its own fields. *)
Definition well_filed (s : State W) : Prop :=
  forall lockId lk,
    locks s !! lockId = Some lk ->
    lockId = lockIdOf (assetContract lk) (creator lk) (hashedSecret lk) (timeout lk).

End Operations.

(** *** A concrete asset world

    Modelled from the spec: a fungible-asset ledger for the collaborator
    of section 6, which is not among the sources: balances per (token,
    holder), one custody account, and the set of tokens that currently
    refuse transfers (a paused token). *)
Record Bank := mkBank {
  custody : Z;
  balances : gmap (Z * Z) Z;
  paused : gset Z
}.

Definition balanceOf (b : Bank) (token holder : Z) : Z :=
  default 0 (balances b !! (token, holder)).

Definition move (b : Bank) (token from to amount : Z) : option Bank :=
  if bool_decide (token ∈ paused b) then None
  else if amount <? 0 then None
  else if balanceOf b token from <? amount then None
  else
    let debited := <[(token, from) := balanceOf b token from - amount]> (balances b) in
    let credited :=
      <[(token, to) := default 0 (debited !! (token, to)) + amount]> debited in
    Some (mkBank (custody b) credited (paused b)).

#[global] Instance Bank_ledger : AssetLedger Bank := {
  transferIn b token from amount := move b token from (custody b) amount;
  transferOut b token to amount := move b token (custody b) to amount
}.

End Ledger.

(** ** The client connected to a ledger *)

Module Deployment.

(** The contract object of the client when the swap contract is in
    state [s]: a view call returns the value or rejects with the decoded
    custom error. *)
Definition connect {W : Type} `{!Ledger.AssetLedger W} (s : Ledger.State W)
  : Client.SwapContract :=
  Client.mkSwapContract
    (fun lockId =>
       match fst (Ledger.invoke (Ledger.getLockValue lockId) s) with
       | inl e => Client.throw (Client.CallException (Ledger.error_name e)
                                                     (Ledger.error_args e))
       | inr v => Client.ret v
       end).

End Deployment.

(** ** A worked deployment

    One token, a creator with 5000 units, a recipient, and the custody
    account of the swap contract; the secret 7 and the deadline 1000. A
    caller who is not the recipient is answered [LockNotFound]. *)

Module Scenario.
Import Ledger.

Definition token : Z := 0x1111111111111111111111111111111111111111.
Definition alice : Z := 0x2222222222222222222222222222222222222222.
Definition bob : Z := 0x3333333333333333333333333333333333333333.
Definition carol : Z := 0x4444444444444444444444444444444444444444.
Definition swap : Z := 0x9999999999999999999999999999999999999999.

Definition secret : Z := 7.
Definition commitment : Z := hashSecret secret.
Definition deadline : Z := 1000.
Definition lockId : Z := lockIdOf token alice commitment deadline.

Definition genesis : State Bank :=
  mkState ∅ (mkBank swap {[ (token, alice) := 5000 ]} ∅) [].

Definition step (s : State Bank) (cr : Call * Request)
  : (Error + unit) * State Bank :=
  execute LockNotFound (fst cr) (snd cr) s.

(** Runs the requests in order; returns the outcomes and the last state. *)
Fixpoint run (s : State Bank) (crs : list (Call * Request))
  : list (Error + unit) * State Bank :=
  match crs with
  | [] => ([], s)
  | cr :: crs' =>
      let '(o, s') := step s cr in
      let '(os, s'') := run s' crs' in
      (o :: os, s'')
  end.

(** The token refuses transfers from now on (or accepts them again). *)
Definition pause (t : Z) (s : State Bank) : State Bank :=
  mkState (locks s)
          (mkBank (custody (assets s)) (balances (assets s))
                  ({[ t ]} ∪ paused (assets s)))
          (emitted s).

Definition unpause (t : Z) (s : State Bank) : State Bank :=
  mkState (locks s)
          (mkBank (custody (assets s)) (balances (assets s))
                  (paused (assets s) ∖ {[ t ]}))
          (emitted s).

Definition buy : Request := ReqLockBuy token bob commitment deadline 1000 0 0.
Definition opened : State Bank := snd (step genesis (mkCall alice 10, buy)).

End Scenario.

(** ** Text helpers of the client

    A [string] stands for the JavaScript string with the same
    characters, all of them ASCII: addresses, hex literals, chain ids. *)

Module Text.

Definition is_upper (c : ascii) : bool :=
  (65 <=? nat_of_ascii c)%nat && (nat_of_ascii c <=? 90)%nat.

Definition lower (c : ascii) : ascii :=
  if is_upper c then ascii_of_nat (nat_of_ascii c + 32) else c.

(** [s.toLowerCase()] *)
Fixpoint toLowerCase (s : string) : string :=
  match s with
  | EmptyString => EmptyString
  | String c s' => String (lower c) (toLowerCase s')
  end.

Definition hex_digit (n : Z) : ascii :=
  match n with
  | 0 => "0" | 1 => "1" | 2 => "2" | 3 => "3" | 4 => "4" | 5 => "5"
  | 6 => "6" | 7 => "7" | 8 => "8" | 9 => "9" | 10 => "a" | 11 => "b"
  | 12 => "c" | 13 => "d" | 14 => "e" | _ => "f"
  end%char.

(** The lowercase hex digits of a byte string, two per byte. *)
Fixpoint hex_of_bytes (bs : list Byte.byte) : string :=
  match bs with
  | [] => EmptyString
  | b :: bs' =>
      String (hex_digit (Keccak.byte_to_Z b / 16))
             (String (hex_digit (Keccak.byte_to_Z b mod 16)) (hex_of_bytes bs'))
  end.

(** [ethers.keccak256(bytes)]: the digest as a [0x] hex string. *)
Definition keccak256_hex (bs : list Byte.byte) : string :=
  "0x" ++ hex_of_bytes (Keccak.keccak256_bytes bs).

(** [ethers.toUtf8Bytes(s)] on ASCII text: one byte per character. *)
Definition toUtf8Bytes (s : string) : list Byte.byte := list_byte_of_string s.


Fixpoint no_space (s : string) : bool :=
  match s with
  | EmptyString => true
  | String c s' => negb (Client.is_space c) && no_space s'
  end.

(** [BigInt(s)] on a string that starts with [0x]: the hex digits of
    either case, white space allowed after them; anything else is a
    SyntaxError. *)
Definition hex_BigInt (s : string) : Client.Js Z :=
  match Client.trim_end s with
  | String "0" (String "x" digits) =>
      match HexadecimalString.NilZero.uint_of_string (toLowerCase digits) with
      | Some u => Client.ret (Z.of_hex_uint u)
      | None => Client.throw (Client.Thrown "SyntaxError")
      end
  | _ => Client.throw (Client.Thrown "SyntaxError")
  end.

End Text.

(** ** Asset identifiers in [lockBuy] *)

Module AssetId.

(** [formattedSellAssetId] of [lockBuy]: the zero hash for a missing or
    blank id, the id itself when it has the shape of a bytes32 literal,
    and otherwise the keccak256 of its UTF-8 bytes. *)
Definition format_sellAssetId (sellAssetId : option string) : string :=
  match sellAssetId with
  | None => Client.ZeroHash
  | Some s =>
      if String.eqb s "" || String.eqb (Client.trim_end (Client.trim_start s)) ""
      then Client.ZeroHash
      else if String.prefix "0x" s && (String.length s =? 66)%nat then s
      else Text.keccak256_hex (Text.toUtf8Bytes s)
  end.

End AssetId.

(** ** Chain ids in [handleChainChanged] *)

Module Chain.

(** What the wallet passes as [_chainId]: nothing, a number or a string. *)
Inductive ChainArg :=
| NoChain
| ChainNumber (n : Z)
| ChainString (s : string).

(** [String(_chainId || '')] *)
Definition chain_text (c : ChainArg) : string :=
  match c with
  | NoChain => ""
  | ChainNumber n => if n =? 0 then "" else Client.decimal_String n
  | ChainString s => s
  end.

(** [newChainIdString]: a string that starts with [0x] is converted to
    decimal through [BigInt], which throws on malformed digits. *)
Definition normalize (c : ChainArg) : Client.Js string :=
  let newChainIdString := chain_text c in
  if String.prefix "0x" newChainIdString then
    Client.bind (Text.hex_BigInt newChainIdString)
                (fun n => Client.ret (Client.decimal_String n))
  else Client.ret newChainIdString.

(** [currentChainIdString]: the [chainId] of the state is [null] or a
    bigint, and [0n] is falsy. *)
Definition current_text (chainId : option Z) : string :=
  match chainId with
  | Some n => if n =? 0 then "" else Client.decimal_String n
  | None => ""
  end.

(** The first decision of [handleChainChanged]: [true] when the handler
    returns at "Same chain detected"; a throw is caught by the outer
    handler, which reloads the page. *)
Definition same_chain (c : ChainArg) (chainId : option Z) : Client.Js bool :=
  Client.bind (normalize c)
              (fun newChainIdString =>
                 Client.ret (String.eqb newChainIdString (current_text chainId))).

End Chain.

(** ** The event feed of the client

    The live listeners of [listenForEvents], the formatter of
    [fetchPastEvents] and the history fetch itself. *)

Module Feed.
Import Client.

(** What ethers decodes for an event argument: a hex string for an
    address or a bytes32 word, a bigint for a uint256. *)
Inductive ArgVal :=
| Hex (s : string)
| Big (z : Z).

(** A decoded log: the event name, the arguments by parameter name in
    declaration order, and the block it was mined in. *)
Record EventLog := mkEventLog {
  event_name : string;
  event_args : list (string * ArgVal);
  blockNumber : Z
}.

Definition typed (ty : string) (v : ArgVal) : Prop :=
  match v with
  | Hex _ => ty = "address" \/ ty = "bytes32"
  | Big _ => ty = "uint256"
  end.

(** The log carries exactly the parameters the ABI declares for its
    event, each with a value of its type. *)
Definition decoded (ev : EventLog) : Prop :=
  exists ps,
    Abi.getEvent (event_name ev) = Some ps
    /\ Forall2 (fun a p => fst a = Abi.name p /\ typed (Abi.type p) (snd a))
               (event_args ev) ps.

(** A field of the records kept in the [events] state: an argument as
    decoded (or [undefined]), [Number(argument)], or a string. *)
Inductive Field :=
| FArg (v : option ArgVal)
| FNumber (v : option ArgVal)
| FText (s : string).

Record ClientEvent := mkClientEvent {
  fields : list (string * Field);
  timestamp : Z
}.

(** [v.toString()]: a TypeError on [undefined]. *)
Definition toString_ (v : option ArgVal) : Js Field :=
  match v with
  | Some (Big z) => ret (FText (decimal_String z))
  | Some (Hex s) => ret (FText s)
  | None => throw (Thrown "TypeError")
  end.

(** [v.substring(0, 10)]: a TypeError unless [v] is a string. *)
Definition substring10 (v : option ArgVal) : Js string :=
  match v with
  | Some (Hex s) => ret (String.substring 0 10 s)
  | _ => throw (Thrown "TypeError")
  end.

(** [v?.toLowerCase()] *)
Definition toLowerCase_opt (v : option ArgVal) : Js (option string) :=
  match v with
  | None => ret None
  | Some (Hex s) => ret (Some (Text.toLowerCase s))
  | Some (Big _) => throw (Thrown "TypeError")
  end.

(** [isEventForCurrentAccount(creator, recipient)]; [account] is the
    state, [null] or a string. *)
Definition isEventForCurrentAccount (account : option string)
    (creator recipient : option ArgVal) : Js bool :=
  match account with
  | None => ret true
  | Some a =>
      if String.eqb a "" then ret true
      else
        let* c := toLowerCase_opt creator in
        if bool_decide (c = Some (Text.toLowerCase a)) then ret true
        else
          let* r := toLowerCase_opt recipient in
          ret (bool_decide (r = Some (Text.toLowerCase a)))
  end.

(** The relevance test on two addresses, as a plain predicate: no
    account connected, or one of the two equals the account up to letter
    case. *)
Definition concerns (account : option string) (creator recipient : string) : bool :=
  match account with
  | None => true
  | Some a =>
      String.eqb a ""
      || String.eqb (Text.toLowerCase creator) (Text.toLowerCase a)
      || String.eqb (Text.toLowerCase recipient) (Text.toLowerCase a)
  end.

(** What a listener does besides reading: it updates the [events] state
    and shows toasts. *)
Inductive Effect :=
| AddEvent (e : ClientEvent)
| ShowToast (title description : string).

(** A listener run: the effects performed, and whether it returned or
    threw. *)
Definition Run (A : Type) : Type := (list Effect * Js A)%type.

Definition lift {A} (m : Js A) : Run A := ([], m).
Definition tell (e : Effect) : Run unit := ([e], ret tt).

Definition andThen {A B} (m : Run A) (k : A -> Run B) : Run B :=
  match m with
  | (es, inl e) => (es, inl e)
  | (es, inr a) => let '(es', r) := k a in ((es ++ es')%list, r)
  end.

Notation "'run*' x ':=' m 'in' k" := (andThen m (fun x => k))
  (at level 10, x name, m at level 100, k at level 200).

(** [setEvents(prev => [newEvent, ...prev])] *)
Definition apply_effects (es : list Effect) (events : list ClientEvent)
  : list ClientEvent :=
  fold_left (fun evs e => match e with
                          | AddEvent ev => ev :: evs
                          | ShowToast _ _ => evs
                          end) es events.

(** The end of every listener: the state update, then the toast when
    the event concerns the connected account. *)
Definition add_and_toast (account : option string) (newEvent : ClientEvent)
    (creator recipient : option ArgVal) (title : string)
    (description : Js string) : Run unit :=
  run* u := tell (AddEvent newEvent) in
  run* relevant := lift (isEventForCurrentAccount account creator recipient) in
  if relevant then
    run* text := lift description in
    tell (ShowToast title text)
  else lift (ret tt).

(** The listeners receive the decoded arguments by position. *)
Definition on_LockBuy (account : option string) (now : Z) (a : list ArgVal)
  : Run unit :=
  let token := a !! 0%nat in let creator := a !! 1%nat in
  let recipient := a !! 2%nat in let hashedSecret := a !! 3%nat in
  let timeout := a !! 4%nat in let value := a !! 5%nat in
  let sellAssetId := a !! 6%nat in let sellPrice := a !! 7%nat in
  let lockId := a !! 8%nat in
  run* logged_value := lift (toString_ value) in
  run* logged_price := lift (toString_ sellPrice) in
  run* value_text := lift (toString_ value) in
  run* price_text := lift (toString_ sellPrice) in
  let newEvent :=
    mkClientEvent
      [("type", FText "LockBuy"); ("token", FArg token);
       ("creator", FArg creator); ("recipient", FArg recipient);
       ("hashedSecret", FArg hashedSecret); ("timeout", FNumber timeout);
       ("value", value_text); ("sellAssetId", FArg sellAssetId);
       ("sellPrice", price_text); ("lockId", FArg lockId)]
      now in
  add_and_toast account newEvent creator recipient "New Lock Buy"
    (let* id := substring10 lockId in
     ret ("A new lock buy has been created with ID: " ++ id ++ "...")).

Definition on_LockSell (account : option string) (now : Z) (a : list ArgVal)
  : Run unit :=
  let token := a !! 0%nat in let creator := a !! 1%nat in
  let recipient := a !! 2%nat in let hashedSecret := a !! 3%nat in
  let timeout := a !! 4%nat in let value := a !! 5%nat in
  let buyAssetId := a !! 6%nat in let buyLockId := a !! 7%nat in
  run* value_text := lift (toString_ value) in
  let newEvent :=
    mkClientEvent
      [("type", FText "LockSell"); ("token", FArg token);
       ("creator", FArg creator); ("recipient", FArg recipient);
       ("hashedSecret", FArg hashedSecret); ("timeout", FNumber timeout);
       ("value", value_text); ("buyAssetId", FArg buyAssetId);
       ("buyLockId", FArg buyLockId)]
      now in
  add_and_toast account newEvent creator recipient "New Lock Sell"
    (let* id := substring10 buyAssetId in
     ret ("A new lock sell has been created for asset: " ++ id ++ "...")).

Definition on_Unlock (account : option string) (now : Z) (a : list ArgVal)
  : Run unit :=
  let token := a !! 0%nat in let creator := a !! 1%nat in
  let recipient := a !! 2%nat in let lockId := a !! 3%nat in
  let secret := a !! 4%nat in
  let newEvent :=
    mkClientEvent
      [("type", FText "Unlock"); ("token", FArg token);
       ("creator", FArg creator); ("recipient", FArg recipient);
       ("lockId", FArg lockId); ("secret", FArg secret)]
      now in
  add_and_toast account newEvent creator recipient "Lock Unlocked"
    (let* id := substring10 lockId in
     ret ("Lock with ID: " ++ id ++ "... has been unlocked")).

Definition on_Retrieve (account : option string) (now : Z) (a : list ArgVal)
  : Run unit :=
  let token := a !! 0%nat in let creator := a !! 1%nat in
  let recipient := a !! 2%nat in let lockId := a !! 3%nat in
  let newEvent :=
    mkClientEvent
      [("type", FText "Retrieve"); ("token", FArg token);
       ("creator", FArg creator); ("recipient", FArg recipient);
       ("lockId", FArg lockId)]
      now in
  add_and_toast account newEvent creator recipient "Lock Retrieved"
    (let* id := substring10 lockId in
     ret ("Lock with ID: " ++ id ++ "... has been retrieved")).

Definition on_Decline (account : option string) (now : Z) (a : list ArgVal)
  : Run unit :=
  let token := a !! 0%nat in let creator := a !! 1%nat in
  let recipient := a !! 2%nat in let lockId := a !! 3%nat in
  let newEvent :=
    mkClientEvent
      [("type", FText "Decline"); ("token", FArg token);
       ("creator", FArg creator); ("recipient", FArg recipient);
       ("lockId", FArg lockId)]
      now in
  add_and_toast account newEvent creator recipient "Lock Declined"
    (let* id := substring10 lockId in
     ret ("Lock with ID: " ++ id ++ "... has been declined")).

(** The listener that [contract.on] registered for the event of a log;
    ethers calls it with the arguments in declaration order. *)
Definition listener (account : option string) (now : Z) (ev : EventLog)
  : option (Run unit) :=
  let a := map snd (event_args ev) in
  if String.eqb (event_name ev) "LockBuy" then Some (on_LockBuy account now a)
  else if String.eqb (event_name ev) "LockSell" then Some (on_LockSell account now a)
  else if String.eqb (event_name ev) "Unlock" then Some (on_Unlock account now a)
  else if String.eqb (event_name ev) "Retrieve" then Some (on_Retrieve account now a)
  else if String.eqb (event_name ev) "Decline" then Some (on_Decline account now a)
  else None.

(** [event.args.<name>] *)
Definition arg (event : EventLog) (k : string) : option ArgVal :=
  Abi.assoc k (event_args event).

(** [formatEventByType(event, typeName)]; [None] is [null]. *)
Definition formatEventByType (event : EventLog) (typeName : string) (now : Z)
  : Js (option ClientEvent) :=
  if String.eqb typeName "LockBuy" then
    let* value_text := toString_ (arg event "value") in
    let* price_text := toString_ (arg event "sellPrice") in
    ret (Some (mkClientEvent
      [("type", FText "LockBuy"); ("token", FArg (arg event "token"));
       ("creator", FArg (arg event "creator"));
       ("recipient", FArg (arg event "recipient"));
       ("hashedSecret", FArg (arg event "hashedSecret"));
       ("timeout", FNumber (arg event "timeout"));
       ("value", value_text); ("sellAssetId", FArg (arg event "sellAssetId"));
       ("sellPrice", price_text); ("lockId", FArg (arg event "lockId"))]
      now))
  else if String.eqb typeName "LockSell" then
    let* value_text := toString_ (arg event "value") in
    ret (Some (mkClientEvent
      [("type", FText "LockSell"); ("token", FArg (arg event "token"));
       ("creator", FArg (arg event "creator"));
       ("recipient", FArg (arg event "recipient"));
       ("hashedSecret", FArg (arg event "hashedSecret"));
       ("timeout", FNumber (arg event "timeout"));
       ("value", value_text); ("buyAssetId", FArg (arg event "buyAssetId"));
       ("buyLockId", FArg (arg event "buyLockId"))]
      now))
  else if String.eqb typeName "Unlock" then
    ret (Some (mkClientEvent
      [("type", FText "Unlock"); ("token", FArg (arg event "token"));
       ("creator", FArg (arg event "creator"));
       ("recipient", FArg (arg event "recipient"));
       ("lockId", FArg (arg event "lockId"));
       ("secret", FArg (arg event "secret"))]
      now))
  else if String.eqb typeName "Retrieve" then
    ret (Some (mkClientEvent
      [("type", FText "Retrieve"); ("token", FArg (arg event "token"));
       ("creator", FArg (arg event "creator"));
       ("recipient", FArg (arg event "recipient"));
       ("lockId", FArg (arg event "lockId"))]
      now))
  else if String.eqb typeName "Decline" then
    ret (Some (mkClientEvent
      [("type", FText "Decline"); ("token", FArg (arg event "token"));
       ("creator", FArg (arg event "creator"));
       ("recipient", FArg (arg event "recipient"));
       ("lockId", FArg (arg event "lockId"))]
      now))
  else ret None.

(** *** [fetchPastEvents] *)

(** A provider object: [getBlockNumber] when it is a function, and
    [getBlock(n)], which resolves to the timestamp of the block or to
    [null]. *)
Record Provider := mkProvider {
  getBlockNumber : option (Js Z);
  getBlock : Z -> Js (option Z)
}.

(** The contract object: [queryFilter(filter)] and
    [queryFilter(filter, fromBlock, toBlock)] by event name, and its
    [provider] property. *)
Record Contract := mkContract {
  queryFilter : string -> option (Z * Z) -> Js (list EventLog);
  contract_provider : option Provider
}.

(** What [fetchPastEvents] reads besides its argument: the [provider]
    state, [signer.provider], [new ethers.BrowserProvider(window.ethereum)]
    when [window.ethereum] is set, and the clock at the moment a log is
    formatted. *)
Record Surroundings := mkSurroundings {
  state_provider : option Provider;
  signer_provider : option Provider;
  browser_provider : option (Js Provider);
  Date_now : EventLog -> Z
}.

Definition usable (p : option Provider) : bool :=
  match p with
  | Some q => bool_decide (is_Some (getBlockNumber q))
  | None => false
  end.

(** [providerToUse] *)
Definition choose_provider (w : Surroundings) (contract : Contract)
  : option Provider :=
  if usable (state_provider w) then state_provider w
  else if usable (contract_provider contract) then contract_provider contract
  else if usable (signer_provider w) then signer_provider w
  else
    match browser_provider w with
    | Some (inr p) => Some p
    | Some (inl _) => None
    | None => None
    end.

(** [for (const x of xs) { ... }] over an accumulator. *)
Fixpoint forOf {A S : Type} (xs : list A) (body : S -> A -> Js S) (s : S) : Js S :=
  match xs with
  | [] => ret s
  | x :: xs' => let* s' := body s x in forOf xs' body s'
  end.

Definition eventTypes : list string :=
  ["LockBuy"; "LockSell"; "Unlock"; "Retrieve"; "Decline"].

(** [allEvents.sort((a, b) => b.timestamp - a.timestamp)]: most recent
    first, equal timestamps in their order of arrival. *)
Fixpoint insert_by_time (e : ClientEvent) (sorted : list ClientEvent)
  : list ClientEvent :=
  match sorted with
  | [] => [e]
  | x :: sorted' =>
      if timestamp x <? timestamp e then e :: x :: sorted'
      else x :: insert_by_time e sorted'
  end.

Definition sort_recent_first (events : list ClientEvent) : list ClientEvent :=
  fold_left (fun sorted e => insert_by_time e sorted) events [].

(** Most recent first. *)
Definition recent_first (l : list ClientEvent) : Prop :=
  StronglySorted (fun a b => timestamp b <= timestamp a) l.

(** The formatter is declared with [const] further down the block than
    the branch without a provider, which returns before the declaration
    is reached: calling it there is a ReferenceError. *)
Definition formatEventByType_before_declaration : Js (option ClientEvent) :=
  throw (Thrown "ReferenceError").

Definition push_formatted (formatted : option ClientEvent)
    (allEvents : list ClientEvent) : list ClientEvent :=
  match formatted with
  | Some e => (allEvents ++ [e])%list
  | None => allEvents
  end.

(** The branch without a provider, one event type. *)
Definition collect_without_range (contract : Contract)
    (allEvents : list ClientEvent) (name : string) : Js (list ClientEvent) :=
  try_catch
    (let* events := queryFilter contract name None in
     forOf events
       (fun allEvents (event : EventLog) =>
          try_catch
            (let* formattedEvent := formatEventByType_before_declaration in
             ret (push_formatted formattedEvent allEvents))
            (fun eventError => ret allEvents))
       allEvents)
    (fun queryError => ret allEvents).

(** The block timestamp replaces the clock reading when the block and
    its timestamp are there. *)
Definition with_block_time (p : Provider) (event : EventLog)
    (formattedEvent : ClientEvent) : Js ClientEvent :=
  try_catch
    (let* block := getBlock p (blockNumber event) in
     match block with
     | Some t =>
         if t =? 0 then ret formattedEvent
         else ret (mkClientEvent (fields formattedEvent) (t * 1000))
     | None => ret formattedEvent
     end)
    (fun blockError => ret formattedEvent).

(** The main branch, one event type. *)
Definition collect_in_range (w : Surroundings) (contract : Contract)
    (p : Provider) (fromBlock currentBlock : Z)
    (allEvents : list ClientEvent) (name : string) : Js (list ClientEvent) :=
  try_catch
    (let* events := queryFilter contract name (Some (fromBlock, currentBlock)) in
     forOf events
       (fun allEvents (event : EventLog) =>
          try_catch
            (let* formattedEvent := formatEventByType event name (Date_now w event) in
             match formattedEvent with
             | Some f =>
                 let* f' := with_block_time p event f in
                 ret (allEvents ++ [f'])%list
             | None => ret allEvents
             end)
            (fun eventError => ret allEvents))
       allEvents)
    (fun queryError => ret allEvents).

Definition call_getBlockNumber (p : Provider) : Js Z :=
  match getBlockNumber p with
  | Some r => r
  | None => throw (Thrown "TypeError")
  end.

Definition fetchPastEvents (w : Surroundings) (contract : option Contract)
  : Js (list ClientEvent) :=
  match contract with
  | None => ret []
  | Some contract =>
      try_catch
        (match choose_provider w contract with
         | None =>
             let* allEvents := forOf eventTypes (collect_without_range contract) [] in
             ret (sort_recent_first allEvents)
         | Some providerToUse =>
             let* currentBlock :=
               try_catch (let* n := call_getBlockNumber providerToUse in ret (Some n))
                         (fun blockNumberError => ret None) in
             match currentBlock with
             | None =>
                 let* eventsWithoutRange := queryFilter contract "LockBuy" None in
                 ret []
             | Some currentBlock =>
                 let fromBlock := Z.max 0 (currentBlock - 5000) in
                 let* allEvents :=
                   forOf eventTypes
                         (collect_in_range w contract providerToUse
                                           fromBlock currentBlock) [] in
                 ret (sort_recent_first allEvents)
             end
         end)
        (fun error => ret [])
  end.

(** The records one query contributes in the main branch, in order. *)
Definition formatted_in_range (w : Surroundings) (contract : Contract)
    (p : Provider) (fromBlock currentBlock : Z) (name : string)
  : list ClientEvent :=
  match collect_in_range w contract p fromBlock currentBlock [] name with
  | inr events => events
  | inl _ => []
  end.

End Feed.

(** ** The transaction wrappers of the client

    What a wrapper does to the outside is recorded as a list of actions;
    what the outside answers (the signer, the token contract, the swap
    contract) is part of the session it runs in. *)

Module Wallet.
Import Client.

(** [s.includes(sub)] *)
Fixpoint includes (sub s : string) : bool :=
  String.prefix sub s ||
  match s with
  | EmptyString => false
  | String _ s' => includes sub s'
  end.

Section Flows.
Context {R : Runtime}.

(** The text found in [error.message] of an error raised by the
    runtime or by ethers, and in [error.message] and [error.data] of a
    reverted call. *)
Variable thrown_message : string -> string.
Variable revert_message : string -> list Z -> string.
Variable revert_data : string -> list Z -> option string.

(** [swapAddress] of [contractrefs.js]. *)
Variable swapAddress : string.

(** [error.message] *)
Definition message (e : JsError) : string :=
  match e with
  | Thrown what => thrown_message what
  | Error_ m => m
  | CallException n a => revert_message n a
  end.

(** [error.code === 'CALL_EXCEPTION'] *)
Definition is_call_exception (e : JsError) : bool :=
  match e with
  | CallException _ _ => true
  | _ => false
  end.

(** [error.data], where it is truthy. *)
Definition data (e : JsError) : option string :=
  match e with
  | CallException n a =>
      match revert_data n a with
      | Some d => if String.eqb d "" then None else Some d
      | None => None
      end
  | _ => None
  end.

(** A call of the swap contract with its arguments. *)
Inductive ContractCall :=
| CallLockBuy (token recipient hashedSecret : string) (timeout : JsValue)
              (value : Z) (sellAssetId : string) (sellPrice : Z)
| CallLockSell (c : LockSellCall)
| CallUnlock (token creator secret : string) (timeout : JsValue)
| CallRetrieve (token recipient hashedSecret : string) (timeout : JsValue)
| CallDecline (token creator hashedSecret : string) (timeout : JsValue).

Inductive Action :=
| Toast (title description : string) (destructive : bool)
| Approve (token spender : string) (amount : Z)
| EstimateGas (call : ContractCall)
| Submit (call : ContractCall) (gasLimit : option Z)
| Reconnect.

(** A log of a receipt: the emitting address and what [parseLog] makes
    of it ([None] when it throws or finds no event). *)
Record RawLog := mkRawLog {
  log_address : string;
  parsed : option LogDescription
}.

(** The objects a wrapper talks to. A submitted transaction resolves
    to its receipt on [wait()]. *)
Record Signer := mkSigner {
  getAddress : Js string
}.

Record Token := mkToken {
  decimals : Js Z;
  symbol : Js string;
  balanceOf : option string -> Js Z;
  allowance : option string -> string -> Js Z;
  approve : string -> Z -> Js (Js unit)
}.

Record Swap := mkSwap {
  estimateGas : ContractCall -> Js Z;
  send : ContractCall -> Js (Js (list RawLog))
}.

(** The state the wrappers close over, and the token contract that
    [new ethers.Contract(tokenAddress, erc20Abi, signer)] reaches. *)
Record Session := mkSession {
  swapContract : option Swap;
  signer : option Signer;
  account : option string;
  provider : option (Js Signer);
  erc20 : string -> Token
}.

(** A run: the actions performed, and the value returned or the error
    thrown. *)
Definition Run (A : Type) : Type := (list Action * Js A)%type.

Definition done {A} (a : A) : Run A := ([], ret a).
Definition raise {A} (e : JsError) : Run A := ([], throw e).
Definition await {A} (m : Js A) : Run A := ([], m).
Definition act (a : Action) : Run unit := ([a], ret tt).

Definition andThen {A B} (m : Run A) (k : A -> Run B) : Run B :=
  match m with
  | (es, inl e) => (es, inl e)
  | (es, inr a) => let '(es', r) := k a in ((es ++ es')%list, r)
  end.

(** [try { m } catch (error) { handler }] *)
Definition catch {A} (m : Run A) (handler : JsError -> Run A) : Run A :=
  match m with
  | (es, inl e) => let '(es', r) := handler e in ((es ++ es')%list, r)
  | (es, inr a) => (es, inr a)
  end.

Notation "'run*' x ':=' m 'in' k" := (andThen m (fun x => k))
  (at level 10, x name, m at level 100, k at level 200).

(** The contract calls submitted in a run, in order. *)
Definition submitted (es : list Action) : list (ContractCall * option Z) :=
  omap (fun a => match a with
                 | Submit call gasLimit => Some (call, gasLimit)
                 | _ => None
                 end) es.

Definition missing (a : option string) : bool :=
  match a with
  | Some s => String.eqb s ""
  | None => true
  end.

(** [verifySigner()]; [None] is the result [false]. *)
Definition verifySigner (s : Session) : Run (option Signer) :=
  match signer s, provider s with
  | Some sg, Some getSigner =>
      if missing (account s) then done None
      else
        catch
          (run* signerAddress := await (getAddress sg) in
           if negb (String.eqb (Text.toLowerCase signerAddress)
                               (Text.toLowerCase (default "" (account s))))
           then
             run* newSigner := await getSigner in
             run* u := act Reconnect in
             done (Some newSigner)
           else done (Some sg))
          (fun error => done None)
  | _, _ => done None
  end.

(** [getTokenContract(tokenAddress)]; [None] is [null]. *)
Definition getTokenContract (s : Session) (tokenAddress : string)
  : Run (option Token) :=
  match signer s with
  | None => done None
  | Some _ =>
      run* verifiedSigner := verifySigner s in
      match verifiedSigner with
      | None => done None
      | Some _ => done (Some (erc20 s tokenAddress))
      end
  end.

Definition not_connected {A} : Run (option A) :=
  run* u := act (Toast "Error" "Wallet not connected" true) in
  done None.

(** [receipt.logs.filter(log => log.address.toLowerCase() ===
    swapAddress.toLowerCase()).map(log => parseLog(log) or null)] *)
Definition parsed_logs (receipt : list RawLog) : list (option LogDescription) :=
  map parsed
      (List.filter (fun log => String.eqb (Text.toLowerCase (log_address log))
                                          (Text.toLowerCase swapAddress))
                   receipt).

Definition invalid_price {A} (sellPrice : JsValue) (_ : JsError) : Js A :=
  throw (Error_ ("Invalid price format: " ++ String_ sellPrice
                 ++ ". Please provide a valid number.")).

(** [sellPriceWei] of [lockBuy] *)
Definition lockBuy_sellPriceWei (useRawSellPrice : bool) (sellPrice : JsValue)
  : Js Z :=
  if useRawSellPrice then
    try_catch (BigInt (trim (String_ sellPrice))) (invalid_price sellPrice)
  else
    let sellPrice := times sellPrice (literal 1000000) in
    try_catch (BigInt (trim (String_ sellPrice))) (invalid_price sellPrice).

(** A [bytes32] as ethers hands it over: [0x] and 64 hex digits. *)
Definition hex32 (v : Z) : string := "0x" ++ Text.hex_of_bytes (be_bytes 32 v).

Definition insufficient (balance valueWei : Z) : JsError :=
  Error_ ("Insufficient token balance. You have " ++ decimal_String balance
          ++ " but need " ++ decimal_String valueWei).

(** The balance check of [lockBuy] with its catch clause. *)
Definition check_balance (tokenContract : Token) (account : option string)
    (valueWei : Z) : Run unit :=
  catch
    (run* balance := await (balanceOf tokenContract account) in
     if balance <? valueWei then raise (insufficient balance valueWei)
     else done tt)
    (fun balanceError =>
       if includes "Insufficient" (message balanceError) then raise balanceError
       else done tt).

(** The allowance check and the approval, as both [lockBuy] and
    [lockSell] make them. *)
Definition ensure_allowance (tokenContract : Token) (account : option string)
    (tokenAddress : string) (valueWei : Z) : Run unit :=
  run* currentAllowance := await (allowance tokenContract account swapAddress) in
  if currentAllowance <? valueWei then
    run* u := act (Approve tokenAddress swapAddress valueWei) in
    run* approveTx := await (approve tokenContract swapAddress valueWei) in
    await approveTx
  else done tt.

Definition reverted_text : string :=
  "Transaction reverted by the contract. This could be due to: insufficient allowance, incorrect parameters, token balance too low, or contract restrictions.".

(** [errorMessage] in the catch clause of [lockBuy] *)
Definition lockBuy_errorMessage (error : JsError) : string :=
  if is_call_exception error then
    match data error with
    | Some d => reverted_text ++ " Data: " ++ d
    | None => reverted_text
    end
  else message error.

Definition created_text (lockId : option Z) : string :=
  "Your lock buy has been successfully created" ++
  match lockId with
  | Some id => " with ID: " ++ String.substring 0 10 (hex32 id) ++ "..."
  | None => ""
  end.

(** The end of [lockBuy]: the gas estimate, whose failure is only
    logged, the call with its gas limit, the receipt and the [lockId]
    read from it. *)
Definition lockBuy_send (swap : Swap) (call : ContractCall)
  : Run (option (option Z)) :=
  run* g :=
    catch (run* u := act (EstimateGas call) in
           run* gasEstimate := await (estimateGas swap call) in
           done tt)
          (fun gasError => done tt) in
  run* u := act (Submit call (Some 1000000)) in
  run* tx := await (send swap call) in
  run* t1 := act (Toast "Transaction Submitted"
                        "Your lock buy transaction has been submitted"
                        false) in
  run* receipt := await tx in
  let lockId := lockBuy_lockId (parsed_logs receipt) in
  run* t2 := act (Toast "Lock Buy Created" (created_text lockId) false) in
  done (Some lockId).

(** [lockBuy(tokenAddress, recipient, hashedSecret, timeout, value,
    sellAssetId, sellPrice, useRawValue, useRawSellPrice)]. The result
    is [None] for [undefined] and otherwise the [lockId] of the
    returned object. *)
Definition lockBuy (s : Session) (tokenAddress recipient hashedSecret : string)
    (timeout value : JsValue) (sellAssetId : option string)
    (sellPrice : JsValue) (useRawValue useRawSellPrice : bool)
  : Run (option (option Z)) :=
  match swapContract s, signer s with
  | Some swap, Some _ =>
      catch
        (run* v := verifySigner s in
         run* valueWei := await (lockBuy_valueWei useRawValue value) in
         run* sellPriceWei :=
           await (lockBuy_sellPriceWei useRawSellPrice sellPrice) in
         let formattedSellAssetId := AssetId.format_sellAssetId sellAssetId in
         let timeoutInt := floor_Number timeout in
         run* tokenContract := getTokenContract s tokenAddress in
         match tokenContract with
         | None => raise (Error_ "Failed to create token contract instance")
         | Some tokenContract =>
             run* tokenDecimals :=
               catch (await (decimals tokenContract)) (fun _ => done 18) in
             run* b := check_balance tokenContract (account s) valueWei in
             run* a :=
               catch (ensure_allowance tokenContract (account s)
                                       tokenAddress valueWei)
                     (fun approvalError =>
                        raise (Error_ ("Failed to approve token transfer: "
                                       ++ message approvalError))) in
             lockBuy_send swap
               (CallLockBuy tokenAddress recipient hashedSecret timeoutInt
                            valueWei formattedSellAssetId sellPriceWei)
         end)
        (fun error =>
           run* t := act (Toast "Transaction Failed"
                                (lockBuy_errorMessage error) true) in
           raise error)
  | _, _ => not_connected
  end.

(** The integers that the account and the arguments of [lockSell]
    denote; ethers reads them when the fallback
    [calculateLockId(tokenAddress, account, hashedSecret, timeoutInt)]
    packs them. *)
Record Words := mkWords {
  word_token : Z;
  word_account : Z;
  word_recipient : Z;
  word_hashedSecret : Z;
  word_timeout : Z
}.

(** [lockSell(tokenAddress, recipient, hashedSecret, timeout, value,
    buyAssetId, buyLockId, useRawValue)]. A token contract that is
    [null] makes [tokenContract.allowance] a TypeError. *)
Definition lockSell (s : Session) (w : Words)
    (tokenAddress recipient hashedSecret : string)
    (timeout value : JsValue) (buyAssetId buyLockId : option string)
    (useRawValue : bool) : Run (option Z) :=
  match swapContract s, signer s with
  | Some swap, Some _ =>
      catch
        (run* v := verifySigner s in
         run* valueWei := await (lockSell_valueWei useRawValue value) in
         let formattedBuyAssetId := format_bytes32 buyAssetId in
         let formattedBuyLockId := format_bytes32 buyLockId in
         let timeoutInt := floor_Number timeout in
         run* tokenContract := getTokenContract s tokenAddress in
         match tokenContract with
         | None => raise (Thrown "TypeError")
         | Some tokenContract =>
             run* a := ensure_allowance tokenContract (account s)
                                        tokenAddress valueWei in
             let call := CallLockSell
                           (mkLockSellCall tokenAddress recipient hashedSecret
                                           timeoutInt valueWei
                                           formattedBuyAssetId
                                           formattedBuyLockId) in
             run* u := act (Submit call None) in
             run* tx := await (send swap call) in
             run* t1 := act (Toast "Transaction Submitted"
                                   "Your lock sell transaction has been submitted"
                                   false) in
             run* receipt := await tx in
             run* lockId :=
               await (lockSell_lockId (word_account w) (parsed_logs receipt)
                                      (word_token w) (word_recipient w)
                                      (word_hashedSecret w) (word_timeout w)
                                      valueWei) in
             run* t2 := act (Toast "Lock Sell Created"
                                   "Your lock sell has been successfully created"
                                   false) in
             done (Some lockId)
         end)
        (fun error =>
           run* t := act (Toast "Transaction Failed" (message error) true) in
           raise error)
  | _, _ => not_connected
  end.

(** The frame the three resolution wrappers share: the connection
    check, the signer check, the call, the two toasts, and the catch
    that shows the failure and throws the error again. *)
Definition resolve (s : Session) (call : ContractCall)
    (submitted succeeded_title succeeded : string)
  : Run (option (list RawLog)) :=
  match swapContract s, signer s with
  | Some swap, Some _ =>
      catch
        (run* v := verifySigner s in
         run* u := act (Submit call None) in
         run* tx := await (send swap call) in
         run* t1 := act (Toast "Transaction Submitted" submitted false) in
         run* receipt := await tx in
         run* t2 := act (Toast succeeded_title succeeded false) in
         done (Some receipt))
        (fun error =>
           run* t := act (Toast "Transaction Failed" (message error) true) in
           raise error)
  | _, _ => not_connected
  end.

(** [unlock(tokenAddress, creator, secret, timeout)] *)
Definition unlock (s : Session) (tokenAddress creator secret : string)
    (timeout : JsValue) : Run (option (list RawLog)) :=
  let timeoutInt := floor_Number timeout in
  resolve s (CallUnlock tokenAddress creator secret timeoutInt)
          "Your unlock transaction has been submitted"
          "Lock Unlocked" "The lock has been successfully unlocked".

(** [retrieve(tokenAddress, recipient, hashedSecret, timeout)] *)
Definition retrieve (s : Session) (tokenAddress recipient hashedSecret : string)
    (timeout : JsValue) : Run (option (list RawLog)) :=
  let timeoutInt := floor_Number timeout in
  resolve s (CallRetrieve tokenAddress recipient hashedSecret timeoutInt)
          "Your retrieve transaction has been submitted"
          "Lock Retrieved" "The lock has been successfully retrieved".

(** [decline(tokenAddress, creator, hashedSecret, timeout)] *)
Definition decline (s : Session) (tokenAddress creator hashedSecret : string)
    (timeout : JsValue) : Run (option (list RawLog)) :=
  let timeoutInt := floor_Number timeout in
  resolve s (CallDecline tokenAddress creator hashedSecret timeoutInt)
          "Your decline transaction has been submitted"
          "Lock Declined" "The lock has been successfully declined".

(** *** [getTokenBalance] *)

(** The object [getTokenBalance] returns; the early return has no
    [formatted] key. *)
Record TokenBalance := mkTokenBalance {
  balance : string;
  balance_decimals : Z;
  balance_symbol : string;
  formatted : option string
}.

(** [ethers.formatUnits] *)
Variable formatUnits : Z -> Z -> Js string.

Definition getTokenBalance (s : Session) (tokenAddress : string)
  : Run TokenBalance :=
  match signer s, provider s with
  | Some _, Some _ =>
      if missing (account s) then done (mkTokenBalance "0" 18 "" None)
      else
        catch
          (run* v := verifySigner s in
           run* tokenContract := getTokenContract s tokenAddress in
           match tokenContract with
           | None => raise (Error_ "Failed to create token contract instance")
           | Some tokenContract =>
               run* tokenSymbol :=
                 catch (await (symbol tokenContract)) (fun _ => done "???") in
               run* tokenDecimals :=
                 catch (await (decimals tokenContract)) (fun _ => done 18) in
               run* balance := await (balanceOf tokenContract (account s)) in
               run* text := await (formatUnits balance tokenDecimals) in
               done (mkTokenBalance (decimal_String balance) tokenDecimals
                                    tokenSymbol (Some text))
           end)
          (fun error => done (mkTokenBalance "0" 18 "" (Some "0")))
  | _, _ => done (mkTokenBalance "0" 18 "" None)
  end.

End Flows.

(** *** [getRequestedAccounts] of [connectWallet]

    What the wallet answers to each of the five requests: it rejects,
    or it resolves to an array of accounts or to nothing ([None]).
    [enable] and the legacy [web3.eth.getAccounts] may be absent. *)

Section Accounts.
Variable A : Type.

Record Wallet := mkWallet {
  send_requestAccounts : Js (option (list A));
  request_requestAccounts : Js (option (list A));
  enable : option (Js (option (list A)));
  send_accounts : Js (option (list A));
  web3_getAccounts : option (Js (option (list A)))
}.

(** [Array.isArray(accounts) ? accounts : []] *)
Definition array (accounts : option (list A)) : option (list A) :=
  Some (default [] accounts).

Definition methods (w : Wallet) : list (Js (option (list A))) :=
  [ (let* accounts := send_requestAccounts w in ret (array accounts));
    (let* accounts := request_requestAccounts w in ret (array accounts));
    match enable w with
    | Some enable => let* accounts := enable in ret (array accounts)
    | None => throw (Error_ "enable() not available")
    end;
    (let* accounts := send_accounts w in
     match accounts with
     | None | Some [] => throw (Error_ "No accounts found with eth_accounts")
     | Some _ => ret accounts
     end);
    match web3_getAccounts w with
    | Some getAccounts => getAccounts
    | None => throw (Error_ "Legacy web3 not available")
    end ].

(** [accounts && accounts.length > 0] *)
Definition found (accounts : option (list A)) : bool :=
  match accounts with
  | Some (_ :: _) => true
  | _ => false
  end.

(** The loop over the methods and the final throw. *)
Fixpoint first_found (ms : list (Js (option (list A))))
    (lastError : option JsError) : Js (list A) :=
  match ms with
  | [] => throw (default (Error_ "All account request methods failed") lastError)
  | method :: ms' =>
      match method with
      | inr accounts =>
          if found accounts then ret (default [] accounts)
          else first_found ms' lastError
      | inl error => first_found ms' (Some error)
      end
  end.

Definition getRequestedAccounts (w : Wallet) : Js (list A) :=
  first_found (methods w) None.

End Accounts.

End Wallet.

(** ** A sample session

    A host on integers, a token with a given balance and allowance, and
    a swap contract whose gas estimate fails and whose calls are mined
    with a given receipt. *)

Module Trial.
Import Client.

Definition thrown_message (what : string) : string := what.
Definition revert_message (name : string) (args : list Z) : string :=
  "execution reverted: " ++ name.
Definition revert_data (name : string) (args : list Z) : option string := None.

Definition swapAddress : string := "0x00000000000000000000000000000000000000AA".
Definition alice : string := "0x00000000000000000000000000000000000000a1".
Definition bob : string := "0x00000000000000000000000000000000000000b2".
Definition token : string := "0x00000000000000000000000000000000000000c3".
Definition commitment : string :=
  "0x000000000000000000000000000000000000000000000000000000000000004d".

Definition signer_of (address : string) : Wallet.Signer :=
  Wallet.mkSigner (ret address).

Definition coin (balance allowance : Z) : Wallet.Token :=
  Wallet.mkToken (ret 6) (throw (Thrown "symbol"))
                 (fun _ => ret balance) (fun _ _ => ret allowance)
                 (fun _ _ => ret (ret tt)).

Definition lockBuy_log : Wallet.RawLog :=
  Wallet.mkRawLog "0x00000000000000000000000000000000000000aa"
    (Some (mkLog "LockBuy"
             [("token", 0xc3); ("creator", 0xa1); ("recipient", 0xb2);
              ("hashedSecret", 77); ("timeout", 1000); ("value", 5000000);
              ("sellAssetId", 0); ("sellPrice", 2000000); ("lockId", 0xabcdef)])).

Definition lockSell_log : Wallet.RawLog :=
  Wallet.mkRawLog "0x00000000000000000000000000000000000000aa"
    (Some (mkLog "LockSell"
             [("token", 0xc3); ("creator", 0xa1); ("recipient", 0xb2);
              ("hashedSecret", 77); ("timeout", 1000); ("value", 5000000);
              ("buyAssetId", 0); ("buyLockId", 0)])).

Definition swap (receipt : list Wallet.RawLog) : Wallet.Swap (R := IntegerRuntime) :=
  Wallet.mkSwap (fun _ => throw (CallException "LockNotFound" [0]))
                (fun _ => ret (ret receipt)).

Definition failing_swap : Wallet.Swap (R := IntegerRuntime) :=
  Wallet.mkSwap (fun _ => throw (CallException "LockNotFound" [0]))
                (fun _ => throw (CallException "LockNotFound" [0])).

(** A token that holds enough and rejects every approval. *)
Definition frozen_coin : Wallet.Token :=
  Wallet.mkToken (ret 6) (ret "FRZ")
                 (fun _ => ret 9000000) (fun _ _ => ret 0)
                 (fun _ _ => throw (CallException "TransferInFailed" [0xc3; 0xa1; 0])).

(** Alice connected, her signer answering with a checksummed address. *)
Definition session (contract : Wallet.Swap (R := IntegerRuntime))
    (tokenContract : Wallet.Token) : Wallet.Session :=
  Wallet.mkSession (Some contract)
                   (Some (signer_of "0x00000000000000000000000000000000000000A1"))
                   (Some alice) (Some (ret (signer_of alice)))
                   (fun _ => tokenContract).

(** The wallet has moved on to Bob while the page still shows Alice. *)
Definition stale_session : Wallet.Session (R := IntegerRuntime) :=
  Wallet.mkSession (Some (swap []))
                   (Some (signer_of bob))
                   (Some alice) (Some (ret (signer_of bob)))
                   (fun _ => coin 0 0).

(** A swap contract and a signer, and no provider to verify the signer. *)
Definition unverified : Wallet.Session (R := IntegerRuntime) :=
  Wallet.mkSession (Some (swap [])) (Some (signer_of alice)) (Some alice) None
                   (fun _ => coin 9000000 9000000).

Definition offline : Wallet.Session (R := IntegerRuntime) :=
  Wallet.mkSession None None None None (fun _ => coin 0 0).

Definition words : Wallet.Words := Wallet.mkWords 0xc3 0xa1 0xb2 77 1000.

(** A wallet that rejects the two requests, has no [enable] and no
    legacy [web3], and lists one account. *)
Definition quiet_wallet : Wallet.Wallet string :=
  Wallet.mkWallet string (throw (Thrown "4001")) (throw (Thrown "4001")) None
                  (ret (Some [alice])) None.


End Trial.

(** * Properties *)

(** ** Keccak-256 on known inputs *)

Example keccak256_empty :
  Keccak.keccak256 []
  = 0xc5d2460186f7233c927e7db2dcc703c0e500b653ca82273b7bfad8045d85a470.
Proof. vm_compute. reflexivity. Qed.

Example keccak256_abc :
  Keccak.keccak256 [Byte.x61; Byte.x62; Byte.x63]
  = 0x4e03657aea45a94fc7d47ba826c8d667c0d1e6e33a64a036ec44f58fa12d6c45.
Proof. vm_compute. reflexivity. Qed.

(** Padding at the block boundary: 135, 136 and 137 bytes. *)
Example keccak256_block_boundary :
  map (fun n => Keccak.keccak256 (repeat Byte.x71 n)) [135; 136; 137]%nat
  = [0x185a63a44dfbc2991f831da304441efa5ffdd2aff746276a62995fb8375eb7e7;
     0x9885ca08e6e92da0bf0dac614d1bc7cc0b9d1f8d7a3c2cf77f51e58f58f7c4d3;
     0x5a5741ea744b64051d809c58ff2a1bde6d135d1422e16885e0c2e43e05930be3].
Proof. vm_compute. reflexivity. Qed.

(** ** The interface *)

Section Interface.
Import Abi.

Example swapAbi_counts :
  (length (errors swapAbi), length (events swapAbi), length (functions swapAbi))
  = (6, 5, 6)%nat.
Proof. reflexivity. Qed.

Lemma getEvent_cases n ps :
  getEvent n = Some ps ->
  n = "Decline" \/ n = "LockBuy" \/ n = "LockSell" \/ n = "Retrieve" \/ n = "Unlock".
Proof.
  unfold getEvent. cbn.
  repeat match goal with
         | |- context [String.eqb n ?s] =>
             destruct (String.eqb_spec n s) as [->|_]; [intros _; auto 10|]
         end.
  discriminate.
Qed.

End Interface.

(** ** Lock identity in the client *)

Section LockIdentity.
Import Client.

Lemma byte_to_of_Z z : Keccak.byte_to_Z (Keccak.byte_of_Z z) = z mod 256.
Proof.
  unfold Keccak.byte_to_Z, Keccak.byte_of_Z.
  assert (Hr : 0 <= z mod 256 < 256) by (apply Z.mod_pos_bound; lia).
  destruct (Byte.of_N (Z.to_N (z mod 256))) as [b|] eqn:Hb.
  - apply Byte.to_of_N in Hb. rewrite Hb. lia.
  - apply Byte.of_N_None_iff in Hb. lia.
Qed.

Lemma be_bytes_length n v : length (be_bytes n v) = n.
Proof. unfold be_bytes. now rewrite length_map, length_seq. Qed.

Lemma be_bytes_S n v :
  be_bytes (S n) v = (be_bytes n (v / 256) ++ [Keccak.byte_of_Z v])%list.
Proof.
  unfold be_bytes. rewrite seq_S, map_app. cbn [map Nat.add].
  f_equal.
  - apply map_ext_in. intros k Hk. apply in_seq in Hk. f_equal.
    rewrite Z.shiftr_div_pow2 by lia.
    rewrite Z.shiftr_div_pow2 by lia.
    replace (8 * Z.of_nat (S n - 1 - k)) with (8 + 8 * Z.of_nat (n - 1 - k)) by lia.
    rewrite Z.pow_add_r by lia. rewrite Z.div_div by lia. reflexivity.
  - replace (S n - 1 - n)%nat with 0%nat by lia. reflexivity.
Qed.

Lemma be_Z_snoc l b : Keccak.be_Z (l ++ [b]) = 256 * Keccak.be_Z l + Keccak.byte_to_Z b.
Proof. unfold Keccak.be_Z. now rewrite fold_left_app. Qed.

(** The big-endian bytes of a value that fits read back as the value. *)
Lemma be_bytes_roundtrip n v :
  0 <= v < 2 ^ (8 * Z.of_nat n) -> Keccak.be_Z (be_bytes n v) = v.
Proof.
  revert v. induction n as [|n IH]; intros v Hv.
  - cbn in *. lia.
  - rewrite be_bytes_S, be_Z_snoc, byte_to_of_Z, IH.
    + pose proof (Z.div_mod v 256). lia.
    + replace (8 * Z.of_nat (S n)) with (8 + 8 * Z.of_nat n) in Hv by lia.
      rewrite Z.pow_add_r in Hv by lia. change (2 ^ 8) with 256 in Hv.
      split; [apply Z.div_pos; lia|].
      apply Z.div_lt_upper_bound; lia.
Qed.

Lemma fits_range t v :
  fits t v = true -> 0 <= v < 2 ^ (8 * Z.of_nat (width t)).
Proof. unfold fits. intros H. apply andb_true_iff in H. lia. Qed.

Lemma pack_fits t v :
  fits t v = true -> pack t v = ret (be_bytes (width t) v).
Proof. unfold pack. now intros ->. Qed.

(** On values of the right types the packed encoding determines the
    tuple: two identities differ unless the tuples agree or the hash
    collides. *)
Lemma tightly_packed_inj a c h t a' c' h' t' :
  fits address a = true -> fits address c = true ->
  fits bytes32 h = true -> fits uint256 t = true ->
  fits address a' = true -> fits address c' = true ->
  fits bytes32 h' = true -> fits uint256 t' = true ->
  tightly_packed a c h t = tightly_packed a' c' h' t' ->
  (a, c, h, t) = (a', c', h', t').
Proof.
  intros Ha Hc Hh Ht Ha' Hc' Hh' Ht'. unfold tightly_packed. intros E.
  apply app_inj_1 in E as [Ea E]; [|now rewrite !be_bytes_length].
  apply app_inj_1 in E as [Ec E]; [|now rewrite !be_bytes_length].
  apply app_inj_1 in E as [Eh Et]; [|now rewrite !be_bytes_length].
  apply (f_equal Keccak.be_Z) in Ea, Ec, Eh, Et.
  rewrite !be_bytes_roundtrip in Ea, Ec, Eh, Et
    by (apply (fits_range address) || apply (fits_range bytes32)
        || apply (fits_range uint256); assumption).
  congruence.
Qed.

End LockIdentity.

Section ClientIdentity.
Import Client.

Lemma calculateLockId_fits a c h t :
  fits address a = true -> fits address c = true ->
  fits bytes32 h = true -> fits uint256 t = true ->
  calculateLockId a c h t = ret (Keccak.keccak256 (tightly_packed a c h t)).
Proof.
  intros Ha Hc Hh Ht.
  unfold calculateLockId, solidityPackedKeccak256.
  cbn [solidityPacked].
  rewrite !pack_fits by assumption.
  cbn [bind ret width]. unfold tightly_packed.
  now rewrite app_nil_r.
Qed.

(** A value outside its type makes the derivation throw. *)
Lemma calculateLockId_throws a c h t :
  fits address a && fits address c && fits bytes32 h && fits uint256 t = false ->
  exists e, calculateLockId a c h t = throw e.
Proof.
  unfold calculateLockId, solidityPackedKeccak256. cbn [solidityPacked].
  unfold pack.
  destruct (fits address a); [|eexists; reflexivity].
  destruct (fits address c); [|eexists; reflexivity].
  destruct (fits bytes32 h); [|eexists; reflexivity].
  destruct (fits uint256 t); [discriminate|eexists; reflexivity].
Qed.

(** C1: the lock identity is the keccak256 hash of the tightly packed
    encoding of exactly (assetContract, creator, hashedSecret, timeout),
    104 bytes; the derivation is a function of that tuple, so equal
    tuples give equal identities, and the recipient and the value a
    wrapper was called with do not enter the identity it derives. *)
Theorem C1_lock_identity (assetContract creator hashedSecret timeout : Z) :
  fits address assetContract = true -> fits address creator = true ->
  fits bytes32 hashedSecret = true -> fits uint256 timeout = true ->
  calculateLockId assetContract creator hashedSecret timeout
    = ret (Keccak.keccak256
             (tightly_packed assetContract creator hashedSecret timeout))
  /\ length (tightly_packed assetContract creator hashedSecret timeout) = 104%nat
  /\ (forall a' c' h' t',
        (a', c', h', t') = (assetContract, creator, hashedSecret, timeout) ->
        calculateLockId a' c' h' t'
        = calculateLockId assetContract creator hashedSecret timeout)
  /\ (forall logs recipient value recipient' value',
        lockSell_lockId creator logs assetContract recipient
                        hashedSecret timeout value
        = lockSell_lockId creator logs assetContract recipient'
                          hashedSecret timeout value').
Proof.
  intros Ha Hc Hh Ht. split; [|split; [|split]].
  - now apply calculateLockId_fits.
  - unfold tightly_packed. rewrite !length_app, !be_bytes_length. reflexivity.
  - intros a' c' h' t' E. now inversion E.
  - intros logs r v r' v'. reflexivity.
Qed.

Lemma C1_lock_identity_witness :
  calculateLockId 0x1111111111111111111111111111111111111111
                  0x2222222222222222222222222222222222222222
                  (Keccak.keccak256 (be_bytes 32 7)) 1000
  = ret 0x088cc24adb5223a11bb86e204cbbf6d1521083232c2db6b7ec6e5666b4554c16.
Proof.
  destruct (C1_lock_identity
              0x1111111111111111111111111111111111111111
              0x2222222222222222222222222222222222222222
              (Keccak.keccak256 (be_bytes 32 7)) 1000) as [E _];
    [vm_compute; reflexivity ..|].
  rewrite E. vm_compute. reflexivity.
Defined.

End ClientIdentity.

(** ** Errors and records of the interface *)

Section InterfaceClaims.
Import Abi.

Lemma assoc_not_in {A} k (l : list (string * A)) :
  ~ In k (map fst l) -> assoc k l = None.
Proof.
  induction l as [|[k' v] l IH]; cbn; [reflexivity|].
  intros H. destruct (String.eqb_spec k k') as [->|_]; [tauto|].
  apply IH. tauto.
Qed.

(** C7: the interface declares exactly six errors; the four lock
    errors carry the lockId, the two transfer failures carry the
    asset, the counterparty account and the amount; the ledger's error
    type has one constructor per declared error, with as many
    arguments, and the name and arguments reported to the caller
    determine the error. *)
Theorem C7_error_taxonomy :
  map fst (errors swapAbi)
  = ["LockAlreadyExists"; "LockNotFound"; "LockNotTimedOut"; "LockTimedOut";
     "TransferInFailed"; "TransferOutFailed"]
  /\ map (fun e => signature (snd e)) (errors swapAbi)
     = [[("lockId", "bytes32")]; [("lockId", "bytes32")];
        [("lockId", "bytes32")]; [("lockId", "bytes32")];
        [("token", "address"); ("from", "address"); ("value", "uint256")];
        [("token", "address"); ("to", "address"); ("value", "uint256")]]
  /\ (forall e : Ledger.Error,
        exists ps, getError (Ledger.error_name e) = Some ps
                   /\ length (Ledger.error_args e) = length ps)
  /\ (forall n, In n (map fst (errors swapAbi)) <->
                exists e : Ledger.Error, Ledger.error_name e = n)
  /\ (forall lockId,
        Ledger.error_args (Ledger.LockAlreadyExists lockId) = [lockId]
        /\ Ledger.error_args (Ledger.LockNotFound lockId) = [lockId]
        /\ Ledger.error_args (Ledger.LockNotTimedOut lockId) = [lockId]
        /\ Ledger.error_args (Ledger.LockTimedOut lockId) = [lockId])
  /\ (forall token account value,
        Ledger.error_args (Ledger.TransferInFailed token account value)
        = [token; account; value]
        /\ Ledger.error_args (Ledger.TransferOutFailed token account value)
           = [token; account; value])
  /\ (forall e e' : Ledger.Error,
        (Ledger.error_name e, Ledger.error_args e)
        = (Ledger.error_name e', Ledger.error_args e') <-> e = e').
Proof.
  split; [reflexivity|]. split; [reflexivity|].
  split; [|split; [|split; [|split]]].
  - intros []; eexists; (split; [reflexivity|reflexivity]).
  - intros n. split.
    + cbn. intros [<-|[<-|[<-|[<-|[<-|[<-|[]]]]]]].
      * now exists (Ledger.LockAlreadyExists 0).
      * now exists (Ledger.LockNotFound 0).
      * now exists (Ledger.LockNotTimedOut 0).
      * now exists (Ledger.LockTimedOut 0).
      * now exists (Ledger.TransferInFailed 0 0 0).
      * now exists (Ledger.TransferOutFailed 0 0 0).
    + intros [[] <-]; cbn; tauto.
  - intros lockId. repeat split.
  - intros token account value. repeat split.
  - intros e e'. split; [|intros ->; reflexivity].
    destruct e, e'; cbn; intros E; inversion E; reflexivity.
Qed.

(** C2 as stated fails: the LockSell record declares no lockId. *)
Lemma C2_LockSell_without_lockId :
  ~ (forall n ps, getEvent n = Some ps ->
       forall f, In f ["token"; "creator"; "recipient"; "lockId"] ->
                 has_field f ps = true).
Proof.
  intros H.
  specialize (H "LockSell" _ eq_refl "lockId").
  cbn in H. discriminate H. tauto.
Qed.

End InterfaceClaims.

Section SellRecord.
Import Abi Client.

Lemma find_event_Some nm logs ev :
  find_event nm logs = Some ev -> In (Some ev) logs /\ log_name ev = nm.
Proof.
  unfold find_event.
  destruct (List.find _ logs) as [[e|]|] eqn:F; cbn; try discriminate.
  intros [= ->]. apply find_some in F as [Hin Hn].
  split; [assumption|]. now apply String.eqb_eq.
Qed.

Lemma decoded_LockSell_no_lockId ev :
  decoded ev -> log_name ev = "LockSell" -> assoc "lockId" (args ev) = None.
Proof.
  intros (ps & Hps & Hargs) Hn. rewrite Hn in Hps.
  apply assoc_not_in. rewrite Hargs.
  injection Hps as <-. cbn. intuition discriminate.
Qed.

(** C2, amended: every record declares token, creator and recipient;
    the LockBuy, Unlock, Retrieve and Decline records also declare
    lockId; the LockSell record declares hashedSecret, timeout, value,
    buyAssetId and buyLockId and no lockId of its own, so that on logs
    decoded against the interface the lockSell wrapper derives the
    identity with calculateLockId from the token, the connected
    account, hashedSecret and the timeout. *)
Theorem C2_records
    (account tokenAddress recipient hashedSecret timeoutInt value : Z)
    (logs : list (option LogDescription)) :
  (forall ev, In (Some ev) logs -> decoded ev) ->
  (forall n ps, getEvent n = Some ps ->
     forall f, In f ["token"; "creator"; "recipient"] -> has_field f ps = true)
  /\ (forall n ps, getEvent n = Some ps -> n <> "LockSell" ->
        has_field "lockId" ps = true)
  /\ option_map names (getEvent "LockSell")
     = Some ["token"; "creator"; "recipient"; "hashedSecret"; "timeout";
             "value"; "buyAssetId"; "buyLockId"]
  /\ lockSell_lockId account logs tokenAddress recipient hashedSecret
                     timeoutInt value
     = calculateLockId tokenAddress account hashedSecret timeoutInt.
Proof.
  intros Hlogs. split; [|split; [|split]].
  - intros n ps Hn f Hf.
    destruct (getEvent_cases _ _ Hn) as [->|[->|[->|[->| ->]]]];
      injection Hn as <-;
      cbn in Hf; destruct Hf as [<-|[<-|[<-|[]]]]; reflexivity.
  - intros n ps Hn Hne.
    destruct (getEvent_cases _ _ Hn) as [->|[->|[->|[->| ->]]]];
      try (injection Hn as <-; reflexivity).
    congruence.
  - reflexivity.
  - unfold lockSell_lockId.
    destruct (find_event "LockSell" logs) as [ev|] eqn:F; [|reflexivity].
    apply find_event_Some in F as [Hin Hn].
    now rewrite (decoded_LockSell_no_lockId ev (Hlogs _ Hin) Hn).
Qed.

Lemma C2_records_witness :
  lockSell_lockId
    0x2222222222222222222222222222222222222222
    [None;
     Some (mkLog "LockSell"
             [("token", 0x1111111111111111111111111111111111111111);
              ("creator", 0x2222222222222222222222222222222222222222);
              ("recipient", 0x3333333333333333333333333333333333333333);
              ("hashedSecret", 77); ("timeout", 1000); ("value", 5000000);
              ("buyAssetId", 0); ("buyLockId", 0)])]
    0x1111111111111111111111111111111111111111
    0x3333333333333333333333333333333333333333 77 1000 5000000
  = calculateLockId 0x1111111111111111111111111111111111111111
                    0x2222222222222222222222222222222222222222 77 1000.
Proof.
  refine (proj2 (proj2 (proj2 (C2_records _ _ _ _ _ _ _ _)))).
  intros ev [H|[H|[]]]; [discriminate H|].
  injection H as <-. eexists. split; reflexivity.
Defined.

End SellRecord.

(** ** The client wrappers *)

Section ClientWrappers.
Import Client.

(** C9: in the lockSell wrapper both branches on useRawValue compute
    BigInt(String(value*1000000).trim()), so the flag changes neither the
    amount nor the submitted transaction; in lockBuy the raw branch
    parses the value unscaled. The last part runs the four cases on the
    integer 5. *)
Theorem C9_lockSell_useRawValue_no_effect
    (R : Runtime) (tokenAddress recipient hashedSecret : string)
    (timeout value : JsValue) (buyAssetId buyLockId : option string)
    (currentAllowance : Z) :
  lockSell_valueWei true value
    = BigInt (trim (String_ (times value (literal 1000000))))
  /\ lockSell_valueWei false value
     = BigInt (trim (String_ (times value (literal 1000000))))
  /\ lockSell_tx tokenAddress recipient hashedSecret timeout value
                 buyAssetId buyLockId true currentAllowance
     = lockSell_tx tokenAddress recipient hashedSecret timeout value
                   buyAssetId buyLockId false currentAllowance
  /\ lockBuy_valueWei true value
     = try_catch (BigInt (trim (String_ value))) (invalid_value value)
  /\ lockBuy_valueWei false value
     = try_catch (BigInt (trim (String_ (times value (literal 1000000)))))
                 (invalid_value (times value (literal 1000000)))
  /\ (@lockSell_valueWei IntegerRuntime true 5,
      @lockSell_valueWei IntegerRuntime false 5,
      @lockBuy_valueWei IntegerRuntime true 5,
      @lockBuy_valueWei IntegerRuntime false 5)
     = (ret 5000000, ret 5000000, ret 5, ret 5000000).
Proof.
  repeat split; reflexivity.
Qed.

(** On the integer host the scaled amount is the product. *)
Example lockSell_valueWei_integers :
  map (@lockSell_valueWei IntegerRuntime true) [0; 1; 250; -3]
  = [ret 0; ret 1000000; ret 250000000; ret (-3000000)].
Proof. vm_compute. reflexivity. Qed.

(** C10: the getLockValue wrapper always returns a string: "0" when no
    contract is connected, "0" when the call rejects (a LockNotFound
    revert included) or the formatting throws, and otherwise what
    formatEther makes of the value. *)
Theorem C10_getLockValue_total
    (formatEther : Z -> Js string) (swapContract : option SwapContract)
    (lockId : Z) :
  (exists text, getLockValue formatEther swapContract lockId = ret text)
  /\ getLockValue formatEther None lockId = ret "0"
  /\ (forall c,
        getLockValue formatEther (Some c) lockId
        = match contract_getLockValue c lockId with
          | inl _ => ret "0"
          | inr value =>
              match formatEther value with
              | inl _ => ret "0"
              | inr text => ret text
              end
          end)
  /\ getLockValue formatEther
       (Some (mkSwapContract
                (fun id => throw (CallException "LockNotFound" [id]))))
       lockId
     = ret "0"
  /\ getLockValue formatEther_uint
       (Some (mkSwapContract (fun _ => ret (15 * 10 ^ 17)))) lockId
     = ret "1.5".
Proof.
  assert (Hc : forall c,
            getLockValue formatEther (Some c) lockId
            = match contract_getLockValue c lockId with
              | inl _ => ret "0"
              | inr value =>
                  match formatEther value with
                  | inl _ => ret "0"
                  | inr text => ret text
                  end
              end).
  { intros c. unfold getLockValue, try_catch, bind.
    destruct (contract_getLockValue c lockId) as [e|v]; [reflexivity|].
    destruct (formatEther v); reflexivity. }
  split; [|split; [reflexivity|split; [exact Hc|split; reflexivity]]].
  destruct swapContract as [c|]; [|now exists "0"].
  rewrite Hc.
  destruct (contract_getLockValue c lockId) as [e|v]; [now exists "0"|].
  destruct (formatEther v) as [e|text]; [now exists "0"|now exists text].
Qed.

Example formatEther_uint_samples :
  map formatEther_uint [0; 1; 5000000; 10 ^ 18; 123456789012345678901234567890]
  = [ret "0.0"; ret "0.000000000000000001"; ret "0.000000000005";
     ret "1.0"; ret "123456789012.34567890123456789"].
Proof. vm_compute. reflexivity. Qed.

End ClientWrappers.

(** ** The lock ledger *)

Lemma lockIdOf_eq token creator hashedSecret timeout :
  Ledger.lockIdOf token creator hashedSecret timeout
  = Keccak.keccak256 (Client.tightly_packed token creator hashedSecret timeout).
Proof. reflexivity. Qed.

Lemma hashSecret_eq secret :
  Ledger.hashSecret secret = Keccak.keccak256 (Client.be_bytes 32 secret).
Proof. reflexivity. Qed.

(** The identity the client computes is the one the ledger files the
    lock under. *)
Lemma calculateLockId_lockIdOf token creator hashedSecret timeout :
  Client.fits Client.address token = true ->
  Client.fits Client.address creator = true ->
  Client.fits Client.bytes32 hashedSecret = true ->
  Client.fits Client.uint256 timeout = true ->
  Client.calculateLockId token creator hashedSecret timeout
  = Client.ret (Ledger.lockIdOf token creator hashedSecret timeout).
Proof. intros. rewrite lockIdOf_eq. apply calculateLockId_fits; assumption. Qed.

(** The proofs below never look inside the hash. *)
Opaque Ledger.lockIdOf Ledger.hashSecret.

Section LedgerLaws.
Import Ledger.
Context {W : Type} `{!AssetLedger W}.
Variable unauthorized : Z -> Error.

(** *** What each operation body computes *)

Lemma create_run c token recipient h tm v record (s : State W) :
  create c token recipient h tm v record s
  = match locks s !! lockIdOf token (caller c) h tm with
    | Some _ => inl (LockAlreadyExists (lockIdOf token (caller c) h tm))
    | None =>
        match transferIn (assets s) token (caller c) v with
        | None => inl (TransferInFailed token (caller c) v)
        | Some w =>
            inr (tt, mkState
                       (<[lockIdOf token (caller c) h tm
                          := mkLock token (caller c) recipient h tm v]> (locks s))
                       w
                       (emitted s ++ [record (lockIdOf token (caller c) h tm)])%list)
        end
    end.
Proof.
  unfold create, bind, find_lock, require, pull, store, emit, ret, revert.
  cbn.
  destruct (locks s !! lockIdOf token (caller c) h tm); cbn; [reflexivity|].
  destruct (transferIn (assets s) token (caller c) v); reflexivity.
Qed.

Lemma unlock_run c token creator secret tm (s : State W) :
  unlock unauthorized c token creator secret tm s
  = match locks s !! lockIdOf token creator (hashSecret secret) tm with
    | None => inl (LockNotFound (lockIdOf token creator (hashSecret secret) tm))
    | Some lk =>
        if now c <? tm then
          if caller c =? recipient lk then
            match transferOut (assets s) token (caller c) (value lk) with
            | None => inl (TransferOutFailed token (caller c) (value lk))
            | Some w =>
                inr (tt, mkState
                           (delete (lockIdOf token creator (hashSecret secret) tm)
                                   (locks s))
                           w
                           (emitted s
                            ++ [Unlock token creator (recipient lk)
                                  (lockIdOf token creator (hashSecret secret) tm)
                                  secret])%list)
            end
          else inl (unauthorized (lockIdOf token creator (hashSecret secret) tm))
        else inl (LockTimedOut (lockIdOf token creator (hashSecret secret) tm))
    end.
Proof.
  unfold unlock, bind, open_lock, find_lock, require, push, close, emit, ret, revert.
  cbn.
  destruct (locks s !! _) as [lk|]; cbn; [|reflexivity].
  destruct (now c <? tm); cbn; [|reflexivity].
  destruct (caller c =? recipient lk); cbn; [|reflexivity].
  destruct (transferOut (assets s) token (caller c) (value lk)); reflexivity.
Qed.

Lemma retrieve_run c token rcp h tm (s : State W) :
  retrieve c token rcp h tm s
  = match locks s !! lockIdOf token (caller c) h tm with
    | None => inl (LockNotFound (lockIdOf token (caller c) h tm))
    | Some lk =>
        if tm <=? now c then
          match transferOut (assets s) token (caller c) (value lk) with
          | None => inl (TransferOutFailed token (caller c) (value lk))
          | Some w =>
              inr (tt, mkState
                         (delete (lockIdOf token (caller c) h tm) (locks s))
                         w
                         (emitted s
                          ++ [Retrieve token (caller c) rcp
                                (lockIdOf token (caller c) h tm)])%list)
          end
        else inl (LockNotTimedOut (lockIdOf token (caller c) h tm))
    end.
Proof.
  unfold retrieve, bind, open_lock, find_lock, require, push, close, emit, ret, revert.
  cbn.
  destruct (locks s !! _) as [lk|]; cbn; [|reflexivity].
  destruct (tm <=? now c); cbn; [|reflexivity].
  destruct (transferOut (assets s) token (caller c) (value lk)); reflexivity.
Qed.

Lemma decline_run c token creator h tm (s : State W) :
  decline unauthorized c token creator h tm s
  = match locks s !! lockIdOf token creator h tm with
    | None => inl (LockNotFound (lockIdOf token creator h tm))
    | Some lk =>
        if now c <? tm then
          if caller c =? recipient lk then
            match transferOut (assets s) token creator (value lk) with
            | None => inl (TransferOutFailed token creator (value lk))
            | Some w =>
                inr (tt, mkState
                           (delete (lockIdOf token creator h tm) (locks s))
                           w
                           (emitted s
                            ++ [Decline token creator (recipient lk)
                                  (lockIdOf token creator h tm)])%list)
            end
          else inl (unauthorized (lockIdOf token creator h tm))
        else inl (LockTimedOut (lockIdOf token creator h tm))
    end.
Proof.
  unfold decline, bind, open_lock, find_lock, require, push, close, emit, ret, revert.
  cbn.
  destruct (locks s !! _) as [lk|]; cbn; [|reflexivity].
  destruct (now c <? tm); cbn; [|reflexivity].
  destruct (caller c =? recipient lk); cbn; [|reflexivity].
  destruct (transferOut (assets s) token creator (value lk)); reflexivity.
Qed.

Lemma getLockValue_run lockId (s : State W) :
  getLockValue lockId s
  = match locks s !! lockId with
    | None => inl (LockNotFound lockId)
    | Some lk => inr (value lk, s)
    end.
Proof.
  unfold getLockValue, open_lock, find_lock, bind, ret, revert.
  cbn. destruct (locks s !! lockId); reflexivity.
Qed.

End LedgerLaws.

Section LedgerClaims.
Import Ledger.
Context {W : Type} `{!AssetLedger W}.
Variable unauthorized : Z -> Error.

Local Abbreviation execute := (execute unauthorized).

(** *** Invocations *)

(** Case analysis along the checks of an operation body. *)
Ltac run_cases :=
  repeat match goal with
         | |- context [locks ?s !! ?i] =>
             destruct (locks s !! i) as [?lk|] eqn:?L
         | |- context [transferIn ?w ?t ?a ?v] =>
             destruct (transferIn w t a v) eqn:?T
         | |- context [transferOut ?w ?t ?a ?v] =>
             destruct (transferOut w t a v) eqn:?T
         | |- context [Z.ltb ?a ?b] => destruct (Z.ltb_spec a b)
         | |- context [Z.leb ?a ?b] => destruct (Z.leb_spec a b)
         | |- context [Z.eqb ?a ?b] => destruct (Z.eqb_spec a b)
         end.

Lemma execute_run c r (s : State W) :
  execute c r s
  = match body unauthorized c r s with
    | inl e => (inl e, s)
    | inr (_, s') => (inr tt, s')
    end.
Proof.
  unfold Ledger.execute, invoke.
  destruct (body unauthorized c r s) as [e|[[] s']]; reflexivity.
Qed.

Lemma execute_rejected c r (s s' : State W) e :
  execute c r s = (inl e, s') -> s' = s.
Proof.
  rewrite execute_run.
  destruct (body unauthorized c r s) as [e'|[u s'']]; now intros [= _ <-].
Qed.

(** A rejected resolution found its lock, unless it reports
    [LockNotFound] for it. *)
Lemma resolution_rejected c r (s s' : State W) e :
  is_creation r = false ->
  execute c r s = (inl e, s') ->
  e = LockNotFound (request_lockId c r) \/ is_Some (locks s !! request_lockId c r).
Proof.
  intros Hr. rewrite execute_run.
  destruct r; try discriminate Hr; cbn [body request_lockId];
    rewrite ?unlock_run, ?retrieve_run, ?decline_run;
    (destruct (locks s !! _) as [lk|]; [intros _; right; now exists lk|]);
    intros [= <- _]; now left.
Qed.

(** A successful resolution found its lock, closed it, and moved the
    custodied value out. *)
Lemma resolution_done c r (s s' : State W) :
  is_creation r = false ->
  execute c r s = (inr tt, s') ->
  exists lk,
    locks s !! request_lockId c r = Some lk
    /\ locks s' = delete (request_lockId c r) (locks s).
Proof.
  intros Hr. rewrite execute_run.
  destruct r; try discriminate Hr; cbn [body request_lockId];
    rewrite ?unlock_run, ?retrieve_run, ?decline_run;
    run_cases; try discriminate;
    intros [= <-]; eexists; (split; [reflexivity|]); reflexivity.
Qed.

(** A creation on a free identity whose pull succeeds stores the lock. *)
Lemma creation_done c token rcp h tm v record (s : State W) w :
  locks s !! lockIdOf token (caller c) h tm = None ->
  transferIn (assets s) token (caller c) v = Some w ->
  invoke (create c token rcp h tm v record) s
  = (inr tt,
     mkState (<[lockIdOf token (caller c) h tm
                := mkLock token (caller c) rcp h tm v]> (locks s))
             w (emitted s ++ [record (lockIdOf token (caller c) h tm)])%list).
Proof.
  intros L T. unfold invoke. rewrite create_run, L, T. reflexivity.
Qed.

(** *** Reachable states *)

Lemma execute_locks c r (s : State W) :
  locks (snd (execute c r s)) = locks s
  \/ (exists rcp v h tm t,
        request_lockId c r = lockIdOf t (caller c) h tm
        /\ locks (snd (execute c r s))
           = <[request_lockId c r := mkLock t (caller c) rcp h tm v]> (locks s))
  \/ locks (snd (execute c r s)) = delete (request_lockId c r) (locks s).
Proof.
  rewrite execute_run.
  destruct r; cbn [body request_lockId]; unfold lockBuy, lockSell;
    rewrite ?create_run, ?unlock_run, ?retrieve_run, ?decline_run;
    run_cases; cbn [snd locks]; auto;
    right; left; do 5 eexists; split; reflexivity.
Qed.

(** The lock table of a reachable state files every lock under its own
    identity. *)
Lemma reachable_well_filed (s : State W) :
  reachable unauthorized s -> well_filed s.
Proof.
  induction 1 as [w|c r s _ IH|w s _ IH]; intros lockId lk.
  - cbn. rewrite lookup_empty. discriminate.
  - destruct (execute_locks c r s) as [->|[(rcp & v & h & tm & t & Hid & ->)| ->]].
    + apply IH.
    + rewrite lookup_insert. case_decide as Hk.
      * intros [= <-]. cbn. congruence.
      * apply IH.
    + rewrite lookup_delete. case_decide; [discriminate|apply IH].
  - apply IH.
Qed.

(** A resolution of an identity that holds no lock answers LockNotFound. *)
Lemma resolution_not_found c r (s : State W) :
  is_creation r = false ->
  locks s !! request_lockId c r = None ->
  execute c r s = (inl (LockNotFound (request_lockId c r)), s).
Proof.
  intros Hr. rewrite execute_run.
  destruct r; try discriminate Hr; cbn [body request_lockId];
    rewrite ?unlock_run, ?retrieve_run, ?decline_run;
    intros ->; reflexivity.
Qed.

(** At most one resolution succeeds: after one has, every further
    resolution of the identity, by any caller at any time, answers
    LockNotFound. *)
Lemma resolution_once c r (s s' : State W) c' r' :
  is_creation r = false -> execute c r s = (inr tt, s') ->
  is_creation r' = false -> request_lockId c' r' = request_lockId c r ->
  execute c' r' s' = (inl (LockNotFound (request_lockId c r)), s').
Proof.
  intros Hr Hx Hr' Hid.
  destruct (resolution_done _ _ _ _ Hr Hx) as (lk & _ & Hs).
  rewrite <- Hid. apply resolution_not_found; [exact Hr'|].
  rewrite Hs, Hid. apply lookup_delete_eq.
Qed.

(** *** Timing *)

(** C3: on an open lock, unlock and decline succeed only strictly before
    the timeout and are rejected with LockTimedOut at or after it;
    retrieve (by the creator) succeeds only at or after the timeout and
    is rejected with LockNotTimedOut before it. *)
Theorem C3_timing
    (c : Call) (token creator secret hashedSecret timeout rcp : Z)
    (s : State W) (lk : Lock) :
  locks s !! lockIdOf token creator hashedSecret timeout = Some lk ->
  (hashSecret secret = hashedSecret ->
     (fst (execute c (ReqUnlock token creator secret timeout) s) = inr tt ->
      now c < timeout)
     /\ (timeout <= now c ->
         fst (execute c (ReqUnlock token creator secret timeout) s)
         = inl (LockTimedOut (lockIdOf token creator hashedSecret timeout))))
  /\ ((fst (execute c (ReqDecline token creator hashedSecret timeout) s) = inr tt ->
       now c < timeout)
      /\ (timeout <= now c ->
          fst (execute c (ReqDecline token creator hashedSecret timeout) s)
          = inl (LockTimedOut (lockIdOf token creator hashedSecret timeout))))
  /\ (caller c = creator ->
      (fst (execute c (ReqRetrieve token rcp hashedSecret timeout) s) = inr tt ->
       timeout <= now c)
      /\ (now c < timeout ->
          fst (execute c (ReqRetrieve token rcp hashedSecret timeout) s)
          = inl (LockNotTimedOut (lockIdOf token creator hashedSecret timeout)))).
Proof.
  intros L. split; [|split].
  - intros <-. rewrite execute_run. cbn [body]. rewrite unlock_run, L.
    split.
    + run_cases; cbn; intros Hok; (assumption || discriminate Hok).
    + intros Hlate. destruct (Z.ltb_spec (now c) timeout); [lia|reflexivity].
  - rewrite execute_run. cbn [body]. rewrite decline_run, L.
    split.
    + run_cases; cbn; intros Hok; (assumption || discriminate Hok).
    + intros Hlate. destruct (Z.ltb_spec (now c) timeout); [lia|reflexivity].
  - intros <-. rewrite execute_run. cbn [body]. rewrite retrieve_run, L.
    split.
    + run_cases; cbn; intros Hok; (assumption || discriminate Hok).
    + intros Hearly. destruct (Z.leb_spec timeout (now c)); [lia|reflexivity].
Qed.

(** *** Atomicity *)

(** C4: a rejected invocation leaves the state (lock table, assets and
    emitted records) as it was, and so does the read-only query; after a
    creation rejected with TransferInFailed the identity holds no lock;
    after a resolution rejected with TransferOutFailed the lock is still
    open. *)
Theorem C4_atomic (c : Call) (r : Request) (s s' : State W) (e : Error) :
  execute c r s = (inl e, s') ->
  s' = s
  /\ (forall lockId (s1 : State W), snd (invoke (getLockValue lockId) s1) = s1)
  /\ (is_creation r = true ->
      forall t a v, e = TransferInFailed t a v ->
                    locks s' !! request_lockId c r = None)
  /\ (is_creation r = false ->
      forall t a v, e = TransferOutFailed t a v ->
                    is_Some (locks s' !! request_lockId c r)).
Proof.
  intros Hx. pose proof (execute_rejected _ _ _ _ _ Hx) as ->.
  split; [reflexivity|]. split; [|split].
  - intros lockId s1. unfold invoke. rewrite getLockValue_run.
    destruct (locks s1 !! lockId); reflexivity.
  - intros Hr t a v ->. revert Hx. rewrite execute_run.
    destruct r; try discriminate Hr; cbn [body request_lockId];
      unfold lockBuy, lockSell; rewrite create_run;
      run_cases; try discriminate; reflexivity.
  - intros Hr t a v ->.
    destruct (resolution_rejected _ _ _ _ _ Hr Hx) as [E|Hopen];
      [discriminate E|exact Hopen].
Qed.

(** When the pull fails on a free identity the creation is rejected with
    TransferInFailed; when the push fails on an open lock before its
    timeout the recipient's unlock is rejected with TransferOutFailed. *)
Lemma creation_pull_fails c token rcp h tm v record (s : State W) :
  locks s !! lockIdOf token (caller c) h tm = None ->
  transferIn (assets s) token (caller c) v = None ->
  invoke (create c token rcp h tm v record) s
  = (inl (TransferInFailed token (caller c) v), s).
Proof. intros L T. unfold invoke. rewrite create_run, L, T. reflexivity. Qed.

Lemma unlock_push_fails c token creator secret tm (s : State W) lk :
  locks s !! lockIdOf token creator (hashSecret secret) tm = Some lk ->
  now c < tm -> caller c = recipient lk ->
  transferOut (assets s) token (caller c) (value lk) = None ->
  execute c (ReqUnlock token creator secret tm) s
  = (inl (TransferOutFailed token (caller c) (value lk)), s).
Proof.
  intros L Ht Hc T. rewrite execute_run. cbn [body]. rewrite unlock_run, L, T.
  destruct (Z.ltb_spec (now c) tm); [|lia].
  destruct (Z.eqb_spec (caller c) (recipient lk)); [reflexivity|contradiction].
Qed.

(** *** Uniqueness of an open identity *)

(** C5: while the lock at the identity of (token, caller, hashedSecret,
    timeout) is open, a lockBuy or lockSell by that caller with the same
    tuple is rejected with LockAlreadyExists whatever recipient and value
    it names; once a resolution of that identity has succeeded the
    identity is free, and a creation with the same tuple whose pull
    succeeds is accepted and stores the new lock. *)
Theorem C5_duplicate_rejected
    (c : Call) (token hashedSecret timeout : Z) (s : State W) (lk : Lock) :
  locks s !! lockIdOf token (caller c) hashedSecret timeout = Some lk ->
  (forall rcp v sellAssetId sellPrice,
     execute c (ReqLockBuy token rcp hashedSecret timeout v sellAssetId sellPrice) s
     = (inl (LockAlreadyExists (lockIdOf token (caller c) hashedSecret timeout)), s))
  /\ (forall rcp v buyAssetId buyLockId,
        execute c (ReqLockSell token rcp hashedSecret timeout v buyAssetId buyLockId) s
        = (inl (LockAlreadyExists (lockIdOf token (caller c) hashedSecret timeout)), s))
  /\ (forall c1 r s1,
        is_creation r = false ->
        request_lockId c1 r = lockIdOf token (caller c) hashedSecret timeout ->
        execute c1 r s = (inr tt, s1) ->
        locks s1 !! lockIdOf token (caller c) hashedSecret timeout = None
        /\ forall c2 rcp v x y w,
             caller c2 = caller c ->
             transferIn (assets s1) token (caller c) v = Some w ->
             (exists s2,
                execute c2 (ReqLockBuy token rcp hashedSecret timeout v x y) s1
                = (inr tt, s2)
                /\ locks s2 !! lockIdOf token (caller c) hashedSecret timeout
                   = Some (mkLock token (caller c) rcp hashedSecret timeout v))
             /\ (exists s2,
                   execute c2 (ReqLockSell token rcp hashedSecret timeout v x y) s1
                   = (inr tt, s2)
                   /\ locks s2 !! lockIdOf token (caller c) hashedSecret timeout
                      = Some (mkLock token (caller c) rcp hashedSecret timeout v))).
Proof.
  intros L. split; [|split].
  - intros. rewrite execute_run. cbn [body]. unfold lockBuy.
    rewrite create_run, L. reflexivity.
  - intros. rewrite execute_run. cbn [body]. unfold lockSell.
    rewrite create_run, L. reflexivity.
  - intros c1 r s1 Hr Hid Hx.
    destruct (resolution_done _ _ _ _ Hr Hx) as (lk' & _ & Hs1).
    rewrite Hid in Hs1.
    assert (Hfree : locks s1 !! lockIdOf token (caller c) hashedSecret timeout = None)
      by (rewrite Hs1; apply lookup_delete_eq).
    split; [exact Hfree|].
    intros c2 rcp v x y w Hc2 T. split.
    + rewrite execute_run. cbn [body]. unfold lockBuy.
      rewrite create_run, Hc2, Hfree, T.
      eexists. split; [reflexivity|]. cbn [locks]. apply lookup_insert_eq.
    + rewrite execute_run. cbn [body]. unfold lockSell.
      rewrite create_run, Hc2, Hfree, T.
      eexists. split; [reflexivity|]. cbn [locks]. apply lookup_insert_eq.
Qed.

(** *** Unlock *)

(** C6: the interface and the client wrapper give unlock exactly
    (token, creator, secret, timeout); a successful unlock looked the lock
    up at the identity of (token, creator, H(secret), timeout), ran
    before the timeout for a caller equal to the stored recipient, pushed
    the stored value to that recipient, closed the lock and emitted the
    Unlock record. *)
Theorem C6_unlock
    (c : Call) (token creator secret timeout : Z) (s s' : State W) :
  execute c (ReqUnlock token creator secret timeout) s = (inr tt, s') ->
  option_map (fun f => (Abi.signature (fst (fst f)), Abi.signature (snd (fst f))))
             (Abi.getFunction "unlock")
  = Some ([("token", "address"); ("creator", "address");
           ("secret", "bytes32"); ("timeout", "uint256")], [])
  /\ (forall (R : Client.Runtime) tokenAddress creatorAddress secretHex timeoutValue,
        Client.unlock_call tokenAddress creatorAddress secretHex timeoutValue
        = ([tokenAddress; creatorAddress; secretHex],
           Client.floor_Number timeoutValue))
  /\ hashSecret secret = Keccak.keccak256 (Client.be_bytes 32 secret)
  /\ exists lk,
       locks s !! lockIdOf token creator (hashSecret secret) timeout = Some lk
       /\ caller c = recipient lk
       /\ now c < timeout
       /\ transferOut (assets s) token (recipient lk) (value lk) = Some (assets s')
       /\ locks s' = delete (lockIdOf token creator (hashSecret secret) timeout)
                            (locks s)
       /\ emitted s'
          = (emitted s
             ++ [Unlock token creator (recipient lk)
                   (lockIdOf token creator (hashSecret secret) timeout) secret])%list.
Proof.
  intros Hx. split; [reflexivity|]. split; [reflexivity|].
  split; [apply hashSecret_eq|].
  revert Hx. rewrite execute_run. cbn [body]. rewrite unlock_run.
  run_cases; try discriminate. intros [= <-].
  eexists. split; [reflexivity|]. cbn [locks assets emitted].
  repeat split; try assumption; try reflexivity.
  congruence.
Qed.

(** A caller other than the stored recipient cannot unlock. *)
Lemma unlock_by_stranger c token creator secret tm (s : State W) lk :
  locks s !! lockIdOf token creator (hashSecret secret) tm = Some lk ->
  caller c <> recipient lk ->
  exists e, execute c (ReqUnlock token creator secret tm) s = (inl e, s).
Proof.
  intros L Hc. rewrite execute_run. cbn [body]. rewrite unlock_run, L.
  run_cases; try contradiction; eexists; reflexivity.
Qed.

(** *** Reading the value *)

(** C8: the interface declares getLockValue(lockId) as a view returning
    a uint256; the operation leaves the state as it is, returns the
    stored value of an open lock and answers LockNotFound for an identity
    that holds no lock, in particular the identity of a lock that a
    resolution has just closed (whose value it returned before). *)
Theorem C8_getLockValue (c : Call) (r : Request) (s0 s : State W) :
  is_creation r = false ->
  execute c r s0 = (inr tt, s) ->
  option_map (fun f => (Abi.signature (fst (fst f)), Abi.signature (snd (fst f)),
                        snd f))
             (Abi.getFunction "getLockValue")
  = Some ([("lockId", "bytes32")], [("value", "uint256")], "view")
  /\ (forall lockId (s1 : State W),
        invoke (getLockValue lockId) s1
        = (match locks s1 !! lockId with
           | Some lk => inr (value lk)
           | None => inl (LockNotFound lockId)
           end, s1))
  /\ (exists lk, locks s0 !! request_lockId c r = Some lk
                 /\ invoke (getLockValue (request_lockId c r)) s0
                    = (inr (value lk), s0))
  /\ invoke (getLockValue (request_lockId c r)) s
     = (inl (LockNotFound (request_lockId c r)), s).
Proof.
  intros Hr Hx.
  assert (Hread : forall lockId (s1 : State W),
             invoke (getLockValue lockId) s1
             = (match locks s1 !! lockId with
                | Some lk => inr (value lk)
                | None => inl (LockNotFound lockId)
                end, s1)).
  { intros lockId s1. unfold invoke. rewrite getLockValue_run.
    destruct (locks s1 !! lockId); reflexivity. }
  split; [reflexivity|]. split; [exact Hread|].
  destruct (resolution_done _ _ _ _ Hr Hx) as (lk & L & Hs).
  split.
  - exists lk. split; [exact L|]. rewrite Hread, L. reflexivity.
  - rewrite Hread, Hs, lookup_delete_eq. reflexivity.
Qed.

End LedgerClaims.

(** ** The worked deployment *)

Section ScenarioChecks.
Import Ledger Scenario.

Lemma opened_lock :
  locks opened !! lockIdOf token alice commitment deadline
  = Some (mkLock token alice bob commitment deadline 1000).
Proof. vm_compute. reflexivity. Qed.

Lemma C3_timing_witness :
  fst (execute LockNotFound (mkCall bob 1000)
         (ReqUnlock token alice secret deadline) opened)
  = inl (LockTimedOut lockId)
  /\ fst (execute LockNotFound (mkCall alice 999)
            (ReqRetrieve token bob commitment deadline) opened)
     = inl (LockNotTimedOut lockId).
Proof.
  split.
  - destruct (C3_timing LockNotFound (mkCall bob 1000) token alice secret
                commitment deadline bob opened _ opened_lock) as (Hu & _ & _).
    apply Hu; [reflexivity|unfold deadline; cbn [now]; lia].
  - destruct (C3_timing LockNotFound (mkCall alice 999) token alice secret
                commitment deadline bob opened _ opened_lock) as (_ & _ & Hr).
    apply Hr; [reflexivity|unfold deadline; cbn [now]; lia].
Defined.

Lemma C4_atomic_witness :
  locks genesis !! lockIdOf token alice commitment deadline = None.
Proof.
  refine (proj1 (proj2 (proj2 (C4_atomic LockNotFound (mkCall alice 10)
                          (ReqLockBuy token bob commitment deadline 6000 0 0)
                          genesis genesis (TransferInFailed token alice 6000) _)))
                eq_refl token alice 6000 eq_refl).
  vm_compute. reflexivity.
Defined.

Lemma C5_duplicate_rejected_witness :
  execute LockNotFound (mkCall alice 20)
    (ReqLockSell token carol commitment deadline 1 0 0) opened
  = (inl (LockAlreadyExists lockId), opened).
Proof.
  refine (proj1 (proj2 (C5_duplicate_rejected LockNotFound (mkCall alice 20)
                          token commitment deadline opened _ opened_lock))
                carol 1 0 0).
Defined.

Lemma C6_unlock_witness :
  exists lk,
    locks opened !! lockIdOf token alice (hashSecret secret) deadline = Some lk
    /\ bob = recipient lk.
Proof.
  destruct (C6_unlock LockNotFound (mkCall bob 999) token alice secret deadline
              opened
              (snd (execute LockNotFound (mkCall bob 999)
                      (ReqUnlock token alice secret deadline) opened)))
    as (_ & _ & _ & lk & L & Hc & _).
  - vm_compute. reflexivity.
  - exists lk. split; [exact L|exact Hc].
Defined.

Lemma C8_getLockValue_witness :
  fst (invoke (getLockValue lockId)
         (snd (execute LockNotFound (mkCall bob 999)
                 (ReqUnlock token alice secret deadline) opened)))
  = inl (LockNotFound lockId).
Proof.
  destruct (C8_getLockValue LockNotFound (mkCall bob 999)
              (ReqUnlock token alice secret deadline) opened
              (snd (execute LockNotFound (mkCall bob 999)
                      (ReqUnlock token alice secret deadline) opened)))
    as (_ & _ & _ & Hgone).
  - reflexivity.
  - vm_compute. reflexivity.
  - change (request_lockId (mkCall bob 999) (ReqUnlock token alice secret deadline))
      with lockId in Hgone.
    rewrite Hgone. reflexivity.
Defined.

(** The scenarios of the specification, section 8. *)

Example scenario_unlock_then_retrieve :
  let '(outcomes, s) :=
    run genesis [(mkCall alice 10, buy);
                 (mkCall bob 999, ReqUnlock token alice secret deadline);
                 (mkCall alice 1001, ReqRetrieve token bob commitment deadline)] in
  outcomes = [inr tt; inr tt; inl (LockNotFound lockId)]
  /\ balanceOf (assets s) token bob = 1000
  /\ balanceOf (assets s) token alice = 4000
  /\ balanceOf (assets s) token swap = 0
  /\ locks s !! lockId = None.
Proof. vm_compute. repeat split. Qed.

Example scenario_retrieve_after_timeout :
  let '(outcomes, s) :=
    run genesis [(mkCall alice 10, buy);
                 (mkCall bob 1001, ReqUnlock token alice secret deadline);
                 (mkCall alice 1001, ReqRetrieve token bob commitment deadline);
                 (mkCall bob 1002, ReqUnlock token alice secret deadline)] in
  outcomes = [inr tt; inl (LockTimedOut lockId); inr tt; inl (LockNotFound lockId)]
  /\ balanceOf (assets s) token alice = 5000
  /\ balanceOf (assets s) token bob = 0.
Proof. vm_compute. repeat split. Qed.

Example scenario_decline :
  let '(outcomes, s) :=
    run genesis [(mkCall alice 10, buy);
                 (mkCall alice 999, ReqRetrieve token bob commitment deadline);
                 (mkCall bob 999, ReqDecline token alice commitment deadline);
                 (mkCall alice 1001, ReqRetrieve token bob commitment deadline)] in
  outcomes = [inr tt; inl (LockNotTimedOut lockId); inr tt; inl (LockNotFound lockId)]
  /\ balanceOf (assets s) token alice = 5000.
Proof. vm_compute. repeat split. Qed.

(** A push that fails leaves the lock open; the same unlock succeeds
    once the token transfers again. *)
Example scenario_retry_after_failed_push :
  let frozen := pause token opened in
  let '(o1, s1) := step frozen (mkCall bob 500, ReqUnlock token alice secret deadline) in
  let '(o2, s2) := step (unpause token s1)
                        (mkCall bob 600, ReqUnlock token alice secret deadline) in
  o1 = inl (TransferOutFailed token bob 1000)
  /\ s1 = frozen
  /\ locks s1 !! lockId = Some (mkLock token alice bob commitment deadline 1000)
  /\ o2 = inr tt
  /\ balanceOf (assets s2) token bob = 1000.
Proof. vm_compute. repeat split. Qed.

(** Creation: a pull that fails records nothing; a second creation on
    the open identity is rejected whatever recipient and value. *)
Example scenario_creation_rejections :
  let '(outcomes, s) :=
    run genesis [(mkCall alice 10, ReqLockBuy token bob commitment deadline 6000 0 0);
                 (mkCall alice 11, buy);
                 (mkCall alice 12, ReqLockSell token carol commitment deadline 5 0 0);
                 (mkCall carol 13, ReqUnlock token alice secret deadline)] in
  outcomes = [inl (TransferInFailed token alice 6000); inr tt;
              inl (LockAlreadyExists lockId); inl (LockNotFound lockId)]
  /\ emitted s = [LockBuy token alice bob commitment deadline 1000 0 0 lockId].
Proof. vm_compute. repeat split. Qed.

End ScenarioChecks.

(** ** The client on a deployed ledger *)

Section Connected.
Import Ledger.
Context {W : Type} `{!AssetLedger W}.

(** What the client shows for an identity: the formatted value of an
    open lock, and "0" for an identity that holds none. *)
Lemma getLockValue_connected (formatEther : Z -> Client.Js string)
    (s : State W) (lockId : Z) :
  Client.getLockValue formatEther (Some (Deployment.connect s)) lockId
  = match locks s !! lockId with
    | Some lk =>
        match formatEther (value lk) with
        | inl _ => Client.ret "0"
        | inr text => Client.ret text
        end
    | None => Client.ret "0"
    end.
Proof.
  unfold Client.getLockValue, Deployment.connect, invoke. cbn.
  rewrite getLockValue_run.
  destruct (locks s !! lockId) as [lk|]; cbn; [|reflexivity].
  destruct (formatEther (value lk)); reflexivity.
Qed.

End Connected.

(** ** Text and digests *)

Section TextFacts.
Import Text.

Lemma keccak_round_length A rc :
  length A = 25%nat -> length (Keccak.keccak_round A rc) = 25%nat.
Proof.
  intros _. unfold Keccak.keccak_round, Keccak.iota.
  destruct (Keccak.chi _) as [|a l] eqn:E.
  - apply (f_equal (@length Z)) in E. unfold Keccak.chi in E.
    rewrite length_map, length_seq in E. discriminate E.
  - apply (f_equal (@length Z)) in E. unfold Keccak.chi in E.
    rewrite length_map, length_seq in E. cbn [length] in *. congruence.
Qed.

Lemma keccak_f_length A : length A = 25%nat -> length (Keccak.keccak_f A) = 25%nat.
Proof.
  unfold Keccak.keccak_f. generalize Keccak.round_constants as rcs.
  intros rcs. revert A. induction rcs as [|rc rcs IH]; intros A HA; cbn [fold_left].
  - exact HA.
  - apply IH, keccak_round_length, HA.
Qed.

Lemma absorb_length A block : length (Keccak.absorb A block) = 25%nat.
Proof.
  unfold Keccak.absorb. apply keccak_f_length.
  now rewrite length_map, length_seq.
Qed.

Lemma lane_le_bytes_length v : length (Keccak.lane_le_bytes v) = 8%nat.
Proof. unfold Keccak.lane_le_bytes. now rewrite length_map, length_seq. Qed.

(** A digest has 32 bytes, whatever the message. *)
Lemma keccak256_bytes_length msg : length (Keccak.keccak256_bytes msg) = 32%nat.
Proof.
  unfold Keccak.keccak256_bytes.
  assert (H : forall bl A, length A = 25%nat ->
                           length (fold_left Keccak.absorb bl A) = 25%nat).
  { induction bl as [|b bl IH]; intros A HA; cbn [fold_left]; [exact HA|].
    apply IH, absorb_length. }
  specialize (H (Keccak.blocks (msg ++ Keccak.pad (length msg))%list)
                (repeat 0 25) eq_refl).
  destruct (fold_left Keccak.absorb _ _) as [|a [|b [|c [|d l]]]];
    try discriminate H.
  cbn [take map concat]. rewrite !length_app, !lane_le_bytes_length. reflexivity.
Qed.

Lemma hex_of_bytes_length bs :
  String.length (hex_of_bytes bs) = (2 * length bs)%nat.
Proof. induction bs as [|b bs IH]; cbn [hex_of_bytes String.length length]; lia. Qed.

Lemma keccak256_hex_shape bs :
  String.length (keccak256_hex bs) = 66%nat
  /\ String.prefix "0x" (keccak256_hex bs) = true.
Proof.
  unfold keccak256_hex.
  change ("0x" ++ hex_of_bytes (Keccak.keccak256_bytes bs))
    with (String "0" (String "x" (hex_of_bytes (Keccak.keccak256_bytes bs)))).
  split.
  - cbn [String.length].
    rewrite hex_of_bytes_length, keccak256_bytes_length. reflexivity.
  - generalize (hex_of_bytes (Keccak.keccak256_bytes bs)).
    intros t. destruct t; reflexivity.
Qed.

End TextFacts.

(** ** Asset identifiers *)

Section AssetIds.
Import Client AssetId.

Lemma prefix_0x_inv s :
  String.prefix "0x" s = true -> exists t, s = String "0" (String "x" t).
Proof.
  destruct s as [|a [|b t]]; cbn [String.prefix]; try discriminate.
  - destruct (ascii_dec "0" a); discriminate.
  - destruct (ascii_dec "0" a) as [<-|]; [|discriminate].
    destruct (ascii_dec "x" b) as [<-|]; [|discriminate].
    intros _. now exists t.
Qed.

Lemma trim_end_cons_nonempty c s :
  is_space c = false -> trim_end (String c s) <> EmptyString.
Proof.
  intros Hc. cbn [trim_end]. destruct (trim_end s); [rewrite Hc|]; discriminate.
Qed.

(** X3: The sellAssetId that lockBuy submits always has the shape of a
    bytes32 literal: 66 characters, the first two being 0x. *)
Theorem format_sellAssetId_shape (sellAssetId : option string) :
  String.length (format_sellAssetId sellAssetId) = 66%nat
  /\ String.prefix "0x" (format_sellAssetId sellAssetId) = true.
Proof.
  unfold format_sellAssetId. destruct sellAssetId as [s|]; [|split; reflexivity].
  destruct (_ || _); [split; reflexivity|].
  destruct (String.prefix "0x" s) eqn:P; cbn [andb];
    [|apply keccak256_hex_shape].
  destruct (Nat.eqb_spec (String.length s) 66) as [L|_];
    [split; assumption|apply keccak256_hex_shape].
Qed.

(** X4: An id that already is a bytes32 literal goes through both wrappers
    unchanged. *)
Theorem bytes32_literal_unchanged (s : string) :
  String.prefix "0x" s = true -> String.length s = 66%nat ->
  format_sellAssetId (Some s) = s /\ format_bytes32 (Some s) = s.
Proof.
  intros P L. split; [|unfold format_bytes32; now rewrite P].
  unfold format_sellAssetId. rewrite P, L. cbn [Nat.eqb andb].
  destruct (prefix_0x_inv s P) as [t ->].
  cbn [String.eqb trim_start is_space].
  change (Ascii.eqb "0" _) with false. cbn [orb].
  destruct (String.eqb_spec (trim_end (String "0" (String "x" t))) "") as [E|_];
    [|reflexivity].
  now apply trim_end_cons_nonempty in E.
Qed.

Lemma bytes32_literal_unchanged_witness :
  format_sellAssetId (Some ZeroHash) = ZeroHash
  /\ format_bytes32 (Some ZeroHash) = ZeroHash.
Proof. apply bytes32_literal_unchanged; reflexivity. Defined.

(** X5: Every lockSell call carries 0x-prefixed buyAssetId and buyLockId: an
    id that starts with 0x is passed as it is, whatever its length, and
    any other text (or a missing id) is replaced by the zero hash. *)
Theorem lockSell_ids (R : Runtime)
    (tokenAddress recipient hashedSecret : string) (timeout value : JsValue)
    (buyAssetId buyLockId : option string) (useRawValue : bool)
    (currentAllowance : Z) (tx : LockSellTx) :
  lockSell_tx tokenAddress recipient hashedSecret timeout value
              buyAssetId buyLockId useRawValue currentAllowance = ret tx ->
  String.prefix "0x" (call_buyAssetId (tx_call tx)) = true
  /\ String.prefix "0x" (call_buyLockId (tx_call tx)) = true
  /\ call_buyAssetId (tx_call tx)
     = match buyAssetId with
       | Some s => if String.prefix "0x" s then s else ZeroHash
       | None => ZeroHash
       end
  /\ call_buyLockId (tx_call tx)
     = match buyLockId with
       | Some s => if String.prefix "0x" s then s else ZeroHash
       | None => ZeroHash
       end.
Proof.
  unfold lockSell_tx, bind.
  destruct (lockSell_valueWei useRawValue value) as [e|valueWei]; [discriminate|].
  intros [= <-]. cbn [tx_call call_buyAssetId call_buyLockId].
  assert (H : forall id, String.prefix "0x" (format_bytes32 id) = true).
  { intros [s|]; [|reflexivity]. unfold format_bytes32.
    destruct (String.prefix "0x" s) eqn:P; [exact P|reflexivity]. }
  repeat split; apply H.
Qed.

Lemma lockSell_ids_witness :
  exists tx,
    @lockSell_tx IntegerRuntime "0xaa" "0xbb" "0xcc" 1000 5 (Some "USDC")
                 (Some "0x12") false 0 = ret tx
    /\ call_buyAssetId (tx_call tx) = ZeroHash
    /\ call_buyLockId (tx_call tx) = "0x12".
Proof.
  eexists. split; [vm_compute; reflexivity|].
  match goal with
  | |- context [tx_call ?t] =>
      destruct (lockSell_ids IntegerRuntime "0xaa" "0xbb" "0xcc" 1000 5
                  (Some "USDC") (Some "0x12") false 0 t)
        as (_ & _ & Ha & Hl); [vm_compute; reflexivity|]
  end.
  split; [exact Ha|exact Hl].
Defined.

End AssetIds.

(** ** Chain ids *)

Section ChainIds.
Import Client Text Chain.

Lemma prefix_0x_cons d : String.prefix "0x" (String "0" (String "x" d)) = true.
Proof. destruct d; reflexivity. Qed.



Lemma trim_end_no_space s : no_space s = true -> trim_end s = s.
Proof.
  induction s as [|c s IH]; cbn [no_space trim_end]; [reflexivity|].
  intros H. apply andb_true_iff in H as [Hc Hs]. rewrite (IH Hs).
  destruct s; [|reflexivity].
  destruct (is_space c); [discriminate Hc|reflexivity].
Qed.











(** A report that starts with 0x and has no well-formed hex digits makes
    the comparison throw (the handler then reloads the page). *)
Lemma same_chain_malformed d chainId :
  HexadecimalString.NilZero.uint_of_string (toLowerCase d) = None ->
  no_space d = true ->
  exists e, same_chain (ChainString (String "0" (String "x" d))) chainId = throw e.
Proof.
  intros Hd Hs. unfold same_chain, normalize. cbn [chain_text].
  rewrite prefix_0x_cons.
  unfold hex_BigInt.
  rewrite trim_end_no_space by (cbn [no_space is_space negb andb]; exact Hs).
  rewrite Hd. eexists. reflexivity.
Qed.

End ChainIds.

(** ** The event feed *)

Section FeedFacts.
Import Client Feed.

Ltac invert_args :=
  repeat match goal with
         | H : Forall2 _ _ (_ :: _) |- _ => inversion H; clear H; subst
         | H : Forall2 _ _ [] |- _ => inversion H; clear H; subst
         end;
  repeat match goal with
         | H : _ /\ _ |- _ => destruct H
         | x : (string * ArgVal)%type |- _ => destruct x
         end;
  cbn [fst snd Abi.name Abi.type Abi.topic Abi.field Abi.arg] in *; subst;
  repeat match goal with
         | H : typed _ ?v |- _ =>
             destruct v; cbn [typed] in H;
             try (exfalso; (discriminate H || (destruct H as [H|H]; discriminate H)));
             clear H
         end.

(** The five shapes of a log decoded against the ABI. *)
Lemma decoded_inv ev :
  decoded ev ->
  (exists t c r l b,
     ev = mkEventLog "Decline"
            [("token", Hex t); ("creator", Hex c); ("recipient", Hex r);
             ("lockId", Hex l)] b)
  \/ (exists t c r h tm v a p l b,
        ev = mkEventLog "LockBuy"
               [("token", Hex t); ("creator", Hex c); ("recipient", Hex r);
                ("hashedSecret", Hex h); ("timeout", Big tm); ("value", Big v);
                ("sellAssetId", Hex a); ("sellPrice", Big p); ("lockId", Hex l)] b)
  \/ (exists t c r h tm v a l b,
        ev = mkEventLog "LockSell"
               [("token", Hex t); ("creator", Hex c); ("recipient", Hex r);
                ("hashedSecret", Hex h); ("timeout", Big tm); ("value", Big v);
                ("buyAssetId", Hex a); ("buyLockId", Hex l)] b)
  \/ (exists t c r l b,
        ev = mkEventLog "Retrieve"
               [("token", Hex t); ("creator", Hex c); ("recipient", Hex r);
                ("lockId", Hex l)] b)
  \/ (exists t c r l x b,
        ev = mkEventLog "Unlock"
               [("token", Hex t); ("creator", Hex c); ("recipient", Hex r);
                ("lockId", Hex l); ("secret", Hex x)] b).
Proof.
  destruct ev as [n a b]. intros (ps & Hps & Hargs). cbn [event_name event_args] in *.
  destruct (getEvent_cases _ _ Hps) as [->|[->|[->|[->| ->]]]];
    injection Hps as <-; invert_args.
  - left. repeat eexists.
  - right; left. repeat eexists.
  - right; right; left. repeat eexists.
  - right; right; right; left. repeat eexists.
  - right; right; right; right. repeat eexists.
Qed.

Lemma toLowerCase_idem s : Text.toLowerCase (Text.toLowerCase s) = Text.toLowerCase s.
Proof.
  induction s as [|c s IH]; cbn [Text.toLowerCase]; [reflexivity|].
  rewrite IH. f_equal. destruct c as [[] [] [] [] [] [] [] []]; reflexivity.
Qed.

Lemma toLowerCase_empty s : Text.toLowerCase s = "" <-> s = "".
Proof. destruct s; cbn; split; intros H; (reflexivity || discriminate H). Qed.

Lemma isEventForCurrentAccount_hex account c r :
  isEventForCurrentAccount account (Some (Hex c)) (Some (Hex r))
  = ret (concerns account c r).
Proof.
  unfold isEventForCurrentAccount, concerns. destruct account as [a|]; [|reflexivity].
  destruct (String.eqb a ""); [reflexivity|]. unfold toLowerCase_opt, bind, ret.
  cbv beta iota. cbn [orb]. case_bool_decide as H1.
  - injection H1 as ->. now rewrite String.eqb_refl.
  - destruct (String.eqb_spec (Text.toLowerCase c) (Text.toLowerCase a)) as [E|_];
      [congruence|].
    cbn [orb]. f_equal. case_bool_decide as H2.
    + injection H2 as ->. now rewrite String.eqb_refl.
    + destruct (String.eqb_spec (Text.toLowerCase r) (Text.toLowerCase a));
        [congruence|reflexivity].
Qed.

(** X8: The relevance test of the listeners ignores letter case in the
    account, the creator and the recipient: a checksummed and a lowercase
    spelling of one address are the same party. With no account
    connected every event is relevant. *)
Theorem relevance_ignores_case (a a' c c' r r' : string) :
  Text.toLowerCase a = Text.toLowerCase a' ->
  Text.toLowerCase c = Text.toLowerCase c' ->
  Text.toLowerCase r = Text.toLowerCase r' ->
  isEventForCurrentAccount (Some a) (Some (Hex c)) (Some (Hex r))
  = isEventForCurrentAccount (Some a') (Some (Hex c')) (Some (Hex r'))
  /\ isEventForCurrentAccount (Some a) (Some (Hex a')) (Some (Hex r)) = ret true
  /\ isEventForCurrentAccount (Some a) (Some (Hex c)) (Some (Hex a')) = ret true
  /\ isEventForCurrentAccount None (Some (Hex c)) (Some (Hex r)) = ret true.
Proof.
  intros Ha Hc Hr. rewrite !isEventForCurrentAccount_hex. unfold concerns.
  assert (He : String.eqb a "" = String.eqb a' "").
  { destruct (String.eqb_spec a "") as [->|Na], (String.eqb_spec a' "") as [->|Na'];
      try reflexivity.
    - cbn in Ha. symmetry in Ha. apply (proj1 (toLowerCase_empty _)) in Ha.
      contradiction.
    - cbn in Ha. apply (proj1 (toLowerCase_empty _)) in Ha. contradiction. }
  split; [now rewrite He, Ha, Hc, Hr|].
  rewrite <- !Ha, !String.eqb_refl, !orb_true_r. repeat split; reflexivity.
Qed.

Lemma relevance_ignores_case_witness :
  isEventForCurrentAccount (Some "0xAbCd") (Some (Hex "0xabcd")) (Some (Hex "0x01"))
  = ret true.
Proof.
  exact (proj1 (proj2 (relevance_ignores_case "0xAbCd" "0xabcd" "0x01" "0x01"
                         "0x01" "0x01" eq_refl eq_refl eq_refl))).
Defined.

(** X9: On a log decoded against the ABI the live listener and the history
    formatter build the same record (for the same clock reading); the
    listener puts it in front of the events state whether or not the
    event concerns the account, does not throw, and shows one toast
    exactly when the event concerns the account. *)
Theorem listener_on_decoded (account : option string) (now : Z) (ev : EventLog) :
  decoded ev ->
  exists r c rcp toasts,
    formatEventByType ev (event_name ev) now = ret (Some r)
    /\ timestamp r = now
    /\ arg ev "creator" = Some (Hex c) /\ arg ev "recipient" = Some (Hex rcp)
    /\ listener account now ev = Some ((AddEvent r :: toasts)%list, ret tt)
    /\ (forall events, apply_effects (AddEvent r :: toasts) events = (r :: events)%list)
    /\ ((concerns account c rcp = true /\ exists title text, toasts = [ShowToast title text])
        \/ (concerns account c rcp = false /\ toasts = [])).
Proof.
  intros Hd.
  destruct (decoded_inv ev Hd)
    as [(t & c & r & l & b & ->)
       |[(t & c & r & h & tm & v & a & p & l & b & ->)
        |[(t & c & r & h & tm & v & a & l & b & ->)
         |[(t & c & r & l & b & ->)
          |(t & c & r & l & x & b & ->)]]]];
    eexists; exists c, r;
    unfold listener, on_Decline, on_LockBuy, on_LockSell, on_Retrieve, on_Unlock,
      add_and_toast;
    cbn [event_name event_args String.eqb Ascii.eqb Bool.eqb map snd];
    cbn [lookup list_lookup toString_ lift tell andThen app];
    rewrite isEventForCurrentAccount_hex;
    destruct (concerns account c r) eqn:Hrel;
    cbn [andThen lift tell app substring10 bind ret];
    eexists; (split; [reflexivity|]); (split; [reflexivity|]);
    (split; [reflexivity|]); (split; [reflexivity|]);
    (split; [reflexivity|]); (split; [intros events; reflexivity|]);
    ((left; split; [reflexivity|]; do 2 eexists; reflexivity)
     || (right; split; reflexivity)).
Qed.

Lemma listener_on_decoded_witness :
  exists r toasts,
    listener (Some "0xAA") 1700000000000
      (mkEventLog "Retrieve"
         [("token", Hex "0x11"); ("creator", Hex "0xaa");
          ("recipient", Hex "0xbb"); ("lockId", Hex "0x0123456789abcdef")] 7)
    = Some ((AddEvent r :: toasts)%list, ret tt).
Proof.
  destruct (listener_on_decoded (Some "0xAA") 1700000000000
              (mkEventLog "Retrieve"
                 [("token", Hex "0x11"); ("creator", Hex "0xaa");
                  ("recipient", Hex "0xbb"); ("lockId", Hex "0x0123456789abcdef")] 7))
    as (r & c & rcp & toasts & _ & _ & _ & _ & Hl & _).
  - eexists. split; [reflexivity|].
    cbn [event_args].
    repeat (constructor; [split; [reflexivity|cbn; auto]|]). constructor.
  - exists r, toasts. exact Hl.
Defined.

(** X10: The record a decoded log is formatted to has the key type followed
    by the parameter names the ABI declares for the event, in order, and
    none of its fields is undefined. *)
Theorem formatted_record_keys (now : Z) (ev : EventLog) :
  decoded ev ->
  exists r,
    formatEventByType ev (event_name ev) now = ret (Some r)
    /\ map fst (fields r) = ("type" :: map fst (event_args ev))%list
    /\ Forall (fun kv => snd kv <> FArg None /\ snd kv <> FNumber None) (fields r).
Proof.
  intros Hd.
  destruct (decoded_inv ev Hd)
    as [(t & c & r & l & b & ->)
       |[(t & c & r & h & tm & v & a & p & l & b & ->)
        |[(t & c & r & h & tm & v & a & l & b & ->)
         |[(t & c & r & l & b & ->)
          |(t & c & r & l & x & b & ->)]]]];
    eexists; (split; [reflexivity|]); (split; [reflexivity|]);
    repeat constructor; discriminate.
Qed.

Lemma formatted_record_keys_witness :
  exists r,
    formatEventByType
      (mkEventLog "LockSell"
         [("token", Hex "0x11"); ("creator", Hex "0xaa"); ("recipient", Hex "0xbb");
          ("hashedSecret", Hex "0x22"); ("timeout", Big 1000); ("value", Big 5000000);
          ("buyAssetId", Hex "0x33"); ("buyLockId", Hex "0x44")] 7)
      "LockSell" 0 = ret (Some r)
    /\ map fst (fields r)
       = ["type"; "token"; "creator"; "recipient"; "hashedSecret"; "timeout";
          "value"; "buyAssetId"; "buyLockId"].
Proof.
  destruct (formatted_record_keys 0
              (mkEventLog "LockSell"
                 [("token", Hex "0x11"); ("creator", Hex "0xaa");
                  ("recipient", Hex "0xbb"); ("hashedSecret", Hex "0x22");
                  ("timeout", Big 1000); ("value", Big 5000000);
                  ("buyAssetId", Hex "0x33"); ("buyLockId", Hex "0x44")] 7))
    as (r & Hr & Hk & _).
  - eexists. split; [reflexivity|].
    cbn [event_args].
    repeat (constructor; [split; [reflexivity|cbn; auto]|]). constructor.
  - exists r. split; [exact Hr|exact Hk].
Defined.

(** *** The history fetch *)

Lemma forOf_returns {A S} (xs : list A) (body : S -> A -> Js S) (step : S -> A -> S) :
  (forall s x, body s x = ret (step s x)) ->
  forall s, forOf xs body s = ret (fold_left step xs s).
Proof.
  intros Hb. induction xs as [|x xs IH]; intros s; cbn [forOf fold_left];
    [reflexivity|].
  rewrite Hb. cbn [bind ret]. apply IH.
Qed.

Lemma collect_without_range_nothing contract allEvents name :
  collect_without_range contract allEvents name = ret allEvents.
Proof.
  unfold collect_without_range.
  destruct (queryFilter contract name None) as [e|events]; [reflexivity|].
  cbn [bind].
  rewrite (forOf_returns events _ (fun s _ => s)) by reflexivity.
  cbn [try_catch ret]. f_equal.
  induction events as [|x events IH]; [reflexivity|exact IH].
Qed.

(** What one log adds in the main branch. *)
Lemma collect_in_range_step w p name (event : EventLog) :
  exists added,
    forall allEvents,
      try_catch
        (let* formattedEvent := formatEventByType event name (Date_now w event) in
         match formattedEvent with
         | Some f =>
             let* f' := with_block_time p event f in
             ret (allEvents ++ [f'])%list
         | None => ret allEvents
         end)
        (fun eventError => ret allEvents)
      = ret (allEvents ++ added)%list.
Proof.
  destruct (formatEventByType event name (Date_now w event)) as [e|[f|]].
  - exists []. intros. cbn. now rewrite app_nil_r.
  - unfold with_block_time.
    destruct (getBlock p (blockNumber event)) as [e|[t|]]; cbn [bind try_catch ret].
    + exists [f]. reflexivity.
    + destruct (t =? 0); eexists; intros; reflexivity.
    + exists [f]. reflexivity.
  - exists []. intros. cbn. now rewrite app_nil_r.
Qed.

Lemma collect_in_range_appends w contract p fromBlock currentBlock allEvents name :
  collect_in_range w contract p fromBlock currentBlock allEvents name
  = ret (allEvents
         ++ formatted_in_range w contract p fromBlock currentBlock name)%list.
Proof.
  unfold formatted_in_range, collect_in_range.
  destruct (queryFilter contract name (Some (fromBlock, currentBlock)))
    as [e|events]; cbn [bind try_catch ret]; [now rewrite app_nil_r|].
  assert (H : exists added, forall acc,
             forOf events
               (fun allEvents (event : EventLog) =>
                  try_catch
                    (let* formattedEvent :=
                       formatEventByType event name (Date_now w event) in
                     match formattedEvent with
                     | Some f =>
                         let* f' := with_block_time p event f in
                         ret (allEvents ++ [f'])%list
                     | None => ret allEvents
                     end)
                    (fun eventError => ret allEvents))
               acc
             = ret (acc ++ added)%list).
  { induction events as [|x events [added IH]].
    - exists []. intros acc. cbn. now rewrite app_nil_r.
    - destruct (collect_in_range_step w p name x) as [a Ha].
      exists (a ++ added)%list. intros acc. cbn [forOf].
      rewrite Ha. cbn [bind ret]. rewrite IH. now rewrite app_assoc. }
  destruct H as [added H]. rewrite !H. cbn [app]. reflexivity.
Qed.

Lemma insert_by_time_perm e l : Permutation (insert_by_time e l) (e :: l).
Proof.
  induction l as [|x l IH]; cbn [insert_by_time]; [reflexivity|].
  destruct (timestamp x <? timestamp e); [reflexivity|].
  rewrite IH. apply perm_swap.
Qed.

Lemma insert_by_time_sorted e l :
  recent_first l -> recent_first (insert_by_time e l).
Proof.
  unfold recent_first. induction l as [|x l IH]; intros Hs; cbn [insert_by_time].
  - repeat constructor.
  - inversion Hs as [|? ? Hl Hx]; subst.
    destruct (Z.ltb_spec (timestamp x) (timestamp e)).
    + constructor; [exact Hs|]. constructor; [lia|].
      eapply Forall_impl; [exact Hx|]. cbn. intros; lia.
    + constructor; [apply IH, Hl|].
      rewrite (insert_by_time_perm e l). constructor; [lia|exact Hx].
Qed.

Lemma sort_recent_first_spec l :
  Permutation (sort_recent_first l) l /\ recent_first (sort_recent_first l).
Proof.
  unfold sort_recent_first.
  assert (H : forall acc, recent_first acc ->
                Permutation (fold_left (fun sorted e => insert_by_time e sorted) l acc)
                            (acc ++ l)
                /\ recent_first (fold_left (fun sorted e => insert_by_time e sorted) l acc)).
  { induction l as [|x l IH]; intros acc Hacc; cbn [fold_left].
    - rewrite app_nil_r. split; [reflexivity|exact Hacc].
    - destruct (IH (insert_by_time x acc) (insert_by_time_sorted x acc Hacc)) as [P S].
      split; [|exact S]. rewrite P, insert_by_time_perm.
      apply Permutation_middle. }
  apply (H []). constructor.
Qed.

Lemma forOf_without_range contract :
  forOf eventTypes (collect_without_range contract) [] = ret [].
Proof.
  rewrite (forOf_returns eventTypes _ (fun s _ => s))
    by (intros; apply collect_without_range_nothing).
  reflexivity.
Qed.

Lemma forOf_in_range w contract p fromBlock currentBlock :
  forOf eventTypes (collect_in_range w contract p fromBlock currentBlock) []
  = ret (flat_map (formatted_in_range w contract p fromBlock currentBlock) eventTypes).
Proof.
  rewrite (forOf_returns eventTypes _
             (fun s name =>
                (s ++ formatted_in_range w contract p fromBlock currentBlock name)%list))
    by (intros; apply collect_in_range_appends).
  f_equal. generalize eventTypes as names. intros names.
  assert (H : forall acc,
             fold_left (fun s name =>
                          (s ++ formatted_in_range w contract p fromBlock
                                                   currentBlock name)%list) names acc
             = (acc ++ flat_map (formatted_in_range w contract p fromBlock
                                                    currentBlock) names)%list).
  { induction names as [|n names IH]; intros acc; cbn [fold_left flat_map].
    - now rewrite app_nil_r.
    - rewrite IH. now rewrite app_assoc. }
  apply (H []).
Qed.

(** X11: fetchPastEvents never rejects: whatever the provider, the queries
    and the logs do, it resolves to a list. *)
Theorem fetchPastEvents_never_throws (w : Surroundings) (contract : option Contract) :
  exists events, fetchPastEvents w contract = ret events.
Proof.
  destruct contract as [contract|]; [|now exists []].
  unfold fetchPastEvents.
  match goal with
  | |- exists events, try_catch ?m _ = _ => destruct m as [e|events]
  end; [now exists []|now exists events].
Qed.

(** X12: Without a provider that has getBlockNumber the history is empty,
    whatever logs the contract holds: the branch calls the formatter
    before its declaration, so every log is skipped. *)
Theorem fetchPastEvents_without_provider (w : Surroundings) (contract : Contract) :
  choose_provider w contract = None ->
  fetchPastEvents w (Some contract) = ret [].
Proof.
  intros Hp. unfold fetchPastEvents. rewrite Hp, forOf_without_range. reflexivity.
Qed.

Lemma fetchPastEvents_without_provider_witness :
  fetchPastEvents
    (mkSurroundings None None None (fun _ => 0))
    (Some (mkContract
             (fun name _ =>
                ret [mkEventLog name [("token", Hex "0x11")] 1]) None))
  = ret [].
Proof. apply fetchPastEvents_without_provider. reflexivity. Defined.

(** X13: When the block number cannot be read the history is empty too. *)
Theorem fetchPastEvents_without_block_number
    (w : Surroundings) (contract : Contract) (p : Provider) (e : JsError) :
  choose_provider w contract = Some p ->
  call_getBlockNumber p = throw e ->
  fetchPastEvents w (Some contract) = ret [].
Proof.
  intros Hp Hn. unfold fetchPastEvents. rewrite Hp, Hn. cbn [bind try_catch throw ret].
  destruct (queryFilter contract "LockBuy" None); reflexivity.
Qed.

Lemma fetchPastEvents_without_block_number_witness :
  fetchPastEvents
    (mkSurroundings
       (Some (mkProvider (Some (throw (Thrown "network"))) (fun _ => ret None)))
       None None (fun _ => 0))
    (Some (mkContract (fun name _ => ret []) None))
  = ret [].
Proof.
  eapply fetchPastEvents_without_block_number; reflexivity.
Defined.

(** X14: With a block number n the history is made of what the five queries
    over the blocks max(0, n - 5000) .. n contribute (a query that fails
    contributes nothing and does not stop the others), most recent
    first. *)
Theorem fetchPastEvents_history
    (w : Surroundings) (contract : Contract) (p : Provider) (n : Z) :
  choose_provider w contract = Some p ->
  call_getBlockNumber p = ret n ->
  exists events,
    fetchPastEvents w (Some contract) = ret events
    /\ Permutation events
         (flat_map (formatted_in_range w contract p (Z.max 0 (n - 5000)) n)
                   eventTypes)
    /\ recent_first events.
Proof.
  intros Hp Hn. unfold fetchPastEvents. rewrite Hp, Hn.
  cbn [bind try_catch ret]. rewrite forOf_in_range. cbn [bind try_catch ret].
  eexists. split; [reflexivity|]. apply sort_recent_first_spec.
Qed.

(** X15: A log of the queried event, decoded against the ABI, contributes
    exactly one record: none is dropped and none is repeated. *)
Theorem formatted_in_range_complete
    (w : Surroundings) (contract : Contract) (p : Provider)
    (fromBlock currentBlock : Z) (name : string) (logs : list EventLog) :
  queryFilter contract name (Some (fromBlock, currentBlock)) = ret logs ->
  Forall (fun ev => decoded ev /\ event_name ev = name) logs ->
  length (formatted_in_range w contract p fromBlock currentBlock name) = length logs
  /\ map fields (formatted_in_range w contract p fromBlock currentBlock name)
     = omap (fun ev => match formatEventByType ev name 0 with
                       | inr (Some r) => Some (fields r)
                       | _ => None
                       end) logs.
Proof.
  intros Hq Hlogs. unfold formatted_in_range, collect_in_range. rewrite Hq.
  cbn [bind ret]. clear Hq.
  assert (H : forall acc,
             exists added,
               forOf logs
                 (fun allEvents (event : EventLog) =>
                    try_catch
                      (let* formattedEvent :=
                         formatEventByType event name (Date_now w event) in
                       match formattedEvent with
                       | Some f =>
                           let* f' := with_block_time p event f in
                           ret (allEvents ++ [f'])%list
                       | None => ret allEvents
                       end)
                      (fun eventError => ret allEvents))
                 acc
               = ret (acc ++ added)%list
               /\ length added = length logs
               /\ map fields added
                  = omap (fun ev => match formatEventByType ev name 0 with
                                    | inr (Some r) => Some (fields r)
                                    | _ => None
                                    end) logs).
  { induction Hlogs as [|ev logs [Hd Hname] _ IH]; intros acc.
    - exists []. cbn. now rewrite app_nil_r.
    - cbn [forOf].
      destruct (formatted_record_keys (Date_now w ev) ev Hd) as (r & Hr & _).
      destruct (formatted_record_keys 0 ev Hd) as (r0 & Hr0 & _).
      rewrite Hname in Hr, Hr0. rewrite Hr.
      assert (Hf : fields r0 = fields r).
      { destruct (decoded_inv ev Hd)
          as [(? & ? & ? & ? & ? & ->)
             |[(? & ? & ? & ? & ? & ? & ? & ? & ? & ? & ->)
              |[(? & ? & ? & ? & ? & ? & ? & ? & ? & ->)
               |[(? & ? & ? & ? & ? & ->)
                |(? & ? & ? & ? & ? & ? & ->)]]]];
          cbn [event_name] in Hname; subst name;
          injection Hr as <-; injection Hr0 as <-; reflexivity. }
      cbn [bind ret].
      assert (Hw : exists f', with_block_time p ev r = ret f' /\ fields f' = fields r).
      { unfold with_block_time.
        destruct (getBlock p (blockNumber ev)) as [e|[t|]]; cbn [bind try_catch ret];
          [eexists; split; reflexivity| |eexists; split; reflexivity].
        destruct (t =? 0); eexists; split; reflexivity. }
      destruct Hw as (f' & Hw & Hff). rewrite Hw. cbn [bind try_catch ret].
      destruct (IH (acc ++ [f'])%list) as (added & Hadd & Hlen & Hmap).
      exists (f' :: added). rewrite Hadd, <- app_assoc. cbn [app length map].
      split; [reflexivity|]. split; [now rewrite Hlen|].
      cbn [omap list_omap]. rewrite Hr0. cbn. rewrite Hff, Hf.
      f_equal. exact Hmap. }
  destruct (H []) as (added & Hadd & Hlen & Hmap). rewrite Hadd.
  cbn [try_catch ret app]. split; assumption.
Qed.

Lemma fetchPastEvents_history_witness :
  exists events,
    fetchPastEvents
      (mkSurroundings
         (Some (mkProvider (Some (ret 6000)) (fun _ => ret (Some 170))))
         None None (fun _ => 5))
      (Some (mkContract
               (fun name _ =>
                  if String.eqb name "Decline" then
                    ret [mkEventLog "Decline"
                           [("token", Hex "0x11"); ("creator", Hex "0xaa");
                            ("recipient", Hex "0xbb"); ("lockId", Hex "0x01")] 5990]
                  else throw (Thrown "query failed"))
               None))
    = ret events
    /\ recent_first events.
Proof.
  destruct (fetchPastEvents_history
              (mkSurroundings
                 (Some (mkProvider (Some (ret 6000)) (fun _ => ret (Some 170))))
                 None None (fun _ => 5))
              (mkContract
                 (fun name _ =>
                    if String.eqb name "Decline" then
                      ret [mkEventLog "Decline"
                             [("token", Hex "0x11"); ("creator", Hex "0xaa");
                              ("recipient", Hex "0xbb"); ("lockId", Hex "0x01")] 5990]
                    else throw (Thrown "query failed"))
                 None)
              (mkProvider (Some (ret 6000)) (fun _ => ret (Some 170))) 6000
              eq_refl eq_refl) as (events & He & _ & Hs).
  exists events. split; [exact He|exact Hs].
Defined.

Lemma formatted_in_range_complete_witness :
  length
    (formatted_in_range
       (mkSurroundings None None None (fun _ => 5))
       (mkContract
          (fun name _ =>
             ret [mkEventLog "Decline"
                    [("token", Hex "0x11"); ("creator", Hex "0xaa");
                     ("recipient", Hex "0xbb"); ("lockId", Hex "0x01")] 5990])
          None)
       (mkProvider None (fun _ => throw (Thrown "no block"))) 1000 6000 "Decline")
  = length [mkEventLog "Decline"
              [("token", Hex "0x11"); ("creator", Hex "0xaa");
               ("recipient", Hex "0xbb"); ("lockId", Hex "0x01")] 5990].
Proof.
  eapply proj1. apply formatted_in_range_complete.
  - reflexivity.
  - constructor; [|constructor]. split; [|reflexivity].
    eexists. split; [reflexivity|]. cbn [event_args].
    repeat (constructor; [split; [reflexivity|cbn; auto]|]). constructor.
Defined.

End FeedFacts.

(** ** More on the lock identity *)

Section IdentityFacts.
Import Client.

(** X1: calculateLockId returns exactly when each of the four values fits
    its Solidity type; any value out of range makes it throw. *)
Theorem calculateLockId_defined_iff (tokenAddress creator hashedSecret timeout : Z) :
  (exists lockId,
     calculateLockId tokenAddress creator hashedSecret timeout = ret lockId)
  <-> fits address tokenAddress && fits address creator
      && fits bytes32 hashedSecret && fits uint256 timeout = true.
Proof.
  split.
  - intros [i Hi].
    destruct (fits address tokenAddress && fits address creator
              && fits bytes32 hashedSecret && fits uint256 timeout) eqn:F;
      [reflexivity|].
    destruct (calculateLockId_throws _ _ _ _ F) as [e He].
    rewrite He in Hi. discriminate Hi.
  - intros F. apply andb_true_iff in F as [F Ht].
    apply andb_true_iff in F as [F Hh]. apply andb_true_iff in F as [Ha Hc].
    eexists. now apply calculateLockId_fits.
Qed.

(** X2: Two tuples get the same identity only if they are the same tuple or
    keccak256 collides on their two distinct 104-byte encodings: no
    field is dropped or truncated by the packing. *)
Theorem calculateLockId_collision (a c h t a' c' h' t' lockId : Z) :
  calculateLockId a c h t = ret lockId ->
  calculateLockId a' c' h' t' = ret lockId ->
  (a, c, h, t) = (a', c', h', t')
  \/ (tightly_packed a c h t <> tightly_packed a' c' h' t'
      /\ Keccak.keccak256 (tightly_packed a c h t)
         = Keccak.keccak256 (tightly_packed a' c' h' t')).
Proof.
  intros H1 H2.
  assert (F1 : fits address a && fits address c && fits bytes32 h
               && fits uint256 t = true)
    by (apply calculateLockId_defined_iff; eauto).
  assert (F2 : fits address a' && fits address c' && fits bytes32 h'
               && fits uint256 t' = true)
    by (apply calculateLockId_defined_iff; eauto).
  apply andb_true_iff in F1 as [F1 Ht]. apply andb_true_iff in F1 as [F1 Hh].
  apply andb_true_iff in F1 as [Ha Hc].
  apply andb_true_iff in F2 as [F2 Ht']. apply andb_true_iff in F2 as [F2 Hh'].
  apply andb_true_iff in F2 as [Ha' Hc'].
  rewrite calculateLockId_fits in H1, H2 by assumption.
  destruct (decide ((a, c, h, t) = (a', c', h', t'))) as [E|N]; [left; exact E|].
  right. split; [|unfold ret in *; congruence].
  intros E. apply N. now apply tightly_packed_inj.
Qed.

Lemma calculateLockId_collision_witness :
  (1, 2, 3, 4) = (1, 2, 3, 4)
  \/ (tightly_packed 1 2 3 4 <> tightly_packed 1 2 3 4
      /\ Keccak.keccak256 (tightly_packed 1 2 3 4)
         = Keccak.keccak256 (tightly_packed 1 2 3 4)).
Proof.
  apply (calculateLockId_collision 1 2 3 4 1 2 3 4
           (Keccak.keccak256 (tightly_packed 1 2 3 4)));
    apply calculateLockId_fits; reflexivity.
Defined.

End IdentityFacts.

(** ** Amounts on the integer host *)

Section IntegerAmounts.
Import Client.








End IntegerAmounts.

(** ** The transaction wrappers *)

Section WalletFacts.
Context {R : Client.Runtime}.
Variable thrown_message : string -> string.
Variable revert_message : string -> list Z -> string.
Variable revert_data : string -> list Z -> option string.
Variable swapAddress : string.

Local Abbreviation message := (Wallet.message thrown_message revert_message).
Local Abbreviation lockBuy :=
  (Wallet.lockBuy thrown_message revert_message revert_data swapAddress).
Local Abbreviation lockSell :=
  (Wallet.lockSell thrown_message revert_message swapAddress).
Local Abbreviation unlock := (Wallet.unlock thrown_message revert_message).
Local Abbreviation retrieve := (Wallet.retrieve thrown_message revert_message).
Local Abbreviation decline := (Wallet.decline thrown_message revert_message).
Local Abbreviation resolve := (Wallet.resolve thrown_message revert_message).

Lemma andThen_throw {A B} (es : list Wallet.Action) (e : Client.JsError)
    (k : A -> Wallet.Run B) :
  Wallet.andThen (es, inl e) k = (es, inl e).
Proof. reflexivity. Qed.

Lemma andThen_return {A B} (es : list Wallet.Action) (a : A)
    (k : A -> Wallet.Run B) :
  Wallet.andThen (es, inr a) k = ((es ++ fst (k a))%list, snd (k a)).
Proof. cbn. destruct (k a). reflexivity. Qed.

Lemma catch_throw {A} (es : list Wallet.Action) (e : Client.JsError)
    (h : Client.JsError -> Wallet.Run A) :
  Wallet.catch (es, inl e) h = ((es ++ fst (h e))%list, snd (h e)).
Proof. cbn. destruct (h e). reflexivity. Qed.

Lemma catch_return {A} (es : list Wallet.Action) (a : A)
    (h : Client.JsError -> Wallet.Run A) :
  Wallet.catch (es, inr a) h = (es, inr a).
Proof. reflexivity. Qed.

(** [verifySigner] never throws, and the only thing it does is to
    replace the signer. *)
Lemma verifySigner_run (s : Wallet.Session) :
  exists es r, Wallet.verifySigner s = (es, inr r) /\
               Forall (fun a => a = Wallet.Reconnect) es.
Proof.
  unfold Wallet.verifySigner.
  destruct (Wallet.signer s) as [sg|]; [|eexists _, _; split; [reflexivity|constructor]].
  destruct (Wallet.provider s) as [getSigner|]; [|eexists _, _; split; [reflexivity|constructor]].
  destruct (Wallet.missing (Wallet.account s)); [eexists _, _; split; [reflexivity|constructor]|].
  destruct (Wallet.getAddress sg) as [e|signerAddress]; cbn;
    [eexists _, _; split; [reflexivity|constructor]|].
  destruct (negb _); cbn; [|eexists _, _; split; [reflexivity|constructor]].
  destruct getSigner as [e|newSigner]; cbn;
    eexists _, _; (split; [reflexivity|repeat constructor]).
Qed.

Lemma getTokenContract_run (s : Wallet.Session) (tokenAddress : string) :
  exists es r, Wallet.getTokenContract s tokenAddress = (es, inr r) /\
               Forall (fun a => a = Wallet.Reconnect) es.
Proof.
  unfold Wallet.getTokenContract.
  destruct (Wallet.signer s); [|eexists _, _; split; [reflexivity|constructor]].
  destruct (verifySigner_run s) as (es & r & -> & Hes).
  rewrite andThen_return.
  destruct r; cbn; rewrite app_nil_r; eauto.
Qed.


(** What the catch clause of a wrapper does with a failure of its body:
    one destructive toast, and the same error again. *)
Lemma shown_and_rethrown {A} (body : Wallet.Run A)
    (text : Client.JsError -> string) :
  Wallet.catch body
    (fun error =>
       Wallet.andThen (Wallet.act (Wallet.Toast "Transaction Failed" (text error) true))
                      (fun _ => Wallet.raise error))
  = match snd body with
    | inl e => ((fst body ++ [Wallet.Toast "Transaction Failed" (text e) true])%list,
                inl e)
    | inr a => body
    end.
Proof. destruct body as [es [e|a]]; reflexivity. Qed.

Lemma resolve_connected (s : Wallet.Session) (swap : Wallet.Swap)
    (sg : Wallet.Signer) (call : Wallet.ContractCall) (t1 t2 t3 : string) :
  Wallet.swapContract s = Some swap -> Wallet.signer s = Some sg ->
  exists es,
    Forall (fun a => a = Wallet.Reconnect) es /\
    resolve s call t1 t2 t3 =
    match Wallet.send swap call with
    | inl e =>
        ((es ++ [Wallet.Submit call None;
                 Wallet.Toast "Transaction Failed" (message e) true])%list, inl e)
    | inr (inl e) =>
        ((es ++ [Wallet.Submit call None;
                 Wallet.Toast "Transaction Submitted" t1 false;
                 Wallet.Toast "Transaction Failed" (message e) true])%list, inl e)
    | inr (inr receipt) =>
        ((es ++ [Wallet.Submit call None;
                 Wallet.Toast "Transaction Submitted" t1 false;
                 Wallet.Toast t2 t3 false])%list, inr (Some receipt))
    end.
Proof.
  intros Hswap Hsg. unfold Wallet.resolve. rewrite Hswap, Hsg.
  destruct (verifySigner_run s) as (es & r & Hv & Hes).
  exists es. split; [assumption|].
  rewrite shown_and_rethrown, Hv, andThen_return.
  destruct (Wallet.send swap call) as [e|[e|receipt]]; cbn;
    rewrite <- ?app_assoc; reflexivity.
Qed.


Lemma in_reconnects (es : list Wallet.Action) (a : Wallet.Action) :
  Forall (fun a => a = Wallet.Reconnect) es -> In a es -> a = Wallet.Reconnect.
Proof. intros H Hin. exact (proj1 (List.Forall_forall _ _) H a Hin). Qed.

Lemma in_andThen {A B} (m : Wallet.Run A) (k : A -> Wallet.Run B)
    (a : Wallet.Action) :
  In a (fst (Wallet.andThen m k)) <->
  In a (fst m) \/ exists x, snd m = inr x /\ In a (fst (k x)).
Proof.
  destruct m as [es [e|x]].
  - cbn. split; [auto|]. intros [H|(x & Hx & _)]; [assumption|discriminate Hx].
  - rewrite andThen_return. cbn [fst snd]. rewrite in_app_iff. split.
    + intros [H|H]; [auto|right; eauto].
    + intros [H|(y & [= <-] & H)]; auto.
Qed.

Lemma in_catch {A} (m : Wallet.Run A) (h : Client.JsError -> Wallet.Run A)
    (a : Wallet.Action) :
  In a (fst (Wallet.catch m h)) <->
  In a (fst m) \/ exists e, snd m = inl e /\ In a (fst (h e)).
Proof.
  destruct m as [es [e|x]].
  - rewrite catch_throw. cbn [fst snd]. rewrite in_app_iff. split.
    + intros [H|H]; [auto|right; eauto].
    + intros [H|(y & [= <-] & H)]; auto.
  - cbn. split; [auto|]. intros [H|(x' & Hx & _)]; [assumption|discriminate Hx].
Qed.

Lemma snd_andThen {A B} (m : Wallet.Run A) (k : A -> Wallet.Run B) (b : B) :
  snd (Wallet.andThen m k) = inr b <->
  exists x, snd m = inr x /\ snd (k x) = inr b.
Proof.
  destruct m as [es [e|x]].
  - cbn. split; [discriminate|]. intros (x & Hx & _). discriminate Hx.
  - rewrite andThen_return. cbn [fst snd]. split; [eauto|].
    intros (y & [= <-] & H). assumption.
Qed.

Lemma includes_insufficient (balance valueWei : Z) :
  Wallet.includes "Insufficient"
    (message (Wallet.insufficient balance valueWei)) = true.
Proof. reflexivity. Qed.

(** The balance check does nothing to the outside; it lets [lockBuy]
    go on unless the balance is known to be short or the query failed
    with a message that contains the word Insufficient. *)
Lemma check_balance_run (tokenContract : Wallet.Token)
    (account : option string) (valueWei : Z) :
  Wallet.check_balance thrown_message revert_message tokenContract account valueWei
  = ([], match Wallet.balanceOf tokenContract account with
         | inr balance =>
             if balance <? valueWei
             then inl (Wallet.insufficient balance valueWei)
             else inr tt
         | inl e =>
             if Wallet.includes "Insufficient" (message e) then inl e
             else inr tt
         end).
Proof.
  unfold Wallet.check_balance.
  destruct (Wallet.balanceOf tokenContract account) as [e|balance]; cbn.
  - destruct (Wallet.includes _ _); reflexivity.
  - destruct (balance <? valueWei); reflexivity.
Qed.

Lemma ensure_allowance_run (tokenContract : Wallet.Token)
    (account : option string) (tokenAddress : string) (valueWei : Z) :
  Wallet.ensure_allowance swapAddress tokenContract account tokenAddress valueWei
  = match Wallet.allowance tokenContract account swapAddress with
    | inl e => ([], inl e)
    | inr currentAllowance =>
        if currentAllowance <? valueWei then
          ([Wallet.Approve tokenAddress swapAddress valueWei],
           match Wallet.approve tokenContract swapAddress valueWei with
           | inl e => inl e
           | inr approveTx => approveTx
           end)
        else ([], inr tt)
    end.
Proof.
  unfold Wallet.ensure_allowance.
  destruct (Wallet.allowance tokenContract account swapAddress) as [e|al]; cbn;
    [reflexivity|].
  destruct (al <? valueWei); cbn; [|reflexivity].
  destruct (Wallet.approve tokenContract swapAddress valueWei) as [e|[e|[]]];
    reflexivity.
Qed.

Lemma getTokenContract_token (s : Wallet.Session) (tokenAddress : string)
    (tokenContract : Wallet.Token) :
  snd (Wallet.getTokenContract s tokenAddress) = inr (Some tokenContract) ->
  tokenContract = Wallet.erc20 s tokenAddress.
Proof.
  unfold Wallet.getTokenContract.
  destruct (Wallet.signer s); [|discriminate].
  destruct (verifySigner_run s) as (es & r & -> & _).
  rewrite andThen_return. destruct r; cbn; [|discriminate].
  intros [= <-]. reflexivity.
Qed.

Lemma lockBuy_send_run (swap : Wallet.Swap) (call : Wallet.ContractCall) :
  Wallet.lockBuy_send swapAddress swap call =
  match Wallet.send swap call with
  | inl e =>
      ([Wallet.EstimateGas call; Wallet.Submit call (Some 1000000)], inl e)
  | inr (inl e) =>
      ([Wallet.EstimateGas call; Wallet.Submit call (Some 1000000);
        Wallet.Toast "Transaction Submitted"
                     "Your lock buy transaction has been submitted" false],
       inl e)
  | inr (inr receipt) =>
      let lockId := Client.lockBuy_lockId (Wallet.parsed_logs swapAddress receipt) in
      ([Wallet.EstimateGas call; Wallet.Submit call (Some 1000000);
        Wallet.Toast "Transaction Submitted"
                     "Your lock buy transaction has been submitted" false;
        Wallet.Toast "Lock Buy Created" (Wallet.created_text lockId) false],
       inr (Some lockId))
  end.
Proof.
  unfold Wallet.lockBuy_send.
  destruct (Wallet.estimateGas swap call) as [e|g];
    destruct (Wallet.send swap call) as [e'|[e'|receipt]]; reflexivity.
Qed.

(** The run of a connected [lockBuy] whose amounts parse, by what the
    token contract answers. *)
Lemma lockBuy_connected (s : Wallet.Session) (swap : Wallet.Swap)
    (sg : Wallet.Signer) (tokenAddress recipient hashedSecret : string)
    (timeout value : Client.JsValue) (sellAssetId : option string)
    (sellPrice : Client.JsValue) (useRawValue useRawSellPrice : bool)
    (valueWei sellPriceWei : Z) :
  Wallet.swapContract s = Some swap -> Wallet.signer s = Some sg ->
  Client.lockBuy_valueWei useRawValue value = inr valueWei ->
  Wallet.lockBuy_sellPriceWei useRawSellPrice sellPrice = inr sellPriceWei ->
  exists es,
    Forall (fun a => a = Wallet.Reconnect) es /\
    lockBuy s tokenAddress recipient hashedSecret timeout value
            sellAssetId sellPrice useRawValue useRawSellPrice =
    let call := Wallet.CallLockBuy tokenAddress recipient hashedSecret
                  (Client.floor_Number timeout) valueWei
                  (AssetId.format_sellAssetId sellAssetId) sellPriceWei in
    let failed e :=
      Wallet.Toast "Transaction Failed"
        (Wallet.lockBuy_errorMessage thrown_message revert_message revert_data e)
        true in
    let wrap e :=
      Client.Error_ ("Failed to approve token transfer: " ++ message e) in
    match snd (Wallet.getTokenContract s tokenAddress) with
    | inr (Some tokenContract) =>
        match snd (Wallet.check_balance thrown_message revert_message
                     tokenContract (Wallet.account s) valueWei) with
        | inl e => ((es ++ [failed e])%list, inl e)
        | inr _ =>
            let '(approvals, a) :=
              Wallet.ensure_allowance swapAddress tokenContract
                (Wallet.account s) tokenAddress valueWei in
            match a with
            | inl e => ((es ++ approvals ++ [failed (wrap e)])%list, inl (wrap e))
            | inr _ =>
                let '(sent, r) := Wallet.lockBuy_send swapAddress swap call in
                ((es ++ approvals ++ sent ++
                  match r with inl e => [failed e] | inr _ => [] end)%list, r)
            end
        end
    | _ =>
        let e := Client.Error_ "Failed to create token contract instance" in
        ((es ++ [failed e])%list, inl e)
    end.
Proof.
  intros Hswap Hsg Hvalue Hprice. unfold Wallet.lockBuy.
  rewrite Hswap, Hsg, Hvalue, Hprice, shown_and_rethrown.
  destruct (verifySigner_run s) as (es1 & r1 & -> & Hes1).
  destruct (getTokenContract_run s tokenAddress) as (es2 & r2 & Htoken & Hes2).
  exists (es1 ++ es2)%list. split; [apply Forall_app; split; assumption|].
  rewrite andThen_return. cbn [Wallet.await Wallet.andThen].
  rewrite Htoken. cbn [snd].
  destruct r2 as [tokenContract|]; cbn -[Wallet.check_balance Wallet.ensure_allowance Wallet.lockBuy_send];
    [|rewrite !app_nil_r, <- app_assoc; reflexivity].
  destruct (Wallet.check_balance _ _ tokenContract _ _) as [bs [e|[]]] eqn:Hb;
    rewrite check_balance_run in Hb; injection Hb as <- Hb;
    destruct (Wallet.decimals tokenContract);
    cbn -[Wallet.ensure_allowance Wallet.lockBuy_send];
    try (rewrite ?app_nil_r, <- ?app_assoc; reflexivity);
    destruct (Wallet.ensure_allowance _ _ _ _ _) as [approvals [e|[]]];
    cbn -[Wallet.lockBuy_send];
    try (rewrite ?app_nil_r, <- ?app_assoc; reflexivity);
    destruct (Wallet.lockBuy_send _ _ _) as [sent [e|r]];
    cbn; rewrite ?app_nil_r, <- ?app_assoc; reflexivity.
Qed.

Lemma lockBuy_unparsed (s : Wallet.Session) (swap : Wallet.Swap)
    (sg : Wallet.Signer) (tokenAddress recipient hashedSecret : string)
    (timeout value : Client.JsValue) (sellAssetId : option string)
    (sellPrice : Client.JsValue) (useRawValue useRawSellPrice : bool)
    (e : Client.JsError) :
  Wallet.swapContract s = Some swap -> Wallet.signer s = Some sg ->
  Client.bind (Client.lockBuy_valueWei useRawValue value)
    (fun _ => Wallet.lockBuy_sellPriceWei useRawSellPrice sellPrice) = inl e ->
  exists es,
    Forall (fun a => a = Wallet.Reconnect) es /\
    lockBuy s tokenAddress recipient hashedSecret timeout value
            sellAssetId sellPrice useRawValue useRawSellPrice =
    ((es ++ [Wallet.Toast "Transaction Failed"
               (Wallet.lockBuy_errorMessage thrown_message revert_message
                                            revert_data e) true])%list,
     inl e).
Proof.
  intros Hswap Hsg Hparse. unfold Wallet.lockBuy.
  rewrite Hswap, Hsg, shown_and_rethrown.
  destruct (verifySigner_run s) as (es1 & r1 & -> & Hes1).
  exists es1. split; [assumption|].
  rewrite andThen_return.
  destruct (Client.lockBuy_valueWei useRawValue value) as [e1|valueWei];
    cbn in Hparse.
  - injection Hparse as ->. cbn. rewrite app_nil_r. reflexivity.
  - rewrite Hparse. cbn. rewrite app_nil_r. reflexivity.
Qed.

Lemma not_in_reconnects (es : list Wallet.Action) (a : Wallet.Action) :
  Forall (fun a => a = Wallet.Reconnect) es -> a <> Wallet.Reconnect ->
  ~ In a es.
Proof. intros Hes Ha Hin. apply Ha. exact (in_reconnects es a Hes Hin). Qed.

Lemma in_approvals (tokenContract : Wallet.Token) (account : option string)
    (tokenAddress : string) (valueWei : Z) (a : Wallet.Action) :
  In a (fst (Wallet.ensure_allowance swapAddress tokenContract account
                                     tokenAddress valueWei)) ->
  a = Wallet.Approve tokenAddress swapAddress valueWei /\
  exists currentAllowance,
    Wallet.allowance tokenContract account swapAddress = inr currentAllowance /\
    currentAllowance < valueWei.
Proof.
  rewrite ensure_allowance_run.
  destruct (Wallet.allowance _ _ _) as [e|currentAllowance]; [intros []|].
  destruct (currentAllowance <? valueWei) eqn:Hlt; [|intros []].
  intros [<-|[]]. split; [reflexivity|].
  exists currentAllowance. split; [reflexivity|]. apply Z.ltb_lt, Hlt.
Qed.

Lemma allowance_ensured (tokenContract : Wallet.Token) (account : option string)
    (tokenAddress : string) (valueWei : Z) (u : unit) :
  snd (Wallet.ensure_allowance swapAddress tokenContract account
                               tokenAddress valueWei) = inr u ->
  exists currentAllowance,
    Wallet.allowance tokenContract account swapAddress = inr currentAllowance /\
    (currentAllowance < valueWei ->
     Wallet.approve tokenContract swapAddress valueWei = inr (inr tt)).
Proof.
  rewrite ensure_allowance_run.
  destruct (Wallet.allowance _ _ _) as [e|currentAllowance]; [discriminate|].
  intros H. exists currentAllowance. split; [reflexivity|].
  intros Hlt. apply Z.ltb_lt in Hlt. rewrite Hlt in H. cbn in H.
  destruct (Wallet.approve _ _ _) as [e|[e|[]]]; try discriminate H.
  reflexivity.
Qed.

Lemma in_sent (swap : Wallet.Swap) (call : Wallet.ContractCall)
    (a : Wallet.Action) :
  In a (fst (Wallet.lockBuy_send swapAddress swap call)) ->
  a = Wallet.EstimateGas call \/ a = Wallet.Submit call (Some 1000000) \/
  exists title text, a = Wallet.Toast title text false.
Proof.
  rewrite lockBuy_send_run.
  destruct (Wallet.send swap call) as [e|[e|receipt]]; cbn;
    intuition eauto.
Qed.

Lemma sent_both (swap : Wallet.Swap) (call : Wallet.ContractCall) :
  In (Wallet.EstimateGas call) (fst (Wallet.lockBuy_send swapAddress swap call))
  /\ In (Wallet.Submit call (Some 1000000))
        (fst (Wallet.lockBuy_send swapAddress swap call)).
Proof.
  rewrite lockBuy_send_run.
  destruct (Wallet.send swap call) as [e|[e|receipt]]; cbn; auto.
Qed.

(** Where an action of [lockBuy] that is neither a toast nor the
    change of signer comes from. *)
Lemma lockBuy_actions (s : Wallet.Session)
    (tokenAddress recipient hashedSecret : string)
    (timeout value : Client.JsValue) (sellAssetId : option string)
    (sellPrice : Client.JsValue) (useRawValue useRawSellPrice : bool)
    (a : Wallet.Action) :
  In a (fst (lockBuy s tokenAddress recipient hashedSecret timeout value
                     sellAssetId sellPrice useRawValue useRawSellPrice)) ->
  a = Wallet.Reconnect \/ (exists title text d, a = Wallet.Toast title text d) \/
  exists swap valueWei sellPriceWei,
    Wallet.swapContract s = Some swap /\
    Client.lockBuy_valueWei useRawValue value = inr valueWei /\
    Wallet.lockBuy_sellPriceWei useRawSellPrice sellPrice = inr sellPriceWei /\
    let tokenContract := Wallet.erc20 s tokenAddress in
    let call := Wallet.CallLockBuy tokenAddress recipient hashedSecret
                  (Client.floor_Number timeout) valueWei
                  (AssetId.format_sellAssetId sellAssetId) sellPriceWei in
    let run := lockBuy s tokenAddress recipient hashedSecret timeout value
                       sellAssetId sellPrice useRawValue useRawSellPrice in
    (forall balance,
       Wallet.balanceOf tokenContract (Wallet.account s) = inr balance ->
       valueWei <= balance) /\
    (In a (fst (Wallet.ensure_allowance swapAddress tokenContract
                  (Wallet.account s) tokenAddress valueWei))
     \/ snd (Wallet.ensure_allowance swapAddress tokenContract
               (Wallet.account s) tokenAddress valueWei) = inr tt /\
        In a (fst (Wallet.lockBuy_send swapAddress swap call)) /\
        forall a', In a' (fst (Wallet.lockBuy_send swapAddress swap call)) ->
                   In a' (fst run)).
Proof.
  destruct (Wallet.swapContract s) as [swap|] eqn:Hswap;
    [|unfold Wallet.lockBuy; rewrite Hswap; intros [<-|[]]; right; left; eauto].
  destruct (Wallet.signer s) as [sg|] eqn:Hsg;
    [|unfold Wallet.lockBuy; rewrite Hswap, Hsg; intros [<-|[]]; right; left; eauto].
  destruct (Client.lockBuy_valueWei useRawValue value) as [e|valueWei] eqn:Hvalue.
  { destruct (lockBuy_unparsed s swap sg tokenAddress recipient hashedSecret
                timeout value sellAssetId sellPrice useRawValue useRawSellPrice
                e Hswap Hsg) as (es & Hes & ->); [rewrite Hvalue; reflexivity|].
    cbn [fst]. intros [H|[<-|[]]]%in_app_iff; [left|right; left; eauto].
    exact (in_reconnects es a Hes H). }
  destruct (Wallet.lockBuy_sellPriceWei useRawSellPrice sellPrice)
    as [e|sellPriceWei] eqn:Hprice.
  { destruct (lockBuy_unparsed s swap sg tokenAddress recipient hashedSecret
                timeout value sellAssetId sellPrice useRawValue useRawSellPrice
                e Hswap Hsg) as (es & Hes & ->);
      [rewrite Hvalue; cbn; exact Hprice|].
    cbn [fst]. intros [H|[<-|[]]]%in_app_iff; [left|right; left; eauto].
    exact (in_reconnects es a Hes H). }
  destruct (lockBuy_connected s swap sg tokenAddress recipient hashedSecret
              timeout value sellAssetId sellPrice useRawValue useRawSellPrice
              valueWei sellPriceWei Hswap Hsg Hvalue Hprice) as (es & Hes & Hrun).
  rewrite Hrun. cbv zeta.
  destruct (snd (Wallet.getTokenContract s tokenAddress))
    as [e|[tokenContract|]] eqn:Htoken;
    try (cbn [fst]; intros [H|[<-|[]]]%in_app_iff;
         [left; exact (in_reconnects es a Hes H)|right; left; eauto]).
  apply getTokenContract_token in Htoken as ->.
  rewrite check_balance_run. cbn [snd].
  destruct (match Wallet.balanceOf _ _ with inl _ => _ | inr _ => _ end)
    as [e|[]] eqn:Hbalance;
    try (cbn [fst]; intros [H|[<-|[]]]%in_app_iff;
         [left; exact (in_reconnects es a Hes H)|right; left; eauto]).
  assert (Hknown : forall balance,
             Wallet.balanceOf (Wallet.erc20 s tokenAddress) (Wallet.account s)
             = inr balance -> valueWei <= balance).
  { intros balance Hb. rewrite Hb in Hbalance.
    destruct (balance <? valueWei) eqn:Hlt; [discriminate Hbalance|].
    apply Z.ltb_ge, Hlt. }
  destruct (Wallet.ensure_allowance _ _ _ _ _) as [approvals [e|[]]] eqn:Hallow.
  - cbn [fst]. intros [H|[H|[<-|[]]]%in_app_iff]%in_app_iff;
      [left; exact (in_reconnects es a Hes H)| |right; left; eauto].
    right; right. exists swap, valueWei, sellPriceWei.
    split; [reflexivity|]. split; [reflexivity|]. split; [reflexivity|].
    split; [exact Hknown|]. left. rewrite Hallow. exact H.
  - destruct (Wallet.lockBuy_send _ _ _) as [sent r] eqn:Hsent. cbn [fst].
    intros [H|[H|[H|H]%in_app_iff]%in_app_iff]%in_app_iff.
    + left; exact (in_reconnects es a Hes H).
    + right; right. exists swap, valueWei, sellPriceWei.
      split; [reflexivity|]. split; [reflexivity|]. split; [reflexivity|].
      split; [exact Hknown|]. left. rewrite Hallow. exact H.
    + right; right. exists swap, valueWei, sellPriceWei.
      split; [reflexivity|]. split; [reflexivity|]. split; [reflexivity|].
      split; [exact Hknown|]. right. rewrite Hallow, Hsent.
      split; [reflexivity|]. split; [exact H|].
      intros a' Ha'. cbn [fst] in *. rewrite !in_app_iff. auto.
    + destruct r as [e|r]; [|destruct H]. destruct H as [<-|[]].
      right; left; eauto.
Qed.

(** X19: Whenever lockBuy submits a call, it is the lockBuy call on the
    parsed amounts with a gas limit of 1000000, the balance is not
    known to be short, the allowance was read, and an approval that was
    needed has been mined. *)
Theorem lockBuy_submit_guarded (s : Wallet.Session)
    (tokenAddress recipient hashedSecret : string)
    (timeout value : Client.JsValue) (sellAssetId : option string)
    (sellPrice : Client.JsValue) (useRawValue useRawSellPrice : bool)
    (call : Wallet.ContractCall) (gasLimit : option Z) :
  In (Wallet.Submit call gasLimit)
     (fst (lockBuy s tokenAddress recipient hashedSecret timeout value
                   sellAssetId sellPrice useRawValue useRawSellPrice)) ->
  exists valueWei sellPriceWei currentAllowance,
    Client.lockBuy_valueWei useRawValue value = inr valueWei /\
    Wallet.lockBuy_sellPriceWei useRawSellPrice sellPrice = inr sellPriceWei /\
    call = Wallet.CallLockBuy tokenAddress recipient hashedSecret
             (Client.floor_Number timeout) valueWei
             (AssetId.format_sellAssetId sellAssetId) sellPriceWei /\
    gasLimit = Some 1000000 /\
    (forall balance,
       Wallet.balanceOf (Wallet.erc20 s tokenAddress) (Wallet.account s)
       = inr balance -> valueWei <= balance) /\
    Wallet.allowance (Wallet.erc20 s tokenAddress) (Wallet.account s) swapAddress
    = inr currentAllowance /\
    (currentAllowance < valueWei ->
     Wallet.approve (Wallet.erc20 s tokenAddress) swapAddress valueWei
     = inr (inr tt)).
Proof.
  intros H. apply lockBuy_actions in H
    as [H|[(? & ? & ? & H)|(swap & valueWei & sellPriceWei & Hswap & Hvalue
                            & Hprice & Hknown & H)]];
    try discriminate H.
  destruct H as [H|(Hallow & H & _)].
  { apply in_approvals in H as [H _]. discriminate H. }
  apply allowance_ensured in Hallow as (currentAllowance & Hal & Happrove).
  exists valueWei, sellPriceWei, currentAllowance.
  apply in_sent in H as [H|[H|(? & ? & H)]]; try discriminate H.
  injection H as -> ->. repeat split; assumption.
Qed.

(** X20: A gas estimate is always followed by the submission of the
    same call, whether the estimate succeeds or fails. *)
Theorem lockBuy_estimate_then_submit (s : Wallet.Session)
    (tokenAddress recipient hashedSecret : string)
    (timeout value : Client.JsValue) (sellAssetId : option string)
    (sellPrice : Client.JsValue) (useRawValue useRawSellPrice : bool)
    (call : Wallet.ContractCall) :
  In (Wallet.EstimateGas call)
     (fst (lockBuy s tokenAddress recipient hashedSecret timeout value
                   sellAssetId sellPrice useRawValue useRawSellPrice)) ->
  In (Wallet.Submit call (Some 1000000))
     (fst (lockBuy s tokenAddress recipient hashedSecret timeout value
                   sellAssetId sellPrice useRawValue useRawSellPrice)).
Proof.
  intros H. apply lockBuy_actions in H
    as [H|[(? & ? & ? & H)|(swap & valueWei & sellPriceWei & Hswap & Hvalue
                            & Hprice & Hknown & H)]];
    try discriminate H.
  destruct H as [H|(Hallow & H & Hrun)].
  { apply in_approvals in H as [H _]. discriminate H. }
  apply in_sent in H as [H|[H|(? & ? & H)]]; try discriminate H.
  injection H as ->. apply Hrun, sent_both.
Qed.

(** X21: LockBuy asks the token for an approval only when the allowance
    it read is below the amount, and then for exactly the amount, in
    favour of the swap contract. *)
Theorem lockBuy_approves_the_shortfall (s : Wallet.Session)
    (tokenAddress recipient hashedSecret : string)
    (timeout value : Client.JsValue) (sellAssetId : option string)
    (sellPrice : Client.JsValue) (useRawValue useRawSellPrice : bool)
    (token spender : string) (amount : Z) :
  In (Wallet.Approve token spender amount)
     (fst (lockBuy s tokenAddress recipient hashedSecret timeout value
                   sellAssetId sellPrice useRawValue useRawSellPrice)) ->
  token = tokenAddress /\ spender = swapAddress /\
  Client.lockBuy_valueWei useRawValue value = inr amount /\
  exists currentAllowance,
    Wallet.allowance (Wallet.erc20 s tokenAddress) (Wallet.account s) swapAddress
    = inr currentAllowance /\
    currentAllowance < amount.
Proof.
  intros H. apply lockBuy_actions in H
    as [H|[(? & ? & ? & H)|(swap & valueWei & sellPriceWei & Hswap & Hvalue
                            & Hprice & Hknown & H)]];
    try discriminate H.
  destruct H as [H|(Hallow & H & Hrun)].
  - apply in_approvals in H as [[= -> -> ->] Hal]. auto.
  - apply in_sent in H as [H|[H|(? & ? & H)]]; discriminate H.
Qed.

Lemma verifySigner_quiet (s : Wallet.Session) (a : Wallet.Action) :
  In a (fst (Wallet.verifySigner s)) -> a = Wallet.Reconnect.
Proof.
  destruct (verifySigner_run s) as (es & r & -> & Hes).
  apply (in_reconnects _ _ Hes).
Qed.

Lemma getTokenContract_quiet (s : Wallet.Session) (tokenAddress : string)
    (a : Wallet.Action) :
  In a (fst (Wallet.getTokenContract s tokenAddress)) -> a = Wallet.Reconnect.
Proof.
  destruct (getTokenContract_run s tokenAddress) as (es & r & -> & Hes).
  apply (in_reconnects _ _ Hes).
Qed.

(** X22: A balance that is known to be short stops lockBuy before any
    approval or call: it throws the Insufficient error and shows its
    text. *)
Theorem lockBuy_insufficient_balance (s : Wallet.Session) (swap : Wallet.Swap)
    (sg : Wallet.Signer) (tokenAddress recipient hashedSecret : string)
    (timeout value : Client.JsValue) (sellAssetId : option string)
    (sellPrice : Client.JsValue) (useRawValue useRawSellPrice : bool)
    (valueWei sellPriceWei balance : Z) (tokenContract : Wallet.Token) :
  Wallet.swapContract s = Some swap -> Wallet.signer s = Some sg ->
  Client.lockBuy_valueWei useRawValue value = inr valueWei ->
  Wallet.lockBuy_sellPriceWei useRawSellPrice sellPrice = inr sellPriceWei ->
  snd (Wallet.getTokenContract s tokenAddress) = inr (Some tokenContract) ->
  Wallet.balanceOf tokenContract (Wallet.account s) = inr balance ->
  balance < valueWei ->
  exists es,
    Forall (fun a => a = Wallet.Reconnect) es /\
    lockBuy s tokenAddress recipient hashedSecret timeout value
            sellAssetId sellPrice useRawValue useRawSellPrice =
    ((es ++ [Wallet.Toast "Transaction Failed"
               ("Insufficient token balance. You have "
                ++ Client.decimal_String balance ++ " but need "
                ++ Client.decimal_String valueWei) true])%list,
     inl (Wallet.insufficient balance valueWei)).
Proof.
  intros Hswap Hsg Hvalue Hprice Htoken Hbalance Hlt.
  destruct (lockBuy_connected s swap sg tokenAddress recipient hashedSecret
              timeout value sellAssetId sellPrice useRawValue useRawSellPrice
              valueWei sellPriceWei Hswap Hsg Hvalue Hprice) as (es & Hes & ->).
  exists es. split; [assumption|]. cbv zeta.
  rewrite Htoken, check_balance_run, Hbalance. cbn [snd].
  apply Z.ltb_lt in Hlt. rewrite Hlt. reflexivity.
Qed.

(** X23: A failure of the allowance query or of the approval reaches the
    caller of lockBuy as a new error that keeps only the message of
    the original one, and nothing is submitted. *)
Theorem lockBuy_approval_failure (s : Wallet.Session) (swap : Wallet.Swap)
    (sg : Wallet.Signer) (tokenAddress recipient hashedSecret : string)
    (timeout value : Client.JsValue) (sellAssetId : option string)
    (sellPrice : Client.JsValue) (useRawValue useRawSellPrice : bool)
    (valueWei sellPriceWei : Z) (tokenContract : Wallet.Token)
    (e : Client.JsError) :
  Wallet.swapContract s = Some swap -> Wallet.signer s = Some sg ->
  Client.lockBuy_valueWei useRawValue value = inr valueWei ->
  Wallet.lockBuy_sellPriceWei useRawSellPrice sellPrice = inr sellPriceWei ->
  snd (Wallet.getTokenContract s tokenAddress) = inr (Some tokenContract) ->
  snd (Wallet.check_balance thrown_message revert_message tokenContract
                            (Wallet.account s) valueWei) = inr tt ->
  snd (Wallet.ensure_allowance swapAddress tokenContract (Wallet.account s)
                               tokenAddress valueWei) = inl e ->
  let run := lockBuy s tokenAddress recipient hashedSecret timeout value
                     sellAssetId sellPrice useRawValue useRawSellPrice in
  let text := "Failed to approve token transfer: " ++ message e in
  snd run = inl (Client.Error_ text) /\
  last (fst run) = Some (Wallet.Toast "Transaction Failed" text true) /\
  Wallet.submitted (fst run) = [].
Proof.
  intros Hswap Hsg Hvalue Hprice Htoken Hbalance Hallow run text.
  subst run text.
  destruct (lockBuy_connected s swap sg tokenAddress recipient hashedSecret
              timeout value sellAssetId sellPrice useRawValue useRawSellPrice
              valueWei sellPriceWei Hswap Hsg Hvalue Hprice) as (es & Hes & ->).
  cbv zeta. rewrite Htoken, Hbalance.
  pose proof (ensure_allowance_run tokenContract (Wallet.account s)
                                   tokenAddress valueWei) as Hrun.
  destruct (Wallet.ensure_allowance _ _ _ _ _) as [approvals r].
  cbn [snd] in Hallow. subst r. cbn [fst snd].
  split; [reflexivity|]. split.
  - rewrite app_assoc. apply last_snoc.
  - assert (Hsub : Wallet.submitted es = []).
    { clear -Hes. induction Hes as [|a es -> _ IH]; [reflexivity|exact IH]. }
    unfold Wallet.submitted in *. rewrite !omap_app, Hsub. cbn.
    destruct (Wallet.allowance _ _ _) as [e'|al]; [injection Hrun as -> _; reflexivity|].
    destruct (al <? valueWei); injection Hrun as -> _; reflexivity.
Qed.

(** The run of a connected [lockSell] whose amount parses. *)
Lemma lockSell_connected (s : Wallet.Session) (w : Wallet.Words)
    (swap : Wallet.Swap) (sg : Wallet.Signer)
    (tokenAddress recipient hashedSecret : string)
    (timeout value : Client.JsValue) (buyAssetId buyLockId : option string)
    (useRawValue : bool) (valueWei : Z) :
  Wallet.swapContract s = Some swap -> Wallet.signer s = Some sg ->
  Client.lockSell_valueWei useRawValue value = inr valueWei ->
  exists es,
    Forall (fun a => a = Wallet.Reconnect) es /\
    lockSell s w tokenAddress recipient hashedSecret timeout value
             buyAssetId buyLockId useRawValue =
    let call := Wallet.CallLockSell
                  (Client.mkLockSellCall tokenAddress recipient hashedSecret
                     (Client.floor_Number timeout) valueWei
                     (Client.format_bytes32 buyAssetId)
                     (Client.format_bytes32 buyLockId)) in
    let failed e := Wallet.Toast "Transaction Failed" (message e) true in
    let submitted_toast :=
      Wallet.Toast "Transaction Submitted"
                   "Your lock sell transaction has been submitted" false in
    match snd (Wallet.getTokenContract s tokenAddress) with
    | inr (Some tokenContract) =>
        let '(approvals, a) :=
          Wallet.ensure_allowance swapAddress tokenContract
            (Wallet.account s) tokenAddress valueWei in
        match a with
        | inl e => ((es ++ approvals ++ [failed e])%list, inl e)
        | inr _ =>
            match Wallet.send swap call with
            | inl e =>
                ((es ++ approvals ++ [Wallet.Submit call None; failed e])%list,
                 inl e)
            | inr (inl e) =>
                ((es ++ approvals
                  ++ [Wallet.Submit call None; submitted_toast; failed e])%list,
                 inl e)
            | inr (inr receipt) =>
                match Client.lockSell_lockId (Wallet.word_account w)
                        (Wallet.parsed_logs swapAddress receipt)
                        (Wallet.word_token w) (Wallet.word_recipient w)
                        (Wallet.word_hashedSecret w) (Wallet.word_timeout w)
                        valueWei with
                | inl e =>
                    ((es ++ approvals
                      ++ [Wallet.Submit call None; submitted_toast; failed e])%list,
                     inl e)
                | inr lockId =>
                    ((es ++ approvals
                      ++ [Wallet.Submit call None; submitted_toast;
                          Wallet.Toast "Lock Sell Created"
                            "Your lock sell has been successfully created"
                            false])%list,
                     inr (Some lockId))
                end
            end
        end
    | _ =>
        let e := Client.Thrown "TypeError" in
        ((es ++ [failed e])%list, inl e)
    end.
Proof.
  intros Hswap Hsg Hvalue. unfold Wallet.lockSell.
  rewrite Hswap, Hsg, Hvalue, shown_and_rethrown.
  destruct (verifySigner_run s) as (es1 & r1 & -> & Hes1).
  destruct (getTokenContract_run s tokenAddress) as (es2 & r2 & Htoken & Hes2).
  exists (es1 ++ es2)%list. split; [apply Forall_app; split; assumption|].
  rewrite andThen_return. cbn [Wallet.await Wallet.andThen].
  rewrite Htoken. cbn [snd].
  destruct r2 as [tokenContract|];
    cbn -[Wallet.ensure_allowance Client.lockSell_lockId];
    [|rewrite !app_nil_r, <- app_assoc; reflexivity].
  destruct (Wallet.ensure_allowance _ _ _ _ _) as [approvals [e|[]]];
    cbn -[Client.lockSell_lockId];
    try (rewrite ?app_nil_r, <- ?app_assoc; reflexivity).
  destruct (Wallet.send swap _) as [e|[e|receipt]];
    cbn -[Client.lockSell_lockId];
    try (rewrite ?app_nil_r, <- ?app_assoc; reflexivity).
  destruct (Client.lockSell_lockId _ _ _ _ _ _ _) as [e|lockId];
    cbn; rewrite ?app_nil_r, <- ?app_assoc; reflexivity.
Qed.

Lemma submitted_app (es es' : list Wallet.Action) :
  Wallet.submitted (es ++ es') = (Wallet.submitted es ++ Wallet.submitted es')%list.
Proof. apply omap_app. Qed.

Lemma submitted_reconnects (es : list Wallet.Action) :
  Forall (fun a => a = Wallet.Reconnect) es -> Wallet.submitted es = [].
Proof. induction 1 as [|a es -> _ IH]; [reflexivity|exact IH]. Qed.



(** X26: When verifySigner yields no signer there is no token contract;
    lockBuy then reports that it failed to create one, while lockSell
    runs into a TypeError on the missing contract. Neither submits
    anything. *)
Theorem creation_without_token_contract (s : Wallet.Session)
    (w : Wallet.Words) (swap : Wallet.Swap) (sg : Wallet.Signer)
    (tokenAddress recipient hashedSecret : string)
    (timeout value sellPrice : Client.JsValue) (id1 id2 : option string)
    (raw1 raw2 : bool) (buyWei sellPriceWei sellWei : Z) :
  Wallet.swapContract s = Some swap -> Wallet.signer s = Some sg ->
  Client.lockBuy_valueWei raw1 value = inr buyWei ->
  Wallet.lockBuy_sellPriceWei raw2 sellPrice = inr sellPriceWei ->
  Client.lockSell_valueWei raw1 value = inr sellWei ->
  snd (Wallet.verifySigner s) = inr None ->
  let buy := lockBuy s tokenAddress recipient hashedSecret timeout value
                     id1 sellPrice raw1 raw2 in
  let sell := lockSell s w tokenAddress recipient hashedSecret timeout value
                       id1 id2 raw1 in
  snd buy = inl (Client.Error_ "Failed to create token contract instance")
  /\ last (fst buy)
     = Some (Wallet.Toast "Transaction Failed"
                          "Failed to create token contract instance" true)
  /\ Wallet.submitted (fst buy) = []
  /\ snd sell = inl (Client.Thrown "TypeError")
  /\ last (fst sell)
     = Some (Wallet.Toast "Transaction Failed" (thrown_message "TypeError") true)
  /\ Wallet.submitted (fst sell) = [].
Proof.
  intros Hswap Hsg Hbuy Hprice Hsell Hverify buy sell. subst buy sell.
  assert (Htoken : snd (Wallet.getTokenContract s tokenAddress) = inr None).
  { unfold Wallet.getTokenContract. rewrite Hsg.
    destruct (Wallet.verifySigner s) as [es r]. cbn [snd] in Hverify.
    subst r. reflexivity. }
  destruct (lockBuy_connected s swap sg tokenAddress recipient hashedSecret
              timeout value id1 sellPrice raw1 raw2 buyWei sellPriceWei
              Hswap Hsg Hbuy Hprice) as (es & Hes & ->).
  destruct (lockSell_connected s w swap sg tokenAddress recipient hashedSecret
              timeout value id1 id2 raw1 sellWei Hswap Hsg Hsell)
    as (es' & Hes' & ->).
  cbv zeta. rewrite Htoken. cbn [fst snd].
  rewrite !last_snoc, !submitted_app.
  rewrite (submitted_reconnects es Hes), (submitted_reconnects es' Hes').
  repeat split; reflexivity.
Qed.

(** X24: Whenever lockSell submits a call, it is the lockSell call on the
    parsed amount with the two identifiers normalised and no gas
    limit, the allowance was read, and an approval that was needed has
    been mined. *)
Theorem lockSell_submit_guarded (s : Wallet.Session) (w : Wallet.Words)
    (tokenAddress recipient hashedSecret : string)
    (timeout value : Client.JsValue) (buyAssetId buyLockId : option string)
    (useRawValue : bool) (call : Wallet.ContractCall) (gasLimit : option Z) :
  In (Wallet.Submit call gasLimit)
     (fst (lockSell s w tokenAddress recipient hashedSecret timeout value
                    buyAssetId buyLockId useRawValue)) ->
  exists valueWei currentAllowance,
    Client.lockSell_valueWei useRawValue value = inr valueWei /\
    call = Wallet.CallLockSell
             (Client.mkLockSellCall tokenAddress recipient hashedSecret
                (Client.floor_Number timeout) valueWei
                (Client.format_bytes32 buyAssetId)
                (Client.format_bytes32 buyLockId)) /\
    gasLimit = None /\
    Wallet.allowance (Wallet.erc20 s tokenAddress) (Wallet.account s) swapAddress
    = inr currentAllowance /\
    (currentAllowance < valueWei ->
     Wallet.approve (Wallet.erc20 s tokenAddress) swapAddress valueWei
     = inr (inr tt)).
Proof.
  destruct (Wallet.swapContract s) as [swap|] eqn:Hswap;
    [|unfold Wallet.lockSell; rewrite Hswap; intros [H|[]]; discriminate H].
  destruct (Wallet.signer s) as [sg|] eqn:Hsg;
    [|unfold Wallet.lockSell; rewrite Hswap, Hsg; intros [H|[]]; discriminate H].
  destruct (Client.lockSell_valueWei useRawValue value) as [e|valueWei] eqn:Hvalue.
  { unfold Wallet.lockSell. rewrite Hswap, Hsg, Hvalue, shown_and_rethrown.
    destruct (verifySigner_run s) as (es1 & r1 & -> & Hes1).
    cbn. rewrite app_nil_r.
    intros [H|[H|[]]]%in_app_iff; [|discriminate H].
    apply (in_reconnects _ _ Hes1) in H. discriminate H. }
  destruct (lockSell_connected s w swap sg tokenAddress recipient hashedSecret
              timeout value buyAssetId buyLockId useRawValue valueWei
              Hswap Hsg Hvalue) as (es & Hes & ->).
  cbv zeta.
  assert (Hno : forall (l : list Wallet.Action) (P : Prop),
             In (Wallet.Submit call gasLimit) (es ++ l) ->
             (In (Wallet.Submit call gasLimit) l -> P) -> P).
  { intros l P [H|H]%in_app_iff HP; [|exact (HP H)].
    apply (in_reconnects _ _ Hes) in H. discriminate H. }
  destruct (snd (Wallet.getTokenContract s tokenAddress))
    as [e|[tokenContract|]] eqn:Htoken;
    try (cbn [fst]; intros H; apply (Hno _ _ H); intros [H'|[]]; discriminate H').
  apply getTokenContract_token in Htoken as ->.
  pose proof (in_approvals (Wallet.erc20 s tokenAddress) (Wallet.account s)
                tokenAddress valueWei (Wallet.Submit call gasLimit)) as Happ.
  pose proof (allowance_ensured (Wallet.erc20 s tokenAddress) (Wallet.account s)
                tokenAddress valueWei) as Hens.
  destruct (Wallet.ensure_allowance _ _ _ _ _) as [approvals [e|[]]];
    cbn [fst snd] in Happ, Hens.
  { cbn [fst]. intros H. apply (Hno _ _ H).
    intros [H'|[H'|[]]]%in_app_iff; [|discriminate H'].
    apply Happ in H' as [H' _]. discriminate H'. }
  destruct (Hens tt eq_refl) as (currentAllowance & Hal & Happrove).
  intros H. exists valueWei, currentAllowance.
  assert (Hcall : In (Wallet.Submit call gasLimit)
                     [Wallet.Submit
                        (Wallet.CallLockSell
                           (Client.mkLockSellCall tokenAddress recipient
                              hashedSecret (Client.floor_Number timeout) valueWei
                              (Client.format_bytes32 buyAssetId)
                              (Client.format_bytes32 buyLockId))) None]).
  { destruct (Wallet.send swap _) as [e|[e|receipt]];
      [| |destruct (Client.lockSell_lockId _ _ _ _ _ _ _)];
      cbn [fst] in H; apply (Hno _ _ H);
      (intros [H'|H']%in_app_iff;
       [apply Happ in H' as [H' _]; discriminate H'|]);
      cbn in H'; decompose [or] H'; try discriminate; try contradiction;
      left; assumption. }
  destruct Hcall as [[= <- <-]|[]].
  repeat split; assumption.
Qed.

(** X16: Without a swap contract or without a signer no wrapper reaches
    the outside: each shows the one toast and returns undefined. *)
Theorem wrappers_need_connection (s : Wallet.Session) (w : Wallet.Words)
    (tokenAddress party word : string) (timeout value price : Client.JsValue)
    (id1 id2 : option string) (raw1 raw2 : bool) :
  Wallet.swapContract s = None \/ Wallet.signer s = None ->
  let refused {A} (run : Wallet.Run (option A)) :=
    run = ([Wallet.Toast "Error" "Wallet not connected" true], inr None) in
  refused (lockBuy s tokenAddress party word timeout value id1 price raw1 raw2)
  /\ refused (lockSell s w tokenAddress party word timeout value id1 id2 raw1)
  /\ refused (unlock s tokenAddress party word timeout)
  /\ refused (retrieve s tokenAddress party word timeout)
  /\ refused (decline s tokenAddress party word timeout).
Proof.
  intros H refused. subst refused.
  unfold Wallet.lockBuy, Wallet.lockSell, Wallet.unlock, Wallet.retrieve,
    Wallet.decline, Wallet.resolve.
  destruct H as [-> | ->]; [|destruct (Wallet.swapContract s)];
    repeat split; reflexivity.
Qed.

(** X17: Connected, the three resolution wrappers submit their call
    once, with the floored timeout and no gas limit, and return or
    throw what the call and its receipt return or throw; what
    verifySigner finds does not matter. *)
Theorem resolution_wrappers_forward (s : Wallet.Session) (swap : Wallet.Swap)
    (sg : Wallet.Signer) (tokenAddress party word : string)
    (timeout : Client.JsValue) :
  Wallet.swapContract s = Some swap -> Wallet.signer s = Some sg ->
  let forwards (run : Wallet.Run (option (list Wallet.RawLog))) call :=
    Wallet.submitted (fst run) = [(call, None)] /\
    snd run = match Wallet.send swap call with
              | inl e => inl e
              | inr (inl e) => inl e
              | inr (inr receipt) => inr (Some receipt)
              end in
  forwards (unlock s tokenAddress party word timeout)
           (Wallet.CallUnlock tokenAddress party word (Client.floor_Number timeout))
  /\ forwards (retrieve s tokenAddress party word timeout)
           (Wallet.CallRetrieve tokenAddress party word (Client.floor_Number timeout))
  /\ forwards (decline s tokenAddress party word timeout)
           (Wallet.CallDecline tokenAddress party word (Client.floor_Number timeout)).
Proof.
  intros Hswap Hsg forwards. subst forwards.
  assert (Hsub : forall es, Forall (fun a => a = Wallet.Reconnect) es ->
                            forall es', Wallet.submitted (es ++ es') = Wallet.submitted es').
  { induction 1 as [|a es -> _ IH]; intros es'; [reflexivity|]. apply IH. }
  unfold Wallet.unlock, Wallet.retrieve, Wallet.decline. cbv zeta.
  repeat split;
    match goal with
    | |- context [resolve s ?call ?t1 ?t2 ?t3] =>
        destruct (resolve_connected s swap sg call t1 t2 t3 Hswap Hsg)
          as (es & Hes & ->)
    end;
    destruct (Wallet.send swap _) as [e|[e|receipt]]; cbn [fst snd];
    rewrite ?(Hsub es Hes); reflexivity.
Qed.

(** X18: A wrapper that throws has shown the failure in a destructive
    toast as its last action, and throws the error it caught. *)
Theorem failures_shown_and_rethrown (s : Wallet.Session) (w : Wallet.Words)
    (tokenAddress party word : string) (timeout value price : Client.JsValue)
    (id1 id2 : option string) (raw1 raw2 : bool) (error : Client.JsError) :
  let shown {A} (run : Wallet.Run A) (text : string) :=
    snd run = inl error ->
    exists es, fst run = (es ++ [Wallet.Toast "Transaction Failed" text true])%list in
  shown (lockBuy s tokenAddress party word timeout value id1 price raw1 raw2)
        (Wallet.lockBuy_errorMessage thrown_message revert_message revert_data error)
  /\ shown (lockSell s w tokenAddress party word timeout value id1 id2 raw1)
           (message error)
  /\ shown (unlock s tokenAddress party word timeout) (message error)
  /\ shown (retrieve s tokenAddress party word timeout) (message error)
  /\ shown (decline s tokenAddress party word timeout) (message error).
Proof.
  intros shown. subst shown.
  unfold Wallet.lockBuy, Wallet.lockSell, Wallet.unlock, Wallet.retrieve,
    Wallet.decline, Wallet.resolve. cbv zeta.
  destruct (Wallet.swapContract s) as [swap|];
    [|repeat split; intros H; discriminate H].
  destruct (Wallet.signer s) as [sg|];
    [|repeat split; intros H; discriminate H].
  repeat split; rewrite shown_and_rethrown;
    match goal with
    | |- context [match snd ?body with _ => _ end] =>
        destruct (snd body) as [e|r] eqn:Hbody
    end; cbn [fst snd];
    try (intros [= ->]; eexists; reflexivity);
    intros H; rewrite H in Hbody; discriminate Hbody.
Qed.

(** X27: VerifySigner never throws. It replaces the signer only when the
    signer's address differs from the account in more than letter
    case, and then it returns the provider's signer as it is. *)
Theorem verifySigner_replaces_on_mismatch (s : Wallet.Session) :
  exists r,
    snd (Wallet.verifySigner s) = inr r /\
    (In Wallet.Reconnect (fst (Wallet.verifySigner s)) ->
     exists sg address acc newSigner,
       Wallet.signer s = Some sg /\ Wallet.getAddress sg = inr address /\
       Wallet.account s = Some acc /\
       Text.toLowerCase address <> Text.toLowerCase acc /\
       Wallet.provider s = Some (inr newSigner) /\ r = Some newSigner).
Proof.
  unfold Wallet.verifySigner.
  destruct (Wallet.signer s) as [sg|]; [|exists None; split; [reflexivity|intros []]].
  destruct (Wallet.provider s) as [getSigner|];
    [|exists None; split; [reflexivity|intros []]].
  destruct (Wallet.account s) as [acc|]; cbn [Wallet.missing];
    [|exists None; split; [reflexivity|intros []]].
  destruct (String.eqb acc ""); [exists None; split; [reflexivity|intros []]|].
  destruct (Wallet.getAddress sg) as [e|address] eqn:Haddr; cbn;
    [exists None; split; [reflexivity|intros []]|].
  destruct (String.eqb_spec (Text.toLowerCase address) (Text.toLowerCase acc))
    as [Heq|Hne]; cbn; [exists (Some sg); split; [reflexivity|intros []]|].
  destruct getSigner as [e|newSigner]; cbn;
    [exists None; split; [reflexivity|intros []]|].
  exists (Some newSigner). split; [reflexivity|]. intros _.
  exists sg, address, acc, newSigner. repeat split; try reflexivity; assumption.
Qed.

End WalletFacts.

Section TokenBalances.
Context {R : Client.Runtime}.
Variable formatUnits : Z -> Z -> Client.Js string.

(** X28: GetTokenBalance never throws. It returns one of the two zero
    records, or the balance the token reports with its decimal text,
    the symbol ??? if the token gives none, and 18 decimals if the
    token gives none. *)
Theorem getTokenBalance_never_throws (s : Wallet.Session) (tokenAddress : string) :
  exists b,
    snd (Wallet.getTokenBalance formatUnits s tokenAddress) = inr b /\
    (b = Wallet.mkTokenBalance "0" 18 "" None \/
     b = Wallet.mkTokenBalance "0" 18 "" (Some "0") \/
     let tokenContract := Wallet.erc20 s tokenAddress in
     exists balance,
       Wallet.balanceOf tokenContract (Wallet.account s) = inr balance /\
       Wallet.balance b = Client.decimal_String balance /\
       Wallet.balance_symbol b
       = match Wallet.symbol tokenContract with
         | inr tokenSymbol => tokenSymbol
         | inl _ => "???"
         end /\
       Wallet.balance_decimals b
       = match Wallet.decimals tokenContract with
         | inr tokenDecimals => tokenDecimals
         | inl _ => 18
         end /\
       option_map inr (Wallet.formatted b)
       = Some (formatUnits balance (Wallet.balance_decimals b))).
Proof.
  unfold Wallet.getTokenBalance.
  destruct (Wallet.signer s) as [sg|] eqn:Hsg; [|eexists; split; [reflexivity|auto]].
  destruct (Wallet.provider s) as [getSigner|];
    [|eexists; split; [reflexivity|auto]].
  destruct (Wallet.missing (Wallet.account s));
    [eexists; split; [reflexivity|auto]|].
  destruct (verifySigner_run s) as (es1 & r1 & -> & Hes1).
  pose proof (getTokenContract_token s tokenAddress) as Htoken.
  destruct (getTokenContract_run s tokenAddress) as (es2 & r2 & Hrun & Hes2).
  rewrite Hrun in *. cbn [snd] in Htoken.
  rewrite andThen_return. cbn [Wallet.andThen].
  destruct r2 as [tokenContract|]; cbn;
    [|eexists; split; [reflexivity|auto]].
  rewrite <- (Htoken tokenContract eq_refl).
  destruct (Wallet.symbol tokenContract) as [e1|tokenSymbol];
    destruct (Wallet.decimals tokenContract) as [e2|tokenDecimals];
    cbn;
    destruct (Wallet.balanceOf tokenContract (Wallet.account s)) as [e3|balance];
    cbn;
    try (eexists; split; [reflexivity|auto]; fail);
    match goal with
    | |- context [formatUnits ?b ?d] => destruct (formatUnits b d) as [e4|text] eqn:Hf
    end;
    cbn;
    try (eexists; split; [reflexivity|auto]; fail);
    (eexists; split; [reflexivity|]; right; right; exists balance;
     cbn; rewrite Hf; auto).
Qed.

End TokenBalances.

Section AccountRequests.
Variable A : Type.

Lemma first_found_error (ms : list (Client.Js (option (list A))))
    (lastError : option Client.JsError) (e : Client.JsError) :
  Wallet.first_found A ms lastError = inl e ->
  In (inl e) ms \/
  e = default (Client.Error_ "All account request methods failed") lastError.
Proof.
  revert lastError. induction ms as [|m ms IH]; intros lastError; cbn.
  - intros [= <-]. right. reflexivity.
  - destruct m as [e'|accounts].
    + intros H. apply IH in H as [H|H]; [auto|].
      cbn in H. subst e. auto.
    + destruct (Wallet.found A accounts); [discriminate|].
      intros H. apply IH in H as [H|H]; auto.
Qed.






End AccountRequests.



(** ** The sample session *)

Section WalletChecks.
Import Client Wallet Trial.
Local Existing Instance IntegerRuntime.

Local Abbreviation lockBuy_call :=
  (CallLockBuy token bob commitment (1000 : Z) 5000000 ZeroHash 2000000).

Lemma wrappers_need_connection_witness :
  Wallet.unlock thrown_message revert_message offline token alice commitment (1000 : Z)
  = ([Toast "Error" "Wallet not connected" true], inr None).
Proof.
  exact (proj1 (proj2 (proj2
           (wrappers_need_connection thrown_message revert_message revert_data
              swapAddress offline words token alice commitment
              (1000 : Z) (5 : Z) (2 : Z) None None false false
              (or_introl eq_refl))))).
Defined.

Lemma resolution_wrappers_forward_witness :
  submitted (fst (Wallet.decline thrown_message revert_message
                    (session failing_swap (coin 0 0)) token alice commitment
                    (1000 : Z)))
  = [(CallDecline token alice commitment (1000 : Z), None)]
  /\ snd (Wallet.decline thrown_message revert_message
            (session failing_swap (coin 0 0)) token alice commitment (1000 : Z))
     = inl (CallException "LockNotFound" [0]).
Proof.
  exact (proj2 (proj2
           (resolution_wrappers_forward thrown_message revert_message
              (session failing_swap (coin 0 0)) failing_swap
              (signer_of "0x00000000000000000000000000000000000000A1")
              token alice commitment (1000 : Z) eq_refl eq_refl))).
Defined.

Lemma lockBuy_submit_guarded_witness :
  exists valueWei sellPriceWei currentAllowance,
    lockBuy_valueWei false (5 : Z) = inr valueWei /\
    lockBuy_sellPriceWei false (2 : Z) = inr sellPriceWei /\
    lockBuy_call
    = CallLockBuy token bob commitment (floor_Number (1000 : Z)) valueWei
                  (AssetId.format_sellAssetId None) sellPriceWei /\
    Some 1000000 = Some 1000000 /\
    (forall balance,
       balanceOf (coin 9000000 0) (Some alice) = inr balance ->
       valueWei <= balance) /\
    allowance (coin 9000000 0) (Some alice) swapAddress = inr currentAllowance /\
    (currentAllowance < valueWei ->
     approve (coin 9000000 0) swapAddress valueWei = inr (inr tt)).
Proof.
  apply (lockBuy_submit_guarded thrown_message revert_message revert_data
           swapAddress (session (swap [lockBuy_log]) (coin 9000000 0))
           token bob commitment (1000 : Z) (5 : Z) None (2 : Z) false false).
  vm_compute. auto.
Defined.

Lemma lockBuy_estimate_then_submit_witness :
  In (Submit lockBuy_call (Some 1000000))
     (fst (Wallet.lockBuy thrown_message revert_message revert_data swapAddress
             (session failing_swap (coin 9000000 9000000))
             token bob commitment (1000 : Z) (5 : Z) None (2 : Z) false false)).
Proof.
  apply (lockBuy_estimate_then_submit thrown_message revert_message revert_data
           swapAddress (session failing_swap (coin 9000000 9000000))
           token bob commitment (1000 : Z) (5 : Z) None (2 : Z) false false).
  vm_compute. auto.
Defined.

Lemma lockBuy_approves_the_shortfall_witness :
  token = token /\ swapAddress = swapAddress /\
  lockBuy_valueWei false (5 : Z) = inr 5000000 /\
  exists currentAllowance,
    allowance (coin 9000000 4999999) (Some alice) swapAddress
    = inr currentAllowance /\
    currentAllowance < 5000000.
Proof.
  apply (lockBuy_approves_the_shortfall thrown_message revert_message
           revert_data swapAddress
           (session (swap [lockBuy_log]) (coin 9000000 4999999))
           token bob commitment (1000 : Z) (5 : Z) None (2 : Z) false false).
  vm_compute. auto.
Defined.

Lemma lockBuy_insufficient_balance_witness :
  snd (Wallet.lockBuy thrown_message revert_message revert_data swapAddress
         (session (swap [lockBuy_log]) (coin 4999999 0))
         token bob commitment (1000 : Z) (5 : Z) None (2 : Z) false false)
  = inl (Error_ "Insufficient token balance. You have 4999999 but need 5000000").
Proof.
  destruct (lockBuy_insufficient_balance thrown_message revert_message
              revert_data swapAddress
              (session (swap [lockBuy_log]) (coin 4999999 0))
              (swap [lockBuy_log])
              (signer_of "0x00000000000000000000000000000000000000A1")
              token bob commitment (1000 : Z) (5 : Z) None (2 : Z) false false
              5000000 2000000 4999999 (coin 4999999 0)
              eq_refl eq_refl eq_refl eq_refl eq_refl eq_refl eq_refl)
    as (es & _ & ->).
  reflexivity.
Defined.

Lemma lockBuy_approval_failure_witness :
  snd (Wallet.lockBuy thrown_message revert_message revert_data swapAddress
         (session (swap [lockBuy_log]) frozen_coin)
         token bob commitment (1000 : Z) (5 : Z) None (2 : Z) false false)
  = inl (Error_ "Failed to approve token transfer: execution reverted: TransferInFailed").
Proof.
  exact (proj1
           (lockBuy_approval_failure thrown_message revert_message revert_data
              swapAddress (session (swap [lockBuy_log]) frozen_coin)
              (swap [lockBuy_log])
              (signer_of "0x00000000000000000000000000000000000000A1")
              token bob commitment (1000 : Z) (5 : Z) None (2 : Z) false false
              5000000 2000000 frozen_coin
              (CallException "TransferInFailed" [0xc3; 0xa1; 0])
              eq_refl eq_refl eq_refl eq_refl eq_refl eq_refl eq_refl)).
Defined.


Lemma creation_without_token_contract_witness :
  snd (Wallet.lockBuy thrown_message revert_message revert_data swapAddress
         unverified token bob commitment (1000 : Z) (5 : Z) None (2 : Z)
         false false)
  = inl (Error_ "Failed to create token contract instance")
  /\ snd (Wallet.lockSell thrown_message revert_message swapAddress
            unverified words token bob commitment (1000 : Z) (5 : Z) None None
            false)
     = inl (Thrown "TypeError").
Proof.
  pose proof (creation_without_token_contract thrown_message revert_message
                revert_data swapAddress unverified words (swap [])
                (signer_of alice) token bob commitment (1000 : Z) (5 : Z)
                (2 : Z) None None false false 5000000 2000000 5000000
                eq_refl eq_refl eq_refl eq_refl eq_refl eq_refl)
    as (Hbuy & _ & _ & Hsell & _).
  split; [exact Hbuy|exact Hsell].
Defined.

Lemma lockSell_submit_guarded_witness :
  exists valueWei currentAllowance,
    lockSell_valueWei true (5 : Z) = inr valueWei /\
    CallLockSell (mkLockSellCall token bob commitment (1000 : Z) 5000000
                                 ZeroHash ZeroHash)
    = CallLockSell (mkLockSellCall token bob commitment (floor_Number (1000 : Z))
                                   valueWei (format_bytes32 None)
                                   (format_bytes32 (Some "77"))) /\
    @None Z = None /\
    allowance (coin 0 0) (Some alice) swapAddress = inr currentAllowance /\
    (currentAllowance < valueWei ->
     approve (coin 0 0) swapAddress valueWei = inr (inr tt)).
Proof.
  apply (lockSell_submit_guarded thrown_message revert_message swapAddress
           (session (swap [lockSell_log]) (coin 0 0)) words
           token bob commitment (1000 : Z) (5 : Z) None (Some "77") true).
  vm_compute. auto.
Defined.


Example verifySigner_stale_session :
  verifySigner stale_session = ([Reconnect], inr (Some (signer_of bob))).
Proof. reflexivity. Qed.

Example verifySigner_ignores_case :
  verifySigner (session (swap []) (coin 0 0))
  = ([], inr (Some (signer_of "0x00000000000000000000000000000000000000A1"))).
Proof. reflexivity. Qed.

Example lockBuy_sample_run :
  Wallet.lockBuy thrown_message revert_message revert_data swapAddress
    (session (swap [lockBuy_log]) (coin 9000000 0))
    token bob commitment (1000 : Z) (5 : Z) None (2 : Z) false false
  = ([Approve token swapAddress 5000000;
      EstimateGas lockBuy_call;
      Submit lockBuy_call (Some 1000000);
      Toast "Transaction Submitted"
            "Your lock buy transaction has been submitted" false;
      Toast "Lock Buy Created"
            "Your lock buy has been successfully created with ID: 0x00000000..."
            false],
     inr (Some (Some 0xabcdef))).
Proof. vm_compute. reflexivity. Qed.

Example getRequestedAccounts_quiet_wallet :
  getRequestedAccounts string quiet_wallet = inr [alice].
Proof. reflexivity. Qed.

End WalletChecks.
